(** * Orders, stock and accounts over the JSON file store

    A shallow embedding of [app/core/database.py] (the [JSONDatabase] class)
    and of the route handlers of [app/api/v1/orders.py], [app/api/v1/auth.py]
    and [app/api/v1/users.py], followed by the properties of the inventory
    transactions, of registration and of the access rules.

    Python dicts are finite maps from field names to values, a collection
    file is the list of its records, and a handler is a program over three
    effects: suspending at [await asyncio.sleep(0)], reading a collection file
    and writing one.  The same program is run in two ways: to completion
    (one request at a time), and turn by turn under a schedule (several
    requests sharing the event loop). *)

From Stdlib Require Import ZArith Floats.SpecFloat.
From stdpp Require Import base option strings gmap list fin_maps.

Open Scope string_scope.
Open Scope Z_scope.

(** ** Python values *)

Module Py.

(** Python's [float] is IEEE 754 binary64. *)
Definition float : Type := spec_float.
Definition prec : Z := 53.
Definition emax : Z := 1024.

Definition float_add (x y : float) : float := SFadd prec emax x y.
Definition float_sub (x y : float) : float := SFsub prec emax x y.
Definition float_mul (x y : float) : float := SFmul prec emax x y.

(** [float(z)] for an [int]: the nearest double, and [OverflowError]
    ("int too large to convert to float") when there is none; [None] stands
    for the error here. *)
Definition float_of_int (z : Z) : option float :=
  match binary_normalize prec emax z 0 false with
  | S754_infinity _ => None
  | f => Some f
  end.

(** [f < z] for a float and an int, which Python decides on the exact
    values. *)
Definition float_lt_int (f : float) (z : Z) : bool :=
  match f with
  | S754_nan => false
  | S754_infinity s => s
  | S754_zero _ => bool_decide (0 < z)
  | S754_finite s m e =>
      let v := if s then Z.neg m else Z.pos m in
      if bool_decide (0 <= e) then bool_decide (v * 2 ^ e < z)
      else bool_decide (v < z * 2 ^ (- e))
  end.

(** [OrderItem] of [app/models/order.py]; in a stored order each element of
    ["items"] is the dict [item.dict()] with these four keys. *)
Record OrderItem : Type := {
  product_id : string;
  product_name : string;
  quantity : Z;
  price : float
}.

(** The values found in a record: what [json.load] yields, with the list of
    item dicts of an order as the one kind of list. *)
Inductive value : Type :=
  | VNone
  | VBool (b : bool)
  | VInt (z : Z)
  | VFloat (f : float)
  | VStr (s : string)
  | VItems (l : list OrderItem).

#[export] Instance float_eq_dec : EqDecision float.
Proof. unfold float. solve_decision. Defined.

#[export] Instance OrderItem_eq_dec : EqDecision OrderItem.
Proof. solve_decision. Defined.

#[export] Instance value_eq_dec : EqDecision value.
Proof. solve_decision. Defined.

(** The exceptions a handler can end with: the five of
    [app/core/exceptions.py] and the built-in ones that subscripting,
    arithmetic and method calls on a JSON value can raise. *)
Inductive exn : Type :=
  | NotFoundException
  | UnauthorizedException
  | ForbiddenException
  | BadRequestException
  | ConflictException
  | KeyError
  | TypeError
  | OverflowError
  | AttributeError.

#[export] Instance exn_eq_dec : EqDecision exn.
Proof. solve_decision. Defined.

(** How a call ends. *)
Inductive outcome (A : Type) : Type :=
  | Returned (a : A)
  | Raised (e : exn).
Arguments Returned {A} a.
Arguments Raised {A} e.

Definition succeeded {A} (o : outcome A) : bool :=
  match o with Returned _ => true | Raised _ => false end.

End Py.
Export Py.

(** A record is a dict with string keys. *)
Abbreviation record := (gmap string value).

(** ** The collection files *)

Inductive filename : Type := users_json | products_json | orders_json.

(** The data directory: one list of records per file.  [JSONDatabase.__init__]
    creates a missing file holding [[]], so every file can be read. *)
Record Store : Type := {
  users : list record;
  products : list record;
  orders : list record
}.

Definition _read (self : filename) (s : Store) : list record :=
  match self with
  | users_json => users s
  | products_json => products s
  | orders_json => orders s
  end.

Definition _write (self : filename) (data : list record) (s : Store) : Store :=
  match self with
  | users_json => {| users := data; products := products s; orders := orders s |}
  | products_json => {| users := users s; products := data; orders := orders s |}
  | orders_json => {| users := users s; products := products s; orders := data |}
  end.

(** ** Handlers as programs *)

(** A coroutine: it returns, raises, suspends ([await asyncio.sleep(0)]),
    reads a file or writes one. *)
Inductive task (A : Type) : Type :=
  | Ret (a : A)
  | Raise (e : exn)
  | Sleep (k : task A)
  | ReadFile (f : filename) (k : list record → task A)
  | WriteFile (f : filename) (data : list record) (k : task A).
Arguments Ret {A} a.
Arguments Raise {A} e.
Arguments Sleep {A} k.
Arguments ReadFile {A} f k.
Arguments WriteFile {A} f data k.

Fixpoint bind {A B} (t : task A) (k : A → task B) : task B :=
  match t with
  | Ret a => k a
  | Raise e => Raise e
  | Sleep t' => Sleep (bind t' k)
  | ReadFile f h => ReadFile f (λ data, bind (h data) k)
  | WriteFile f data t' => WriteFile f data (bind t' k)
  end.

#[export] Instance task_ret : MRet task := λ A, @Ret A.
#[export] Instance task_bind : MBind task := λ A B k t, bind t k.

(** [for x in l: acc = body(acc, x)], the loop ending at the first exception. *)
Fixpoint for_fold {A B} (body : B → A → task B) (l : list A) (acc : B) : task B :=
  match l with
  | [] => Ret acc
  | x :: l' => acc' ← body acc x; for_fold body l' acc'
  end.

Definition for_each {A} (l : list A) (body : A → task ()) : task () :=
  for_fold (λ _ x, body x) l ().

(** One request at a time: the program runs to its end. *)
Fixpoint run {A} (t : task A) (s : Store) : Store * outcome A :=
  match t with
  | Ret a => (s, Returned a)
  | Raise e => (s, Raised e)
  | Sleep k => run k s
  | ReadFile f k => run (k (_read f s)) s
  | WriteFile f data k => run k (_write f data s)
  end.

(** On the event loop: a coroutine runs until it suspends or ends, and the
    next one in the schedule takes its turn. *)
Fixpoint advance {A} (t : task A) (s : Store) : Store * task A :=
  match t with
  | Ret a => (s, Ret a)
  | Raise e => (s, Raise e)
  | Sleep k => (s, Sleep k)
  | ReadFile f k => advance (k (_read f s)) s
  | WriteFile f data k => advance k (_write f data s)
  end.

Definition turn {A} (t : task A) (s : Store) : Store * task A :=
  match t with
  | Sleep k => advance k s
  | _ => advance t s
  end.

(** The coroutine at position [i] of the pool takes a turn. *)
Definition schedule_one {A} (i : nat) (sp : Store * list (task A)) : Store * list (task A) :=
  match sp.2 !! i with
  | Some t => let '(s', t') := turn t sp.1 in (s', <[i := t']> sp.2)
  | None => sp
  end.

Definition run_schedule {A} (sched : list nat) (sp : Store * list (task A))
  : Store * list (task A) :=
  foldl (λ sp i, schedule_one i sp) sp sched.

Definition finished_ok {A} (t : task A) : bool :=
  match t with Ret _ => true | _ => false end.


(** ** app/core/database.py *)

Module JSONDatabase.

(** [item.get(field) == value] for a [str] value: every caller compares with
    a string. *)
Definition field_is (field value : string) (item : record) : Prop :=
  item !! field = Some (VStr value).

#[export] Instance field_is_dec field value item : Decision (field_is field value item).
Proof. unfold field_is. apply _. Defined.

Definition get_all (self : filename) : task (list record) :=
  Sleep (ReadFile self Ret).

(** [next((item for item in data if item.get(field) == value), None)]. *)
Definition first_match (field value : string) (data : list record) : option record :=
  head (filter (field_is field value) data).

Definition get_by_id (self : filename) (id : string) : task (option record) :=
  data ← get_all self;
  Ret (first_match "id" id data).

Definition get_by_field (self : filename) (field value : string) : task (option record) :=
  data ← get_all self;
  Ret (first_match field value data).

Definition create (self : filename) (item : record) : task record :=
  data ← get_all self;
  WriteFile self (data ++ [item]) (Ret item).

(** The loop of [update]: the first record whose id matches is merged with
    [updates] in place ([item.update(updates)]: the given fields replace the
    stored ones), and the whole list is what gets written. *)
Fixpoint update_first (id : string) (updates : record) (data : list record)
  : option (list record * record) :=
  match data with
  | [] => None
  | item :: rest =>
      if decide (field_is "id" id item)
      then Some ((updates ∪ item) :: rest, updates ∪ item)
      else '(rest', item') ← update_first id updates rest; Some (item :: rest', item')
  end.

Definition update (self : filename) (id : string) (updates : record)
  : task (option record) :=
  data ← get_all self;
  match update_first id updates data with
  | Some (data', item') => WriteFile self data' (Ret (Some item'))
  | None => Ret None
  end.

Definition delete (self : filename) (id : string) : task bool :=
  data ← get_all self;
  let new_data := filter (λ item, ¬ field_is "id" id item) data in
  if bool_decide (length new_data < length data)%nat
  then WriteFile self new_data (Ret true)
  else Ret false.

Definition filter (self : filename) (conditions : list (string * string))
  : task (list record) :=
  data ← get_all self;
  Ret (foldl (λ result kv, base.filter (field_is kv.1 kv.2) result) data conditions).

End JSONDatabase.

(** ** Operations on values *)

Module PyOps.

(** [d[key]]. *)
Definition subscript (d : record) (key : string) : task value :=
  match d !! key with
  | Some v => Ret v
  | None => Raise KeyError
  end.

(** [d[key]] where [d] may be [None]. *)
Definition subscript_opt (d : option record) (key : string) : task value :=
  match d with
  | Some d => subscript d key
  | None => Raise TypeError
  end.

Definition to_float (z : Z) : task float :=
  match float_of_int z with
  | Some f => Ret f
  | None => Raise OverflowError
  end.

(** [v < q], [v - q] and [v + q] for an int [q]: [bool] counts as an int,
    a float takes the int as a float, the rest is a [TypeError]. *)
Definition lt_int (v : value) (q : Z) : task bool :=
  match v with
  | VInt z => Ret (bool_decide (z < q))
  | VBool b => Ret (bool_decide (Z.b2z b < q))
  | VFloat f => Ret (float_lt_int f q)
  | _ => Raise TypeError
  end.

Definition sub_int (v : value) (q : Z) : task value :=
  match v with
  | VInt z => Ret (VInt (z - q))
  | VBool b => Ret (VInt (Z.b2z b - q))
  | VFloat f => qf ← to_float q; Ret (VFloat (float_sub f qf))
  | _ => Raise TypeError
  end.

Definition add_int (v : value) (q : Z) : task value :=
  match v with
  | VInt z => Ret (VInt (z + q))
  | VBool b => Ret (VInt (Z.b2z b + q))
  | VFloat f => qf ← to_float q; Ret (VFloat (float_add f qf))
  | _ => Raise TypeError
  end.

(** [q * p] for an int [q] and a float [p]. *)
Definition int_mul_float (q : Z) (p : float) : task float :=
  qf ← to_float q; Ret (float_mul qf p).

(** [for item in v] followed by [item["product_id"]]: the elements of a list
    of item dicts; an empty string has no elements, the characters of
    another string cannot be subscripted by a key, and the other values
    cannot be iterated. *)
Definition iter_items (v : value) : task (list OrderItem) :=
  match v with
  | VItems l => Ret l
  | VStr "" => Ret []
  | _ => Raise TypeError
  end.

End PyOps.

(** ** app/models *)

(** [OrderCreate]: the request body of order creation has the items and
    nothing else. *)
Module OrderCreate.
Record t : Type := { items : list OrderItem }.
End OrderCreate.

(** [UserInDB]: the principal the route receives from
    [get_current_active_user], with the fields the handlers read. *)
Module UserInDB.
Record t : Type := {
  id : string;
  username : string;
  role : string;
  is_active : bool
}.
End UserInDB.

(** ** app/dependencies.py *)

(** The checks that stand between the resolved user and a route: every
    route below receives its [current_user] from the first, and the routes
    for admins from the second. *)
Module Dependencies.

Definition get_current_active_user (current_user : UserInDB.t) : task UserInDB.t :=
  if UserInDB.is_active current_user
  then Ret current_user
  else Raise ForbiddenException.

Definition get_current_admin_user (current_user : UserInDB.t) : task UserInDB.t :=
  if decide (UserInDB.role current_user ≠ "admin")
  then Raise ForbiddenException
  else Ret current_user.

End Dependencies.

(** ** app/api/v1/orders.py *)

Module Orders.
Import PyOps.

(** [total_amount = 0] holds an int until the first [+=], which adds it to a
    float as [0.0]; the list of items is not empty ([min_items=1]). *)
Definition zero : float := S754_zero false.

(** The body of the first loop of [create_order]: the product is read and
    checked, and the subtotal joins the running total.  The message of the
    insufficient-stock error is formatted from [product['name']] before the
    exception is raised. *)
Definition check_item (total_amount : float) (item : OrderItem) : task float :=
  product ← JSONDatabase.get_by_id products_json (product_id item);
  match product with
  | None => Raise BadRequestException
  | Some product =>
      stock ← subscript product "stock";
      short ← lt_int stock (quantity item);
      if short : bool
      then subscript product "name";; Raise BadRequestException
      else
        subtotal ← int_mul_float (quantity item) (price item);
        Ret (float_add total_amount subtotal)
  end.

(** The body of its second loop: the product is read again and its stock
    lowered. *)
Definition take_stock (utcnow : string) (item : OrderItem) : task () :=
  product ← JSONDatabase.get_by_id products_json (product_id item);
  stock ← subscript_opt product "stock";
  new_stock ← sub_int stock (quantity item);
  JSONDatabase.update products_json (product_id item)
    {[ "stock" := new_stock; "updated_at" := VStr utcnow ]};;
  Ret ().

(** The calls [uuid.uuid4()] and [datetime.utcnow().isoformat()] are inputs:
    [uuid4] is the id drawn for the order and [utcnow] the reading of the
    clock. *)
Definition create_order (uuid4 utcnow : string)
    (order : OrderCreate.t) (current_user : UserInDB.t) : task record :=
  let db_orders := orders_json in
  total_amount ← for_fold check_item (OrderCreate.items order) zero;
  let order_data : record :=
    {[ "id" := VStr uuid4;
       "user_id" := VStr (UserInDB.id current_user);
       "items" := VItems (OrderCreate.items order);
       "status" := VStr "pending";
       "total_amount" := VFloat total_amount;
       "created_at" := VStr utcnow;
       "updated_at" := VNone ]} in
  for_each (OrderCreate.items order) (take_stock utcnow);;
  JSONDatabase.create db_orders order_data;;
  Ret order_data.

(** [update_order_status] is a route for admins
    ([Dependencies.get_current_admin_user]); the status it is given is
    written whatever the current one. *)
Definition update_order_status (utcnow : string) (order_id status : string)
    (current_user : UserInDB.t) : task record :=
  let db := orders_json in
  order ← JSONDatabase.get_by_id db order_id;
  match order with
  | None => Raise NotFoundException
  | Some _ =>
      updated_order ← JSONDatabase.update db order_id
        {[ "status" := VStr status; "updated_at" := VStr utcnow ]};
      match updated_order with
      | Some o => Ret o
      | None => Raise TypeError
      end
  end.

(** The body of the loop of [cancel_order]: the quantity goes back to the
    product, and a product that is gone is skipped. *)
Definition give_back (utcnow : string) (item : OrderItem) : task () :=
  product ← JSONDatabase.get_by_id products_json (product_id item);
  match product with
  | Some product =>
      stock ← subscript product "stock";
      new_stock ← add_int stock (quantity item);
      JSONDatabase.update products_json (product_id item)
        {[ "stock" := new_stock; "updated_at" := VStr utcnow ]};;
      Ret ()
  | None => Ret ()
  end.

(** The permission check of [cancel_order]: anyone but an admin has to own
    the order, and the order has to be pending. *)
Definition check_cancel (order : record) (current_user : UserInDB.t) : task () :=
  if decide (UserInDB.role current_user ≠ "admin")
  then
    owner ← subscript order "user_id";
    if decide (owner ≠ VStr (UserInDB.id current_user))
    then Raise ForbiddenException
    else
      status ← subscript order "status";
      if decide (status ≠ VStr "pending")
      then Raise BadRequestException
      else Ret ()
  else Ret ().

Definition cancel_order (utcnow : string) (order_id : string)
    (current_user : UserInDB.t) : task () :=
  let db_orders := orders_json in
  order ← JSONDatabase.get_by_id db_orders order_id;
  match order with
  | None => Raise NotFoundException
  | Some order =>
      check_cancel order current_user;;
      items ← (v ← subscript order "items"; iter_items v);
      for_each items (give_back utcnow);;
      JSONDatabase.update db_orders order_id
        {[ "status" := VStr "cancelled"; "updated_at" := VStr utcnow ]};;
      Ret ()
  end.

End Orders.

(** ** app/models/user.py *)

(** [UserCreate]: the request body of registration. *)
Module UserCreate.
Record t : Type := {
  username : string;
  email : string;
  full_name : option string;
  password : string
}.
End UserCreate.

(** [UserUpdate]: every field is optional; a field is left unset ([None]
    here), set to [null] ([Some None]) or set to a string. *)
Module UserUpdate.
Record t : Type := {
  email : option (option string);
  full_name : option (option string);
  password : option (option string)
}.

Definition set_field (key : string) (f : option (option string)) (d : record) : record :=
  match f with
  | None => d
  | Some None => <[key := VNone]> d
  | Some (Some s) => <[key := VStr s]> d
  end.

(** [user_update.dict(exclude_unset=True)]. *)
Definition dict_exclude_unset (u : t) : record :=
  set_field "password" (password u)
    (set_field "full_name" (full_name u)
      (set_field "email" (email u) ∅)).
End UserUpdate.

(** ** app/api/v1/auth.py and app/api/v1/users.py *)

Section security.

(** [hashlib.sha256(password.encode()).hexdigest()] of
    [app/core/security.py]. *)
Variable get_password_hash : string → string.

Definition register (uuid4 utcnow : string) (user : UserCreate.t) : task record :=
  let db := users_json in
  existing_user ← JSONDatabase.get_by_field db "username" (UserCreate.username user);
  if existing_user is Some _ then Raise ConflictException else
  existing_email ← JSONDatabase.get_by_field db "email" (UserCreate.email user);
  if existing_email is Some _ then Raise ConflictException else
  let user_data : record :=
    {[ "id" := VStr uuid4;
       "username" := VStr (UserCreate.username user);
       "email" := VStr (UserCreate.email user);
       "full_name" := from_option VStr VNone (UserCreate.full_name user);
       "hashed_password" := VStr (get_password_hash (UserCreate.password user));
       "role" := VStr "user";
       "is_active" := VBool true;
       "created_at" := VStr utcnow;
       "updated_at" := VNone ]} in
  JSONDatabase.create db user_data;;
  Ret user_data.

(** [get_password_hash(v)] on a value taken from the request: [None] has no
    [encode]. *)
Definition hash_value (v : value) : task value :=
  match v with
  | VStr s => Ret (VStr (get_password_hash s))
  | _ => Raise AttributeError
  end.

(** The updates of [update_user]: the fields that the request sets, the
    password replaced by its digest, and the time. *)
Definition prepare_updates (utcnow : string) (user_update : UserUpdate.t) : task record :=
  let update_data := UserUpdate.dict_exclude_unset user_update in
  update_data ←
    match update_data !! "password" with
    | Some pw =>
        h ← hash_value pw;
        Ret (<["hashed_password" := h]> (delete "password" update_data))
    | None => Ret update_data
    end;
  Ret (<["updated_at" := VStr utcnow]> update_data).

(** [update_user] ends with the call of [UserResponse] on the merged record,
    after the write: the record is what the route returns here, and a merged
    record that the model refuses (an email set to [null]) is an error of the
    response alone, the users file being written as below. *)
Definition update_user (utcnow : string) (user_id : string)
    (user_update : UserUpdate.t) (current_user : UserInDB.t) : task record :=
  let db := users_json in
  user ← JSONDatabase.get_by_id db user_id;
  match user with
  | None => Raise NotFoundException
  | Some _ =>
      if decide (UserInDB.role current_user ≠ "admin" ∧ UserInDB.id current_user ≠ user_id)
      then Raise ForbiddenException
      else
        update_data ← prepare_updates utcnow user_update;
        updated_user ← JSONDatabase.update db user_id update_data;
        match updated_user with
        | Some u => Ret u
        | None => Raise TypeError
        end
  end.

End security.

(** ** The other routes *)

(** A route that ends with the call of [OrderResponse], or of another of the
    response models, on a record returns here the record that it hands to the
    model.
    The model is built last, after everything that the route does to the
    store; what pydantic makes of a record of the file that does not fit the
    fields of the model is no part of this development, so that [Returned r]
    reads: the route has come to its [return] with [r]. *)

(** Python's truth of a value, as [if v:] and [not v] take it. *)
Definition truthy (v : value) : bool :=
  match v with
  | VNone => false
  | VBool b => b
  | VInt z => bool_decide (z ≠ 0)
  | VFloat (S754_zero _) => false
  | VFloat _ => true
  | VStr s => bool_decide (s ≠ "")
  | VItems l => bool_decide (l ≠ [])
  end.

(** [l[skip : skip + limit]] for the numbers that [Query(ge=0)] and
    [Query(ge=1)] let through. *)
Definition slice {A} (skip limit : nat) (l : list A) : list A :=
  take limit (drop skip l).

(** A route behind [Depends(get_current_active_user)], and one behind
    [Depends(get_current_admin_user)], which itself depends on the first;
    [user] is the user that [get_current_user] has resolved. *)
Definition as_active {A} (route : UserInDB.t → task A) (user : UserInDB.t) : task A :=
  current_user ← Dependencies.get_current_active_user user;
  route current_user.

Definition as_admin {A} (route : UserInDB.t → task A) (user : UserInDB.t) : task A :=
  current_user ← Dependencies.get_current_active_user user;
  current_user ← Dependencies.get_current_admin_user current_user;
  route current_user.

(** *** app/api/v1/orders.py: the routes that read *)

Module OrderViews.
Import PyOps JSONDatabase.

(** [status] is the optional query parameter; an empty string is as good
    as none for [if status:]. *)
Definition get_orders (skip limit : nat) (status : option string)
    (current_user : UserInDB.t) : task (list record) :=
  let db := orders_json in
  orders ←
    (if decide (UserInDB.role current_user = "admin")
     then JSONDatabase.get_all db
     else JSONDatabase.filter db [("user_id", UserInDB.id current_user)]);
  let orders :=
    match status with
    | Some st =>
        if decide (st ≠ "")
        then base.filter (field_is "status" st) orders
        else orders
    | None => orders
    end in
  Ret (slice skip limit orders).

Definition get_order (order_id : string) (current_user : UserInDB.t) : task record :=
  let db := orders_json in
  order ← JSONDatabase.get_by_id db order_id;
  match order with
  | None => Raise NotFoundException
  | Some order =>
      if decide (UserInDB.role current_user ≠ "admin")
      then
        owner ← subscript order "user_id";
        if decide (owner ≠ VStr (UserInDB.id current_user))
        then Raise ForbiddenException
        else Ret order
      else Ret order
  end.

End OrderViews.

(** *** app/api/v1/users.py *)

Module Users.

Definition get_users (skip limit : nat) (role : option string)
    (current_user : UserInDB.t) : task (list record) :=
  let db := users_json in
  users ←
    match role with
    | Some r =>
        if decide (r ≠ "")
        then JSONDatabase.filter db [("role", r)]
        else JSONDatabase.get_all db
    | None => JSONDatabase.get_all db
    end;
  Ret (slice skip limit users).

Definition get_user (user_id : string) (current_user : UserInDB.t) : task record :=
  let db := users_json in
  user ← JSONDatabase.get_by_id db user_id;
  match user with
  | None => Raise NotFoundException
  | Some user =>
      if decide (UserInDB.role current_user ≠ "admin" ∧ UserInDB.id current_user ≠ user_id)
      then Raise ForbiddenException
      else Ret user
  end.

Definition delete_user (user_id : string) (current_user : UserInDB.t) : task () :=
  let db := users_json in
  user ← JSONDatabase.get_by_id db user_id;
  match user with
  | None => Raise NotFoundException
  | Some _ =>
      if decide (UserInDB.id current_user = user_id)
      then Raise ForbiddenException
      else JSONDatabase.delete db user_id;; Ret ()
  end.

End Users.

(** *** app/api/v1/auth.py: login *)

Section login.

(** [get_password_hash] is the digest of [app/core/security.py], and
    [create_access_token] its token for a dict of claims, with the expiry and
    the key that it adds. *)
Variable get_password_hash : string → string.
Variable create_access_token : record → string.

(** [verify_password]: the digest of the password against what is stored,
    which is any value of the record. *)
Definition verify_password (plain_password : string) (hashed_password : value) : bool :=
  bool_decide (VStr (get_password_hash plain_password) = hashed_password).

Definition login (username password : string) : task record :=
  let db := users_json in
  user_data ← JSONDatabase.get_by_field db "username" username;
  match user_data with
  | None => Raise UnauthorizedException
  | Some user_data =>
      hashed_password ← PyOps.subscript user_data "hashed_password";
      if negb (verify_password password hashed_password)
      then Raise UnauthorizedException
      else
        if negb (truthy (default (VBool true) (user_data !! "is_active")))
        then Raise UnauthorizedException
        else
          sub ← PyOps.subscript user_data "username";
          Ret {[ "access_token" := VStr (create_access_token {[ "sub" := sub ]});
                 "token_type" := VStr "bearer" ]}
  end.

Definition refresh_token (current_user : UserInDB.t) : task record :=
  Ret {[ "access_token" :=
           VStr (create_access_token {[ "sub" := VStr (UserInDB.username current_user) ]});
         "token_type" := VStr "bearer" ]}.

End login.

(** *** app/models/product.py and app/api/v1/products.py *)

Module ProductCreate.
Record t : Type := {
  name : string;
  description : option string;
  price : float;
  stock : Z;
  category : string
}.

(** [product.dict()]. *)
Definition dict (p : t) : record :=
  {[ "name" := VStr (name p);
     "description" := from_option VStr VNone (description p);
     "price" := VFloat (price p);
     "stock" := VInt (stock p);
     "category" := VStr (category p) ]}.
End ProductCreate.

(** [ProductUpdate]: as for [UserUpdate], a field is unset, [null] or
    given. *)
Module ProductUpdate.
Record t : Type := {
  name : option (option string);
  description : option (option string);
  price : option (option float);
  stock : option (option Z);
  category : option (option string)
}.

Definition set_field {A} (key : string) (inj : A → value) (f : option (option A))
    (d : record) : record :=
  match f with
  | None => d
  | Some None => <[key := VNone]> d
  | Some (Some a) => <[key := inj a]> d
  end.

(** [product_update.dict(exclude_unset=True)]. *)
Definition dict_exclude_unset (u : t) : record :=
  set_field "category" VStr (category u)
    (set_field "stock" VInt (stock u)
      (set_field "price" VFloat (price u)
        (set_field "description" VStr (description u)
          (set_field "name" VStr (name u) ∅)))).
End ProductUpdate.

Module Products.

Definition get_product (product_id : string) : task record :=
  let db := products_json in
  product ← JSONDatabase.get_by_id db product_id;
  match product with
  | None => Raise NotFoundException
  | Some product => Ret product
  end.

(** [{"id": ..., **product.dict(), "created_at": ..., "updated_at": None}]. *)
Definition create_product (uuid4 utcnow : string) (product : ProductCreate.t)
    (current_user : UserInDB.t) : task record :=
  let db := products_json in
  let product_data : record :=
    <["updated_at" := VNone]>
      (<["created_at" := VStr utcnow]>
        (ProductCreate.dict product ∪ {[ "id" := VStr uuid4 ]})) in
  JSONDatabase.create db product_data;;
  Ret product_data.

(** [update_product] ends with the call of [ProductResponse] on the merged
    record, after the write: the record is what the route returns here, and
    a merged record that the model refuses (a name, price, stock or category
    set to [null]) is an error of the response alone, the products file being
    written as below. *)
Definition update_product (utcnow : string) (product_id : string)
    (product_update : ProductUpdate.t) (current_user : UserInDB.t) : task record :=
  let db := products_json in
  product ← JSONDatabase.get_by_id db product_id;
  match product with
  | None => Raise NotFoundException
  | Some _ =>
      let update_data := ProductUpdate.dict_exclude_unset product_update in
      let update_data := <["updated_at" := VStr utcnow]> update_data in
      updated_product ← JSONDatabase.update db product_id update_data;
      match updated_product with
      | Some p => Ret p
      | None => Raise TypeError
      end
  end.

Definition delete_product (product_id : string) (current_user : UserInDB.t) : task () :=
  let db := products_json in
  product ← JSONDatabase.get_by_id db product_id;
  match product with
  | None => Raise NotFoundException
  | Some _ => JSONDatabase.delete db product_id;; Ret ()
  end.

End Products.

(** *** app/api/v2/users.py: accounts switched off and on *)

Module UsersV2.

(** Both routes end with a message that names [user['username']], read from
    the record found before the update; the value named is what they return
    here. *)
Definition deactivate_user (utcnow : string) (user_id : string)
    (current_user : UserInDB.t) : task value :=
  let db := users_json in
  user ← JSONDatabase.get_by_id db user_id;
  match user with
  | None => Raise NotFoundException
  | Some user =>
      if decide (UserInDB.id current_user = user_id)
      then Raise BadRequestException
      else
        JSONDatabase.update db user_id
          {[ "is_active" := VBool false; "updated_at" := VStr utcnow ]};;
        PyOps.subscript user "username"
  end.

Definition activate_user (utcnow : string) (user_id : string)
    (current_user : UserInDB.t) : task value :=
  let db := users_json in
  user ← JSONDatabase.get_by_id db user_id;
  match user with
  | None => Raise NotFoundException
  | Some user =>
      JSONDatabase.update db user_id
        {[ "is_active" := VBool true; "updated_at" := VStr utcnow ]};;
      PyOps.subscript user "username"
  end.

End UsersV2.

(** ** Vocabulary of the statements *)

(** The stock stored for the product that a search for [pid] finds. *)
Definition stock_of (s : Store) (pid : string) : option value :=
  p ← JSONDatabase.first_match "id" pid (products s); p !! "stock".

(** The order that a search for [oid] finds. *)
Definition order_of (s : Store) (oid : string) : option record :=
  JSONDatabase.first_match "id" oid (orders s).

(** Stock values that arithmetic with an int accepts. *)
Definition int_like (v : option value) : Prop :=
  match v with
  | Some (VInt _) | Some (VBool _) => True
  | _ => False
  end.

Definition numeric (v : option value) : Prop :=
  match v with
  | Some (VInt _) | Some (VBool _) | Some (VFloat _) => True
  | _ => False
  end.

(** What the first loop of [create_order] leaves known about an item: its
    product is there with a numeric stock, and its quantity is a float. *)
Definition ready (s : Store) (item : OrderItem) : Prop :=
  is_Some (JSONDatabase.first_match "id" (product_id item) (products s)) ∧
  numeric (stock_of s (product_id item)) ∧
  is_Some (float_of_int (quantity item)).

(** What the loop of [cancel_order] needs of an item of an order: its
    product is gone, or has an int for stock. *)
Definition restorable (s : Store) (item : OrderItem) : Prop :=
  JSONDatabase.first_match "id" (product_id item) (products s) = None ∨
  int_like (stock_of s (product_id item)).

(** The units of product [pid] in a list of items. *)
Definition qty_for (pid : string) (items : list OrderItem) : Z :=
  foldr (λ item n, if decide (product_id item = pid) then quantity item + n else n)
        0 items.

(** [quantity * price] and the sum of the subtotals, left to right from 0,
    in float arithmetic; [None] when a quantity is no float. *)
Definition subtotal (item : OrderItem) : option float :=
  qf ← float_of_int (quantity item); Some (float_mul qf (price item)).

Definition sum_subtotals (acc : float) (items : list OrderItem) : option float :=
  foldl (λ acc item, a ← acc; x ← subtotal item; Some (float_add a x))
        (Some acc) items.

(** Two states of the products file with the same products, field by field
    but for ["stock"] and ["updated_at"], where a stock that was an int has
    moved by [delta pid] and the kind of each stock is kept. *)
Definition stocks_moved (delta : string → Z) (s s' : Store) : Prop :=
  (∀ pid, JSONDatabase.first_match "id" pid (products s) = None →
          JSONDatabase.first_match "id" pid (products s') = None) ∧
  (∀ pid p, JSONDatabase.first_match "id" pid (products s) = Some p →
     ∃ p', JSONDatabase.first_match "id" pid (products s') = Some p' ∧
           ∀ key, key ≠ "stock" → key ≠ "updated_at" → p' !! key = p !! key) ∧
  (∀ pid, numeric (stock_of s pid) → numeric (stock_of s' pid)) ∧
  (∀ pid, int_like (stock_of s pid) → int_like (stock_of s' pid)) ∧
  (∀ pid z, stock_of s pid = Some (VInt z) →
            stock_of s' pid = Some (VInt (z + delta pid))).

(** The record that [create_order] builds once the total is known. *)
Definition order_record (uuid4 utcnow : string) (current_user : UserInDB.t)
    (items : list OrderItem) (total_amount : float) : record :=
  {[ "id" := VStr uuid4;
     "user_id" := VStr (UserInDB.id current_user);
     "items" := VItems items;
     "status" := VStr "pending";
     "total_amount" := VFloat total_amount;
     "created_at" := VStr utcnow;
     "updated_at" := VNone ]}.

(** The record that [register] builds. *)
Definition user_record (get_password_hash : string → string)
    (uuid4 utcnow : string) (user : UserCreate.t) : record :=
  {[ "id" := VStr uuid4;
     "username" := VStr (UserCreate.username user);
     "email" := VStr (UserCreate.email user);
     "full_name" := from_option VStr VNone (UserCreate.full_name user);
     "hashed_password" := VStr (get_password_hash (UserCreate.password user));
     "role" := VStr "user";
     "is_active" := VBool true;
     "created_at" := VStr utcnow;
     "updated_at" := VNone ]}.

(** Requests served one after another: each runs to its end before the
    next one starts. *)
Fixpoint serial {A} (ts : list (task A)) (s : Store) : Store * list (outcome A) :=
  match ts with
  | [] => (s, [])
  | t :: ts' =>
      let '(s1, o) := run t s in
      let '(s2, os) := serial ts' s1 in
      (s2, o :: os)
  end.

(** A request for one unit of a product: the id drawn for the order, the
    clock, the caller, and the name and price the caller sends. *)
Record purchase : Type := {
  order_id : string;
  at_time : string;
  buyer : UserInDB.t;
  named : string;
  priced : float
}.

Definition buy_one (pid : string) (b : purchase) : task record :=
  Orders.create_order (order_id b) (at_time b)
    {| OrderCreate.items :=
         [ {| product_id := pid; product_name := named b;
              quantity := 1; price := priced b |} ] |}
    (buyer b).


(** No two records of a collection carry the same string in [field]. *)
Definition unique_field (field : string) (data : list record) : Prop :=
  ∀ i j x y v,
    data !! i = Some x → data !! j = Some y →
    x !! field = Some (VStr v) → y !! field = Some (VStr v) → i = j.

(** What the first loop of [create_order] asks of an item, when the stock
    is an int: the product is there and the stock covers the quantity, which
    is in the range of the floats. *)
Definition covered (s : Store) (item : OrderItem) : Prop :=
  ∃ z qf, stock_of s (product_id item) = Some (VInt z) ∧
          quantity item ≤ z ∧
          float_of_int (quantity item) = Some qf.

(** The user that a search for [uid] finds, and the one that a search for a
    username finds. *)
Definition user_of (s : Store) (uid : string) : option record :=
  JSONDatabase.first_match "id" uid (users s).

Definition user_named (s : Store) (username : string) : option record :=
  JSONDatabase.first_match "username" username (users s).

(** The product that a search for [pid] finds. *)
Definition product_of (s : Store) (pid : string) : option record :=
  JSONDatabase.first_match "id" pid (products s).

(** ** Sample data *)

Module Sample.

Definition pen : record :=
  {[ "id" := VStr "p1"; "name" := VStr "pen"; "price" := VFloat (S754_finite false 3 (-1));
     "stock" := VInt 5; "category" := VStr "office" ]}.

Definition ann : UserInDB.t :=
  {| UserInDB.id := "u1"; UserInDB.username := "ann";
     UserInDB.role := "user"; UserInDB.is_active := true |}.

Definition bob : UserInDB.t :=
  {| UserInDB.id := "u2"; UserInDB.username := "bob";
     UserInDB.role := "user"; UserInDB.is_active := true |}.

Definition root : UserInDB.t :=
  {| UserInDB.id := "u0"; UserInDB.username := "admin";
     UserInDB.role := "admin"; UserInDB.is_active := true |}.

(** One pen at 1.5. *)
Definition one_pen : OrderItem :=
  {| product_id := "p1"; product_name := "pen"; quantity := 1;
     price := S754_finite false 3 (-1) |}.

Definition pens (n : Z) : OrderItem :=
  {| product_id := "p1"; product_name := "pen"; quantity := n;
     price := S754_finite false 3 (-1) |}.

Definition shop : Store :=
  {| users := []; products := [pen]; orders := [] |}.

Definition empty_shop : Store :=
  {| users := []; products := []; orders := [] |}.

(** Ann's order "o1" for two pens, 3.0 in all, and the shop once it is
    placed at time "t1". *)
Definition two_pens_order : record :=
  {[ "id" := VStr "o1"; "user_id" := VStr "u1"; "items" := VItems [pens 2];
     "status" := VStr "pending";
     "total_amount" := VFloat (S754_finite false 6755399441055744 (-51));
     "created_at" := VStr "t1"; "updated_at" := VNone ]}.

Definition shop_after_two : Store :=
  {| users := [];
     products := [ <["stock" := VInt 3]> (<["updated_at" := VStr "t1"]> pen) ];
     orders := [two_pens_order] |}.

(** The same order once cancelled, in a shop whose five pens are back. *)
Definition cancelled_order : record :=
  <["status" := VStr "cancelled"]> two_pens_order.

Definition shop_cancelled : Store :=
  {| users := []; products := [pen]; orders := [cancelled_order] |}.

(** A stand-in for the digest, and two accounts. *)
Definition toy_hash (password : string) : string := "sha256:" +:+ password.

Definition ann_record : record :=
  {[ "id" := VStr "u1"; "username" := VStr "ann"; "email" := VStr "ann@example.com";
     "full_name" := VNone; "hashed_password" := VStr "sha256:secret1";
     "role" := VStr "user"; "is_active" := VBool true;
     "created_at" := VStr "t0"; "updated_at" := VNone ]}.

Definition bob_record : record :=
  {[ "id" := VStr "u2"; "username" := VStr "bob"; "email" := VStr "bob@example.com";
     "full_name" := VNone; "hashed_password" := VStr "sha256:secret2";
     "role" := VStr "user"; "is_active" := VBool true;
     "created_at" := VStr "t0"; "updated_at" := VNone ]}.

Definition club : Store :=
  {| users := [ann_record; bob_record]; products := []; orders := [] |}.

(** A newcomer, and someone who asks for Ann's name. *)
Definition cyd : UserCreate.t :=
  {| UserCreate.username := "cyd"; UserCreate.email := "cyd@example.com";
     UserCreate.full_name := Some "Cyd"; UserCreate.password := "secret3" |}.


Definition cyd_record : record :=
  {[ "id" := VStr "u3"; "username" := VStr "cyd"; "email" := VStr "cyd@example.com";
     "full_name" := VStr "Cyd"; "hashed_password" := VStr "sha256:secret3";
     "role" := VStr "user"; "is_active" := VBool true;
     "created_at" := VStr "t5"; "updated_at" := VNone ]}.

Definition club_with_cyd : Store :=
  {| users := [ann_record; bob_record; cyd_record]; products := []; orders := [] |}.

(** Bob asks for Ann's address. *)
Definition take_ann_email : UserUpdate.t :=
  {| UserUpdate.email := Some (Some "ann@example.com");
     UserUpdate.full_name := None; UserUpdate.password := None |}.

(** A stand-in for the token, the record of the admin, and a product to
    be created: four bottles of ink at 2.5. *)
Definition toy_token (claims : record) : string := "token".

Definition root_record : record :=
  {[ "id" := VStr "u0"; "username" := VStr "admin"; "email" := VStr "admin@example.com";
     "full_name" := VNone; "hashed_password" := VStr "sha256:admin123";
     "role" := VStr "admin"; "is_active" := VBool true;
     "created_at" := VStr "t0"; "updated_at" := VNone ]}.

Definition ink : ProductCreate.t :=
  {| ProductCreate.name := "ink"; ProductCreate.description := None;
     ProductCreate.price := S754_finite false 5 (-1);
     ProductCreate.stock := 4; ProductCreate.category := "office" |}.

Definition inks (n : Z) : OrderItem :=
  {| product_id := "p2"; product_name := "ink"; quantity := n;
     price := S754_finite false 5 (-1) |}.

(** A request that sets the stock to nine and nothing else. *)
Definition restock_nine : ProductUpdate.t :=
  {| ProductUpdate.name := None; ProductUpdate.description := None;
     ProductUpdate.price := None; ProductUpdate.stock := Some (Some 9);
     ProductUpdate.category := None |}.

(** A request that sets the stock to [null]. *)
Definition no_stock : ProductUpdate.t :=
  {| ProductUpdate.name := None; ProductUpdate.description := None;
     ProductUpdate.price := None; ProductUpdate.stock := Some None;
     ProductUpdate.category := None |}.

(** A request that sets a new password and nothing else. *)
Definition new_password : UserUpdate.t :=
  {| UserUpdate.email := None; UserUpdate.full_name := None;
     UserUpdate.password := Some (Some "secret9") |}.


(** Ten requests for one pen each, and the schedule in which the ten
    coroutines take turns in order, four times round. *)
Definition ten_buyers : list purchase :=
  map (λ oid, {| order_id := oid; at_time := "t1"; buyer := ann;
                 named := "pen"; priced := S754_finite false 3 (-1) |})
      ["o0"; "o1"; "o2"; "o3"; "o4"; "o5"; "o6"; "o7"; "o8"; "o9"].

Definition round_robin : list nat :=
  concat (replicate 4 (seq 0 10)).

End Sample.

(** * Properties *)

(** ** Running programs *)

Section running.
Context {A B : Type}.

Lemma run_bind (t : task A) (k : A → task B) (s : Store) :
  run (t ≫= k) s =
  match run t s with
  | (s', Returned a) => run (k a) s'
  | (s', Raised e) => (s', Raised e)
  end.
Proof.
  revert s. induction t as [a|e|t IH|f h IH|f data t IH]; intros s; simpl; auto.
Qed.

Lemma run_bind_Returned (t : task A) (k : A → task B) s s' a :
  run t s = (s', Returned a) → run (t ≫= k) s = run (k a) s'.
Proof. intros H. by rewrite run_bind, H. Qed.

Lemma run_bind_Raised (t : task A) (k : A → task B) s s' e :
  run t s = (s', Raised e) → run (t ≫= k) s = (s', Raised e).
Proof. intros H. by rewrite run_bind, H. Qed.

End running.

(** ** The document store *)

Section database.
Import JSONDatabase.

Lemma run_get_all self s :
  run (get_all self) s = (s, Returned (_read self s)).
Proof. reflexivity. Qed.

Lemma run_get_by_id self id s :
  run (get_by_id self id) s = (s, Returned (first_match "id" id (_read self s))).
Proof. reflexivity. Qed.

Lemma run_get_by_field self field value s :
  run (get_by_field self field value) s =
  (s, Returned (first_match field value (_read self s))).
Proof. reflexivity. Qed.

Lemma run_create self item s :
  run (create self item) s = (_write self (_read self s ++ [item]) s, Returned item).
Proof. reflexivity. Qed.

Lemma run_update self id updates s :
  run (update self id updates) s =
  match update_first id updates (_read self s) with
  | Some (data', item') => (_write self data' s, Returned (Some item'))
  | None => (s, Returned None)
  end.
Proof.
  unfold update. rewrite run_bind, run_get_all.
  by destruct (update_first _ _ _) as [[??]|].
Qed.

Lemma first_match_nil field value : first_match field value [] = None.
Proof. reflexivity. Qed.

Lemma first_match_cons field value item data :
  first_match field value (item :: data) =
  if decide (field_is field value item) then Some item
  else first_match field value data.
Proof.
  unfold first_match. rewrite filter_cons. by case_decide.
Qed.

(** A record found by [first_match] is in the collection and has the field. *)
Lemma first_match_Some field value data item :
  first_match field value data = Some item →
  item ∈ data ∧ item !! field = Some (VStr value).
Proof.
  induction data as [|x data IH]; [done|].
  rewrite first_match_cons. case_decide as Hx.
  - intros [= ->]. split; [left | done].
  - intros [? ?]%IH. split; [by right | done].
Qed.

Lemma first_match_None field value data :
  first_match field value data = None ↔
  ∀ item, item ∈ data → item !! field ≠ Some (VStr value).
Proof.
  induction data as [|x data IH].
  - split; [intros _ ? ?%elem_of_nil; done | done].
  - rewrite first_match_cons. case_decide as Hx.
    + split; [done|]. intros H. destruct (H x); [left | done].
    + rewrite IH. split.
      * intros H item [->|?]%elem_of_cons; [done | by apply H].
      * intros H item ?. apply H. by right.
Qed.

(** Position of the record that [first_match] finds. *)
Lemma first_match_lookup field value data item :
  first_match field value data = Some item ↔
  ∃ i, data !! i = Some item ∧ field_is field value item ∧
       ∀ j x, (j < i)%nat → data !! j = Some x → ¬ field_is field value x.
Proof.
  revert item. induction data as [|x data IH]; intros item.
  - split; [done | by intros (i & ? & _)].
  - rewrite first_match_cons. case_decide as Hx.
    + split.
      * intros [= ->]. exists 0%nat. split_and!; [done..|]. intros; lia.
      * intros ([|i] & Hi & Hf & Hlt); [by simplify_eq/=|].
        destruct (Hlt 0%nat x); [lia | done | done].
    + rewrite IH. split.
      * intros (i & Hi & Hf & Hlt). exists (S i). split_and!; [done..|].
        intros [|j] y ? Hj; simplify_eq/=; [done|]. eapply Hlt; [|done]. lia.
      * intros ([|i] & Hi & Hf & Hlt); simplify_eq/=; [done|].
        exists i. split_and!; [done..|].
        intros j y ? Hj. apply (Hlt (S j) y); [lia | done].
Qed.

Lemma first_match_app field value data1 data2 :
  first_match field value (data1 ++ data2) =
  match first_match field value data1 with
  | Some item => Some item
  | None => first_match field value data2
  end.
Proof.
  induction data1 as [|x data1 IH]; [done|].
  simpl. rewrite !first_match_cons. by case_decide.
Qed.

Lemma update_first_None id updates data :
  update_first id updates data = None ↔ first_match "id" id data = None.
Proof.
  induction data as [|x data IH]; [done|].
  rewrite first_match_cons. simpl. case_decide; [done|].
  rewrite <- IH. destruct (update_first id updates data) as [[??]|]; done.
Qed.

Lemma update_first_Some id updates data item :
  first_match "id" id data = Some item →
  ∃ i, data !! i = Some item ∧
       (∀ j x, (j < i)%nat → data !! j = Some x → x !! "id" ≠ Some (VStr id)) ∧
       update_first id updates data = Some (<[i := updates ∪ item]> data, updates ∪ item).
Proof.
  induction data as [|x data IH]; [done|].
  rewrite first_match_cons. simpl. case_decide as Hx.
  - intros [= ->]. exists 0%nat. split_and!; [done| |done]. intros; lia.
  - intros (i & Hi & Hmin & ->)%IH. exists (S i). split_and!; [done| |done].
    intros [|j] y ? Hj; simplify_eq/=; [done|]. eapply Hmin; [|done]. lia.
Qed.

(** C7, as the code has it: [update] on an id that no record carries
    returns [None] and leaves the collection as it was, without an exception;
    on an id that is there, the first record that carries it is replaced, in
    place, by the record merged with the given fields, a given field taking
    the place of the stored one, and the merged record is returned. *)
Theorem update_returns_none_or_merges self id updates s :
  (first_match "id" id (_read self s) = None →
     run (update self id updates) s = (s, Returned None)) ∧
  (∀ item, first_match "id" id (_read self s) = Some item →
     ∃ i, _read self s !! i = Some item ∧
       (∀ j x, (j < i)%nat → _read self s !! j = Some x → x !! "id" ≠ Some (VStr id)) ∧
       run (update self id updates) s =
         (_write self (<[i := updates ∪ item]> (_read self s)) s,
          Returned (Some (updates ∪ item))) ∧
       ∀ key, (updates ∪ item) !! key =
              match updates !! key with Some v => Some v | None => item !! key end).
Proof.
  split.
  - intros Hnone. rewrite run_update.
    by apply update_first_None with (updates := updates) in Hnone as ->.
  - intros item Hitem.
    destruct (update_first_Some id updates _ _ Hitem) as (i & Hi & Hmin & Hup).
    exists i. do 2 (split; [done|]). rewrite run_update, Hup. split; [done|].
    intros key. rewrite lookup_union. by destruct (updates !! key), (item !! key).
Qed.

(** Updating fields other than ["id"] moves no record and changes only
    what a search for the updated id finds. *)
Lemma first_match_update id updates data data' item' id' :
  updates !! "id" = None →
  update_first id updates data = Some (data', item') →
  first_match "id" id' data' =
  if decide (id' = id) then Some item' else first_match "id" id' data.
Proof.
  intros Hu. revert data'. induction data as [|x data IH]; intros data'; [done|].
  simpl. destruct (decide (field_is "id" id x)) as [Hx|Hx].
  - intros ?; simplify_eq. rewrite !first_match_cons.
    assert (Hid : (updates ∪ x) !! "id" = Some (VStr id)).
    { rewrite lookup_union_r; done. }
    repeat case_decide; unfold field_is in *; simplify_eq; congruence.
  - destruct (update_first id updates data) as [[rest' r]|] eqn:Hrest; [|done].
    intros ?; simplify_eq/=. rewrite !first_match_cons.
    rewrite (IH rest' eq_refl).
    repeat case_decide; unfold field_is in *; simplify_eq; congruence.
Qed.

End database.

Lemma update_returns_none_or_merges_witness :
  run (JSONDatabase.update products_json "p9" {[ "stock" := VInt 7 ]}) Sample.shop =
    (Sample.shop, Returned None) ∧
  ∃ i, products Sample.shop !! i = Some Sample.pen ∧
    (∀ j x, (j < i)%nat → products Sample.shop !! j = Some x →
            x !! "id" ≠ Some (VStr "p1")) ∧
    run (JSONDatabase.update products_json "p1" {[ "stock" := VInt 7 ]}) Sample.shop =
      (_write products_json
         (<[i := {[ "stock" := VInt 7 ]} ∪ Sample.pen]> (products Sample.shop)) Sample.shop,
       Returned (Some ({[ "stock" := VInt 7 ]} ∪ Sample.pen))) ∧
    ∀ key, ({[ "stock" := VInt 7 ]} ∪ Sample.pen) !! key =
           match ({[ "stock" := VInt 7 ]} : record) !! key with
           | Some v => Some v
           | None => Sample.pen !! key
           end.
Proof.
  split.
  - apply (proj1 (update_returns_none_or_merges products_json "p9"
                    {[ "stock" := VInt 7 ]} Sample.shop)).
    reflexivity.
  - apply (proj2 (update_returns_none_or_merges products_json "p1"
                    {[ "stock" := VInt 7 ]} Sample.shop) Sample.pen).
    reflexivity.
Defined.

(** C7, as the claim has it: an id that is absent is no [NotFoundException]
    for [update]; the call returns. *)
Lemma update_absent_raises_nothing :
  run (JSONDatabase.update products_json "p9" {[ "stock" := VInt 7 ]}) Sample.shop =
    (Sample.shop, Returned None) ∧
  (run (JSONDatabase.update products_json "p9" {[ "stock" := VInt 7 ]}) Sample.shop).2
    ≠ Raised NotFoundException.
Proof. split; [reflexivity | discriminate]. Qed.

(** ** Stock movements *)

Section inventory.
Import JSONDatabase PyOps Orders.

Local Abbreviation stock_update v now :=
  ({[ "stock" := v; "updated_at" := VStr now ]} : record).

Lemma stocks_moved_refl s : stocks_moved (λ _, 0) s s.
Proof.
  split_and!; eauto.
  intros pid z ->. by rewrite Z.add_0_r.
Qed.

Lemma stocks_moved_trans d1 d2 s1 s2 s3 :
  stocks_moved d1 s1 s2 → stocks_moved d2 s2 s3 →
  stocks_moved (λ pid, d1 pid + d2 pid) s1 s3.
Proof.
  intros (N1 & F1 & K1 & I1 & Z1) (N2 & F2 & K2 & I2 & Z2). split_and!; eauto.
  - intros pid p (p' & Hp' & Hk)%F1. destruct (F2 _ _ Hp') as (p'' & ? & Hk').
    exists p''. split; [done|]. intros key ??. rewrite Hk', Hk; done.
  - intros pid z Hz%Z1%Z2. by rewrite Z.add_assoc.
Qed.

Lemma stocks_moved_ext d d' s s' :
  (∀ pid, d pid = d' pid) → stocks_moved d s s' → stocks_moved d' s s'.
Proof.
  intros Hd (N & F & K & I & Z). split_and!; eauto.
  intros pid z ?. rewrite <- Hd. eauto.
Qed.

Lemma stocks_moved_present d s s' pid :
  stocks_moved d s s' →
  is_Some (first_match "id" pid (products s)) →
  is_Some (first_match "id" pid (products s')).
Proof. intros (_ & F & _) [p Hp]. destruct (F _ _ Hp) as (p' & -> & _). eauto. Qed.

Lemma ready_moved d s s' item :
  stocks_moved d s s' → ready s item → ready s' item.
Proof.
  intros Hm (Hp & Hn & Hq). split_and!; [|by apply Hm|done].
  by eapply stocks_moved_present.
Qed.

Lemma restorable_moved d s s' item :
  stocks_moved d s s' → restorable s item → restorable s' item.
Proof.
  intros Hm [Hp|Hi]; [left | right]; by apply Hm.
Qed.

(** One write of a new stock, as both loops do it. *)
Lemma set_stock s pid p v v' now delta :
  first_match "id" pid (products s) = Some p →
  p !! "stock" = Some v →
  (numeric (Some v) → numeric (Some v')) →
  (int_like (Some v) → int_like (Some v')) →
  (∀ z, v = VInt z → v' = VInt (z + delta)) →
  ∃ s' r, run (update products_json pid (stock_update v' now)) s = (s', Returned r) ∧
    users s' = users s ∧ orders s' = orders s ∧
    stocks_moved (λ pid', if decide (pid' = pid) then delta else 0) s s'.
Proof.
  intros Hp Hv Hnum Hint Hz.
  destruct (update_first_Some pid (stock_update v' now) _ _ Hp) as (i & Hi & _ & Hup).
  assert (Hu : stock_update v' now !! "id" = None) by done.
  assert (Hview := λ pid', first_match_update pid _ _ _ _ pid' Hu Hup).
  assert (Hstock : ∀ pid', stock_of (_write products_json (<[i:=stock_update v' now ∪ p]> (products s)) s) pid' =
            if decide (pid' = pid) then Some v' else stock_of s pid').
  { intros pid'. unfold stock_of. simpl. rewrite Hview. case_decide; [|done].
    simpl. by apply lookup_union_Some_l. }
  rewrite run_update. simpl _read. rewrite Hup.
  eexists _, _. split; [done|]. do 2 (split; [done|]).
  unfold stocks_moved. split_and!.
  - intros pid' Hn. simpl. rewrite Hview. case_decide; [congruence | done].
  - intros pid' p' Hp'. simpl. rewrite Hview. case_decide as Hpid.
    + subst pid'. eexists. split; [done|]. intros key ??.
      assert (p' = p) as -> by congruence.
      rewrite lookup_union_r; [done|].
      rewrite lookup_insert_ne by done. by rewrite lookup_singleton_ne.
    + eauto.
  - intros pid'. rewrite Hstock. case_decide as Hpid; [|done].
    subst pid'. unfold stock_of at 1. rewrite Hp. simpl. rewrite Hv. done.
  - intros pid'. rewrite Hstock. case_decide as Hpid; [|done].
    subst pid'. unfold stock_of at 1. rewrite Hp. simpl. rewrite Hv. done.
  - intros pid' z. rewrite Hstock. case_decide as Hpid.
    + subst pid'. unfold stock_of. rewrite Hp. simpl. rewrite Hv.
      intros [= ->]. by rewrite (Hz z).
    + intros ->. by rewrite Z.add_0_r.
Qed.

Lemma run_for_each_nil {A} (body : A → task ()) s :
  run (for_each [] body) s = (s, Returned ()).
Proof. reflexivity. Qed.

Lemma run_for_each_cons {A} (body : A → task ()) x l s :
  run (for_each (x :: l) body) s =
  match run (body x) s with
  | (s', Returned _) => run (for_each l body) s'
  | (s', Raised e) => (s', Raised e)
  end.
Proof.
  unfold for_each. simpl for_fold. rewrite run_bind.
  by destruct (run (body x) s) as [s' [[]|e]].
Qed.

Lemma run_for_fold_cons {A B} (body : B → A → task B) x l acc s :
  run (for_fold body (x :: l) acc) s =
  match run (body acc x) s with
  | (s', Returned acc') => run (for_fold body l acc') s'
  | (s', Raised e) => (s', Raised e)
  end.
Proof. simpl for_fold. by rewrite run_bind. Qed.

Lemma numeric_stock s pid p :
  first_match "id" pid (products s) = Some p →
  numeric (stock_of s pid) →
  ∃ v, p !! "stock" = Some v ∧ numeric (Some v).
Proof.
  unfold stock_of. intros ->. simpl. destruct (p !! "stock") as [v|]; [eauto | done].
Qed.

Lemma int_like_stock s pid p :
  first_match "id" pid (products s) = Some p →
  int_like (stock_of s pid) →
  ∃ v, p !! "stock" = Some v ∧ int_like (Some v).
Proof.
  unfold stock_of. intros ->. simpl. destruct (p !! "stock") as [v|]; [eauto | done].
Qed.

(** The second loop of [create_order], one item. *)
Lemma run_take_stock now item s :
  ready s item →
  ∃ s', run (take_stock now item) s = (s', Returned ()) ∧
    users s' = users s ∧ orders s' = orders s ∧
    stocks_moved (λ pid, if decide (pid = product_id item) then - quantity item else 0) s s'.
Proof.
  intros ([p Hp] & Hn & [qf Hq]).
  destruct (numeric_stock _ _ _ Hp Hn) as (v & Hv & Hnv).
  unfold take_stock. rewrite run_bind, run_get_by_id. simpl _read. rewrite Hp.
  simpl subscript_opt. unfold subscript. rewrite Hv.
  rewrite run_bind. simpl run at 1.
  assert (∃ v', run (sub_int v (quantity item)) s = (s, Returned v') ∧
            (numeric (Some v) → numeric (Some v')) ∧
            (int_like (Some v) → int_like (Some v')) ∧
            (∀ z, v = VInt z → v' = VInt (z + - quantity item)))
    as (v' & Hsub & K1 & K2 & K3).
  { destruct v; try done; simpl.
    - eexists; split_and!; done.
    - eexists; split_and!; [done..|]. by intros ? [= ->].
    - unfold to_float. rewrite Hq. simpl. eexists; split_and!; done. }
  rewrite run_bind, Hsub, run_bind.
  destruct (set_stock s _ _ _ v' now _ Hp Hv K1 K2 K3) as (s' & r & -> & ? & ? & ?).
  simpl. eauto.
Qed.

Lemma qty_for_cons pid item items :
  qty_for pid (item :: items) =
  (if decide (pid = product_id item) then quantity item else 0) + qty_for pid items.
Proof. unfold qty_for. simpl. repeat case_decide; congruence || lia. Qed.

Lemma run_take_stock_loop now items s :
  Forall (ready s) items →
  ∃ s', run (for_each items (take_stock now)) s = (s', Returned ()) ∧
    users s' = users s ∧ orders s' = orders s ∧
    stocks_moved (λ pid, - qty_for pid items) s s'.
Proof.
  revert s. induction items as [|item items IH]; intros s Hready.
  - exists s. split_and!; [done..|]. apply stocks_moved_refl.
  - apply Forall_cons in Hready as [Hitem Hitems].
    destruct (run_take_stock now item s Hitem) as (s1 & Hrun & Hu & Ho & Hm).
    destruct (IH s1) as (s2 & Hrun' & Hu' & Ho' & Hm').
    { eapply Forall_impl; [done|]. intros ?. by eapply ready_moved. }
    exists s2. rewrite run_for_each_cons, Hrun, Hrun'.
    split_and!; [done | congruence | congruence |].
    eapply stocks_moved_ext; [|by eapply stocks_moved_trans].
    intros pid. cbv beta. rewrite qty_for_cons. case_decide; lia.
Qed.

(** The loop of [cancel_order], one item. *)
Lemma run_give_back now item s :
  restorable s item →
  ∃ s', run (give_back now item) s = (s', Returned ()) ∧
    users s' = users s ∧ orders s' = orders s ∧
    stocks_moved (λ pid, if decide (pid = product_id item) then quantity item else 0) s s'.
Proof.
  intros Hr. unfold give_back. rewrite run_bind, run_get_by_id. simpl _read.
  destruct (first_match "id" (product_id item) (products s)) as [p|] eqn:Hp.
  - destruct Hr as [?|Hi]; [congruence|].
    destruct (int_like_stock _ _ _ Hp Hi) as (v & Hv & Hiv).
    unfold subscript. rewrite Hv. rewrite run_bind. simpl run at 1.
    assert (∃ v', run (add_int v (quantity item)) s = (s, Returned v') ∧
              (numeric (Some v) → numeric (Some v')) ∧
              (int_like (Some v) → int_like (Some v')) ∧
              (∀ z, v = VInt z → v' = VInt (z + quantity item)))
      as (v' & Hadd & K1 & K2 & K3).
    { destruct v; try done; simpl.
      - eexists; split_and!; done.
      - eexists; split_and!; [done..|]. by intros ? [= ->]. }
    rewrite run_bind, Hadd, run_bind.
    destruct (set_stock s _ _ _ v' now _ Hp Hv K1 K2 K3) as (s' & r & -> & ? & ? & ?).
    simpl. eauto.
  - exists s. split_and!; [done..|].
    split_and!; eauto.
    intros pid z Hz. case_decide; [|by rewrite Z.add_0_r].
    subst pid. unfold stock_of in Hz. by rewrite Hp in Hz.
Qed.

Lemma run_give_back_loop now items s :
  Forall (restorable s) items →
  ∃ s', run (for_each items (give_back now)) s = (s', Returned ()) ∧
    users s' = users s ∧ orders s' = orders s ∧
    stocks_moved (λ pid, qty_for pid items) s s'.
Proof.
  revert s. induction items as [|item items IH]; intros s Hready.
  - exists s. split_and!; [done..|]. apply stocks_moved_refl.
  - apply Forall_cons in Hready as [Hitem Hitems].
    destruct (run_give_back now item s Hitem) as (s1 & Hrun & Hu & Ho & Hm).
    destruct (IH s1) as (s2 & Hrun' & Hu' & Ho' & Hm').
    { eapply Forall_impl; [done|]. intros ?. by eapply restorable_moved. }
    exists s2. rewrite run_for_each_cons, Hrun, Hrun'.
    split_and!; [done | congruence | congruence |].
    eapply stocks_moved_ext; [|by eapply stocks_moved_trans].
    intros pid. cbv beta. rewrite qty_for_cons. case_decide; lia.
Qed.

Lemma run_subscript d key s :
  run (subscript d key) s =
  (s, match d !! key with Some v => Returned v | None => Raised KeyError end).
Proof. unfold subscript. by destruct (d !! key). Qed.

(** The first loop of [create_order] only reads, and a pass tells that the
    item is ready for the second loop. *)
Lemma run_check_item total item s :
  ∃ o, run (check_item total item) s = (s, o) ∧
    ∀ t, o = Returned t →
      ready s item ∧ (x ← subtotal item; Some (float_add total x)) = Some t.
Proof.
  unfold check_item. rewrite run_bind, run_get_by_id. simpl _read.
  destruct (first_match "id" (product_id item) (products s)) as [p|] eqn:Hp;
    [|by eexists].
  rewrite run_bind, run_subscript.
  destruct (p !! "stock") as [v|] eqn:Hv; [|by eexists].
  assert (Hst : stock_of s (product_id item) = Some v).
  { unfold stock_of. by rewrite Hp. }
  assert (∀ b, run (lt_int v (quantity item)) s = (s, Returned b) → numeric (Some v))
    as Hnum by (destruct v; done).
  destruct (run (lt_int v (quantity item)) s) as [s1 [b|e]] eqn:Hlt.
  2:{ exists (Raised e). split; [|done]. destruct v; simpl in Hlt; by simplify_eq. }
  assert (s1 = s) as -> by (destruct v; simpl in Hlt; by simplify_eq).
  rewrite run_bind, Hlt. destruct b.
  - rewrite run_bind. unfold subscript. destruct (p !! "name"); by eexists.
  - unfold int_mul_float, to_float, subtotal.
    destruct (float_of_int (quantity item)) as [qf|] eqn:Hq; [|by eexists].
    eexists. split; [done|]. intros t [= <-]. split; [|done].
    split_and!; [by rewrite Hp | rewrite Hst; by eapply Hnum | by rewrite Hq].
Qed.

Lemma run_check_loop items total s :
  ∃ o, run (for_fold check_item items total) s = (s, o) ∧
    ∀ t, o = Returned t → Forall (ready s) items ∧ sum_subtotals total items = Some t.
Proof.
  revert total. induction items as [|item items IH]; intros total.
  - eexists. split; [done|]. by intros t [= <-].
  - rewrite run_for_fold_cons.
    destruct (run_check_item total item s) as (o & -> & Ho). destruct o as [t1|e].
    + destruct (Ho t1 eq_refl) as [Hr Ht1].
      destruct (IH t1) as (o' & -> & Ho'). exists o'. split; [done|].
      intros t Ht. destruct (Ho' t Ht) as [? Hsum]. split; [by constructor|].
      unfold sum_subtotals in *. simpl. by rewrite Ht1.
    + by eexists.
Qed.

(** With an int in stock that covers the quantity the check passes, and
    with one that does not it ends in [BadRequestException]. *)
Lemma run_check_item_ok total item s p z qf :
  first_match "id" (product_id item) (products s) = Some p →
  p !! "stock" = Some (VInt z) →
  quantity item ≤ z →
  float_of_int (quantity item) = Some qf →
  run (check_item total item) s = (s, Returned (float_add total (float_mul qf (price item)))).
Proof.
  intros Hp Hv Hle Hq.
  unfold check_item. rewrite run_bind, run_get_by_id. simpl _read. rewrite Hp.
  rewrite run_bind, run_subscript, Hv, run_bind.
  simpl lt_int. rewrite bool_decide_eq_false_2 by lia.
  unfold int_mul_float, to_float. by rewrite Hq.
Qed.

Lemma run_check_item_short total item s p z :
  first_match "id" (product_id item) (products s) = Some p →
  p !! "stock" = Some (VInt z) →
  z < quantity item →
  is_Some (p !! "name") →
  run (check_item total item) s = (s, Raised BadRequestException).
Proof.
  intros Hp Hv Hlt [n Hn].
  unfold check_item. rewrite run_bind, run_get_by_id. simpl _read. rewrite Hp.
  rewrite run_bind, run_subscript, Hv, run_bind.
  simpl lt_int. rewrite bool_decide_eq_true_2 by lia.
  simpl. by rewrite run_bind, run_subscript, Hn.
Qed.

(** [create_order] from the outcome of its first loop: an exception there
    ends the call with the store as it was; otherwise the call returns the
    order record, the orders file has it at its end and the stocks have gone
    down by the quantities. *)
Lemma run_create_order uuid4 utcnow order current_user s :
  match run (for_fold check_item (OrderCreate.items order) zero) s with
  | (_, Raised e) => run (create_order uuid4 utcnow order current_user) s = (s, Raised e)
  | (_, Returned total) =>
      Forall (ready s) (OrderCreate.items order) ∧
      sum_subtotals zero (OrderCreate.items order) = Some total ∧
      ∃ s', run (create_order uuid4 utcnow order current_user) s =
              (s', Returned (order_record uuid4 utcnow current_user (OrderCreate.items order) total)) ∧
        users s' = users s ∧
        orders s' = (orders s ++ [order_record uuid4 utcnow current_user (OrderCreate.items order) total])%list ∧
        stocks_moved (λ pid, - qty_for pid (OrderCreate.items order)) s s'
  end.
Proof.
  destruct (run_check_loop (OrderCreate.items order) zero s) as (o & Hcheck & Ho).
  unfold create_order. rewrite run_bind, Hcheck. destruct o as [total|e]; [|done].
  destruct (Ho total eq_refl) as [Hready Hsum]. split_and!; [done..|].
  destruct (run_take_stock_loop utcnow _ s Hready) as (s1 & Hloop & Hu & Hor & Hm).
  rewrite run_bind, Hloop, run_bind, run_create. simpl.
  eexists. split; [reflexivity|]. simpl. rewrite Hu, Hor. split_and!; [done..|].
  destruct Hm as (N & F & K & I & Z). split_and!; done.
Qed.

End inventory.

(** ** Order cancellation *)

Section cancellation.
Import JSONDatabase PyOps Orders.

Local Abbreviation cancelled now :=
  ({[ "status" := VStr "cancelled"; "updated_at" := VStr now ]} : record).

(** The permission check reads nothing and writes nothing; it passes for an
    admin, and for the owner of a pending order, and for nobody else. *)
Lemma run_check_cancel order current_user s :
  ∃ g, run (check_cancel order current_user) s = (s, g) ∧
    (g = Returned () ↔
       UserInDB.role current_user = "admin" ∨
       (order !! "user_id" = Some (VStr (UserInDB.id current_user)) ∧
        order !! "status" = Some (VStr "pending"))) ∧
    (UserInDB.role current_user ≠ "admin" →
       ∀ v, order !! "user_id" = Some v → v ≠ VStr (UserInDB.id current_user) →
       g = Raised ForbiddenException) ∧
    (UserInDB.role current_user ≠ "admin" →
       order !! "user_id" = Some (VStr (UserInDB.id current_user)) →
       ∀ v, order !! "status" = Some v → v ≠ VStr "pending" →
       g = Raised BadRequestException).
Proof.
  unfold check_cancel. case_decide as Hrole.
  - rewrite run_bind, run_subscript.
    destruct (order !! "user_id") as [owner|] eqn:Howner.
    + case_decide as Hown.
      * eexists. split; [done|]. split_and!; [|done|congruence].
        split; [done|]. intros [?|[? _]]; congruence.
      * subst owner. rewrite run_bind, run_subscript.
        destruct (order !! "status") as [st|] eqn:Hst.
        -- case_decide as Hpend.
           ++ eexists. split; [done|]. split_and!; [|congruence|done].
              split; [done|]. intros [?|[_ ?]]; congruence.
           ++ subst st. eexists. split; [done|]. split_and!; [|congruence..].
              split; [intros _; by right | done].
        -- eexists. split; [done|]. split_and!; [|congruence|done].
           split; [done|]. intros [?|[_ ?]]; congruence.
    + eexists. split; [done|]. split_and!; [|done..].
      split; [done|]. intros [?|[? _]]; congruence.
  - eexists. split; [done|].
    split_and!; [|congruence..]. split; [by left | done].
Qed.

(** [cancel_order] once the order is found and the check passes. *)
Lemma run_cancel_order now oid current_user s order items :
  order_of s oid = Some order →
  (UserInDB.role current_user = "admin" ∨
   (order !! "user_id" = Some (VStr (UserInDB.id current_user)) ∧
    order !! "status" = Some (VStr "pending"))) →
  order !! "items" = Some (VItems items) →
  Forall (restorable s) items →
  ∃ s', run (cancel_order now oid current_user) s = (s', Returned ()) ∧
    users s' = users s ∧
    stocks_moved (λ pid, qty_for pid items) s s' ∧
    order_of s' oid = Some (cancelled now ∪ order) ∧
    (∀ oid', oid' ≠ oid → order_of s' oid' = order_of s oid').
Proof.
  intros Ho Hallowed Hitems Hrest. unfold order_of in Ho.
  unfold cancel_order. rewrite run_bind, run_get_by_id. simpl _read. rewrite Ho.
  destruct (run_check_cancel order current_user s) as (g & Hg & Hok & _).
  apply Hok in Hallowed as ->.
  assert (run (v ← subscript order "items"; iter_items v) s = (s, Returned items))
    as Hiter by (by rewrite run_bind, run_subscript, Hitems).
  rewrite run_bind, Hg, run_bind, Hiter.
  destruct (run_give_back_loop now items s Hrest) as (s1 & Hloop & Hu & Hor & Hm).
  rewrite run_bind, Hloop, run_bind, run_update. simpl _read. rewrite Hor.
  destruct (update_first_Some oid (cancelled now) _ _ Ho) as (i & Hi & _ & Hup).
  rewrite Hup.
  assert (Hc : cancelled now !! "id" = None) by done.
  assert (Hview := λ oid', first_match_update oid _ _ _ _ oid' Hc Hup).
  eexists. split; [done|]. simpl. split_and!; [done| |..].
  - destruct Hm as (N & F & K & I & Z). split_and!; done.
  - unfold order_of. simpl. rewrite Hview. by case_decide.
  - intros oid' Hne. unfold order_of. simpl. rewrite Hview. by case_decide.
Qed.

Lemma run_cancel_order_denied now oid current_user s order e :
  order_of s oid = Some order →
  run (check_cancel order current_user) s = (s, Raised e) →
  run (cancel_order now oid current_user) s = (s, Raised e).
Proof.
  intros Ho Hg. unfold order_of in Ho.
  unfold cancel_order. rewrite run_bind, run_get_by_id. simpl _read. rewrite Ho.
  by rewrite run_bind, Hg.
Qed.

(** C4: for an order that exists, [cancel_order] called by someone who is not
    an admin returns only if the caller owns the order and the order is
    pending; a caller who is not the owner gets [ForbiddenException] and the
    owner of an order that is not pending gets [BadRequestException], the
    store staying as it was.  An admin is not checked.  For an admin,
    whatever the status, as for the owner of a pending order, the order is
    cancelled: when the order has its list of items and each product of the
    list is gone or has an int for stock, the call returns, the order is left
    with the status [cancelled] and its other fields but the time, every int
    stock is up by the units of its product in the order, and the other
    orders and the users are as they were. *)
Theorem cancel_order_permission now oid current_user s order :
  order_of s oid = Some order →
  (UserInDB.role current_user ≠ "admin" →
     ∀ s', run (cancel_order now oid current_user) s = (s', Returned ()) →
       order !! "user_id" = Some (VStr (UserInDB.id current_user)) ∧
       order !! "status" = Some (VStr "pending")) ∧
  (UserInDB.role current_user ≠ "admin" →
     ∀ v, order !! "user_id" = Some v → v ≠ VStr (UserInDB.id current_user) →
       run (cancel_order now oid current_user) s = (s, Raised ForbiddenException)) ∧
  (UserInDB.role current_user ≠ "admin" →
     order !! "user_id" = Some (VStr (UserInDB.id current_user)) →
     ∀ v, order !! "status" = Some v → v ≠ VStr "pending" →
       run (cancel_order now oid current_user) s = (s, Raised BadRequestException)) ∧
  (UserInDB.role current_user = "admin" ∨
   (order !! "user_id" = Some (VStr (UserInDB.id current_user)) ∧
    order !! "status" = Some (VStr "pending")) →
     ∀ items, order !! "items" = Some (VItems items) →
       Forall (restorable s) items →
       ∃ s' r,
         run (cancel_order now oid current_user) s = (s', Returned ()) ∧
         order_of s' oid = Some r ∧
         r !! "status" = Some (VStr "cancelled") ∧
         (∀ key, key ≠ "status" → key ≠ "updated_at" → r !! key = order !! key) ∧
         (∀ pid z, stock_of s pid = Some (VInt z) →
                   stock_of s' pid = Some (VInt (z + qty_for pid items))) ∧
         (∀ oid', oid' ≠ oid → order_of s' oid' = order_of s oid') ∧
         users s' = users s).
Proof.
  intros Ho.
  destruct (run_check_cancel order current_user s) as (g & Hg & Hok & Hforb & Hbad).
  split_and!.
  - intros Hrole s' Hrun. destruct g as [[]|e].
    + destruct Hok as [Hok _]. destruct (Hok eq_refl) as [?|?]; done.
    + rewrite (run_cancel_order_denied _ _ _ _ _ _ Ho Hg) in Hrun. congruence.
  - intros Hrole v Hv Hne. rewrite (Hforb Hrole v Hv Hne) in Hg.
    by apply run_cancel_order_denied with (order := order).
  - intros Hrole Hown v Hv Hne. rewrite (Hbad Hrole Hown v Hv Hne) in Hg.
    by apply run_cancel_order_denied with (order := order).
  - intros Hallowed items Hitems Hrest.
    destruct (run_cancel_order now oid current_user s order items)
      as (s' & Hrun & Hus & Hm & Ho' & Hothers); [done..|].
    exists s', (cancelled now ∪ order). split_and!; [done | done | | | | done | done].
    + by apply lookup_union_Some_l.
    + intros key ??. rewrite lookup_union_r; [done|].
      rewrite lookup_insert_ne by done. by rewrite lookup_singleton_ne.
    + apply Hm.
Qed.

(** C9: an admin's [cancel_order] on an order that is already cancelled
    returns again and adds the quantities of the items to the stocks once
    more, and the order is left cancelled with the same items: a second call
    adds them again, so that two calls in a row leave each int stock up by
    twice the units of its product in the order. *)
Theorem admin_cancel_again_restocks now1 now2 oid current_user s order items :
  order_of s oid = Some order →
  order !! "status" = Some (VStr "cancelled") →
  order !! "items" = Some (VItems items) →
  UserInDB.role current_user = "admin" →
  Forall (restorable s) items →
  ∃ s1 s2,
    run (cancel_order now1 oid current_user) s = (s1, Returned ()) ∧
    (∀ pid z, stock_of s pid = Some (VInt z) →
              stock_of s1 pid = Some (VInt (z + qty_for pid items))) ∧
    run (cancel_order now2 oid current_user) s1 = (s2, Returned ()) ∧
    (∀ pid z, stock_of s pid = Some (VInt z) →
              stock_of s2 pid = Some (VInt (z + 2 * qty_for pid items))).
Proof.
  intros Ho Hst Hitems Hadmin Hrest.
  destruct (run_cancel_order now1 oid current_user s order items)
    as (s1 & Hrun1 & _ & Hm1 & Ho1 & _); [done | by left | done | done |].
  destruct (run_cancel_order now2 oid current_user s1 (cancelled now1 ∪ order) items)
    as (s2 & Hrun2 & _ & Hm2 & _); [done | by left | | |].
  { rewrite lookup_union_r; [done|].
    rewrite lookup_insert_ne by done. by rewrite lookup_singleton_ne. }
  { eapply Forall_impl; [done|]. intros ?. by eapply restorable_moved. }
  exists s1, s2. split_and!; [done | | done |].
  - apply Hm1.
  - intros pid z Hz. destruct Hm1 as (_ & _ & _ & _ & Z1).
    destruct Hm2 as (_ & _ & _ & _ & Z2).
    rewrite (Z2 _ _ (Z1 _ _ Hz)). do 2 f_equal. lia.
Qed.

End cancellation.

Lemma cancel_order_permission_witness :
  order_of Sample.shop_after_two "o1" = Some Sample.two_pens_order ∧
  run (Orders.cancel_order "t2" "o1" Sample.bob) Sample.shop_after_two =
    (Sample.shop_after_two, Raised ForbiddenException) ∧
  run (Orders.cancel_order "t2" "o1" Sample.ann) Sample.shop_cancelled =
    (Sample.shop_cancelled, Raised BadRequestException) ∧
  ∃ s' r,
    run (Orders.cancel_order "t2" "o1" Sample.root) Sample.shop_cancelled =
      (s', Returned ()) ∧
    order_of s' "o1" = Some r ∧
    r !! "status" = Some (VStr "cancelled") ∧
    (∀ key, key ≠ "status" → key ≠ "updated_at" →
            r !! key = Sample.cancelled_order !! key) ∧
    (∀ pid z, stock_of Sample.shop_cancelled pid = Some (VInt z) →
              stock_of s' pid = Some (VInt (z + qty_for pid [Sample.pens 2]))) ∧
    (∀ oid', oid' ≠ "o1" → order_of s' oid' = order_of Sample.shop_cancelled oid') ∧
    users s' = users Sample.shop_cancelled.
Proof.
  pose proof (cancel_order_permission "t2" "o1" Sample.bob Sample.shop_after_two
                Sample.two_pens_order eq_refl) as (_ & Hforbidden & _).
  pose proof (cancel_order_permission "t2" "o1" Sample.ann Sample.shop_cancelled
                Sample.cancelled_order eq_refl) as (_ & _ & Hlate & _).
  pose proof (cancel_order_permission "t2" "o1" Sample.root Sample.shop_cancelled
                Sample.cancelled_order eq_refl) as (_ & _ & _ & Hadmin).
  split_and!; [reflexivity | | |].
  - apply (Hforbidden ltac:(discriminate) (VStr "u1") eq_refl ltac:(discriminate)).
  - apply (Hlate ltac:(discriminate) eq_refl (VStr "cancelled") eq_refl
             ltac:(discriminate)).
  - apply (Hadmin (or_introl eq_refl) [Sample.pens 2] eq_refl).
    constructor; [right; exact I | constructor].
Defined.

Lemma admin_cancel_again_restocks_witness :
  ∃ s1 s2,
    run (Orders.cancel_order "t2" "o1" Sample.root) Sample.shop_cancelled = (s1, Returned ()) ∧
    (∀ pid z, stock_of Sample.shop_cancelled pid = Some (VInt z) →
              stock_of s1 pid = Some (VInt (z + qty_for pid [Sample.pens 2]))) ∧
    run (Orders.cancel_order "t3" "o1" Sample.root) s1 = (s2, Returned ()) ∧
    (∀ pid z, stock_of Sample.shop_cancelled pid = Some (VInt z) →
              stock_of s2 pid = Some (VInt (z + 2 * qty_for pid [Sample.pens 2]))).
Proof.
  apply (admin_cancel_again_restocks "t2" "t3" "o1" Sample.root Sample.shop_cancelled
           Sample.cancelled_order [Sample.pens 2] eq_refl eq_refl eq_refl eq_refl).
  constructor; [right; exact I | constructor].
Defined.

(** ** Order creation *)

Section creation.
Import JSONDatabase PyOps Orders.

(** C2: when [create_order] ends in an exception, the exception comes from
    the first loop, which only reads: the store is as it was, so no stock has
    changed and no order has been added. *)
Theorem create_order_fails_before_mutation uuid4 utcnow order current_user s s' e :
  run (create_order uuid4 utcnow order current_user) s = (s', Raised e) →
  s' = s ∧ run (for_fold check_item (OrderCreate.items order) zero) s = (s, Raised e).
Proof.
  intros Hrun.
  pose proof (run_create_order uuid4 utcnow order current_user s) as H.
  destruct (run_check_loop (OrderCreate.items order) zero s) as (o & Hcheck & _).
  rewrite Hcheck in H |- *. destruct o as [total|e'].
  - destruct H as (_ & _ & s1 & Hok & _). congruence.
  - rewrite H in Hrun. by simplify_eq.
Qed.

Lemma create_order_fails_before_mutation_witness :
  run (create_order "o1" "t1" {| OrderCreate.items := [Sample.one_pen] |} Sample.ann)
      Sample.empty_shop = (Sample.empty_shop, Raised BadRequestException) ∧
  Sample.empty_shop = Sample.empty_shop.
Proof.
  split; [reflexivity|].
  apply (create_order_fails_before_mutation "o1" "t1"
           {| OrderCreate.items := [Sample.one_pen] |} Sample.ann
           Sample.empty_shop Sample.empty_shop BadRequestException).
  reflexivity.
Defined.

(** C3: the order that a successful [create_order] stores, at the end of the
    orders file, has the caller's id for [user_id] (the request body
    [OrderCreate] has no such field), the status [pending], and for
    [total_amount] the sum of [quantity * price] over the items. *)
Theorem create_order_stores_principal_and_total uuid4 utcnow order current_user s s' r :
  run (create_order uuid4 utcnow order current_user) s = (s', Returned r) →
  orders s' = (orders s ++ [r])%list ∧
  r !! "user_id" = Some (VStr (UserInDB.id current_user)) ∧
  r !! "status" = Some (VStr "pending") ∧
  ∃ total, sum_subtotals zero (OrderCreate.items order) = Some total ∧
           r !! "total_amount" = Some (VFloat total).
Proof.
  intros Hrun.
  pose proof (run_create_order uuid4 utcnow order current_user s) as H.
  destruct (run (for_fold check_item (OrderCreate.items order) zero) s) as [s0 [total|e']].
  - destruct H as (_ & Hsum & s1 & Hok & _ & Hor & _).
    rewrite Hok in Hrun. simplify_eq. split_and!; [done..|]. by exists total.
  - congruence.
Qed.

Lemma create_order_stores_principal_and_total_witness :
  orders Sample.shop_after_two = (orders Sample.shop ++ [Sample.two_pens_order])%list ∧
  Sample.two_pens_order !! "user_id" = Some (VStr (UserInDB.id Sample.ann)) ∧
  Sample.two_pens_order !! "status" = Some (VStr "pending") ∧
  ∃ total, sum_subtotals zero [Sample.pens 2] = Some total ∧
           Sample.two_pens_order !! "total_amount" = Some (VFloat total).
Proof.
  apply (create_order_stores_principal_and_total "o1" "t1"
           {| OrderCreate.items := [Sample.pens 2] |} Sample.ann Sample.shop).
  reflexivity.
Defined.

End creation.

(** ** An order placed and cancelled *)

Section lifecycle.
Import JSONDatabase PyOps Orders.

Lemma stock_of_int s pid z :
  stock_of s pid = Some (VInt z) →
  ∃ p, first_match "id" pid (products s) = Some p ∧ p !! "stock" = Some (VInt z).
Proof.
  unfold stock_of. destruct (first_match "id" pid (products s)) as [p|]; [eauto | done].
Qed.

(** [create_order] for one item whose product has an int stock that covers
    the quantity. *)
Lemma run_create_order_one uuid4 utcnow item current_user s z qf :
  stock_of s (product_id item) = Some (VInt z) →
  quantity item ≤ z →
  float_of_int (quantity item) = Some qf →
  let r := order_record uuid4 utcnow current_user [item]
             (float_add zero (float_mul qf (price item))) in
  ∃ s', run (create_order uuid4 utcnow {| OrderCreate.items := [item] |} current_user) s =
          (s', Returned r) ∧
    users s' = users s ∧ orders s' = (orders s ++ [r])%list ∧
    stocks_moved (λ pid, - qty_for pid [item]) s s'.
Proof.
  intros (p & Hp & Hv)%stock_of_int Hle Hq r.
  pose proof (run_create_order uuid4 utcnow {| OrderCreate.items := [item] |} current_user s) as H.
  simpl OrderCreate.items in H.
  rewrite run_for_fold_cons, (run_check_item_ok _ _ _ _ _ _ Hp Hv Hle Hq) in H.
  simpl in H. destruct H as (_ & _ & s' & ? & ? & ? & ?). by exists s'.
Qed.

(** C6: with [s] pens in stock as an int and an order for [q ≤ s] of them,
    placing the order and cancelling it (by the one who placed it or by an
    admin) both return, and the stock is [s] again, as is every other int
    stock.  The id drawn for the order is new to the orders file, and [q] is
    in the range of the floats, as it is multiplied by the price. *)
Theorem create_then_cancel_restores_stock
    uuid4 utcnow utcnow' item creator canceller s z qf :
  order_of s uuid4 = None →
  stock_of s (product_id item) = Some (VInt z) →
  quantity item ≤ z →
  float_of_int (quantity item) = Some qf →
  UserInDB.role canceller = "admin" ∨ UserInDB.id canceller = UserInDB.id creator →
  ∃ s1 r s2,
    run (create_order uuid4 utcnow {| OrderCreate.items := [item] |} creator) s =
      (s1, Returned r) ∧
    stock_of s1 (product_id item) = Some (VInt (z - quantity item)) ∧
    run (cancel_order utcnow' uuid4 canceller) s1 = (s2, Returned ()) ∧
    stock_of s2 (product_id item) = Some (VInt z) ∧
    (∀ pid z', stock_of s pid = Some (VInt z') → stock_of s2 pid = Some (VInt z')).
Proof.
  intros Hfresh Hstock Hle Hq Hwho.
  destruct (run_create_order_one uuid4 utcnow item creator s z qf Hstock Hle Hq)
    as (s1 & Hrun1 & _ & Hor & Hm1).
  set (r := order_record uuid4 utcnow creator [item] _) in *.
  assert (Ho1 : order_of s1 uuid4 = Some r).
  { unfold order_of in *. rewrite Hor, first_match_app, Hfresh.
    rewrite first_match_cons. by case_decide. }
  destruct (run_cancel_order utcnow' uuid4 canceller s1 r [item])
    as (s2 & Hrun2 & _ & Hm2 & _); [done | | done | |].
  { destruct Hwho as [?|Hid]; [by left | right]. by rewrite Hid. }
  { constructor; [|constructor]. right.
    destruct Hm1 as (_ & _ & _ & _ & Z1). by rewrite (Z1 _ _ Hstock). }
  assert (Hback : ∀ pid z', stock_of s pid = Some (VInt z') → stock_of s2 pid = Some (VInt z')).
  { intros pid z' Hz'. destruct Hm1 as (_ & _ & _ & _ & Z1).
    destruct Hm2 as (_ & _ & _ & _ & Z2).
    rewrite (Z2 _ _ (Z1 _ _ Hz')). do 2 f_equal. lia. }
  exists s1, r, s2. split_and!; [done | | done | by apply Hback | done].
  destruct Hm1 as (_ & _ & _ & _ & Z1). rewrite (Z1 _ _ Hstock). do 2 f_equal.
  rewrite qty_for_cons. case_decide; [|done]. unfold qty_for. simpl. lia.
Qed.

End lifecycle.

Lemma create_then_cancel_restores_stock_witness :
  ∃ s1 r s2,
    run (Orders.create_order "o1" "t1" {| OrderCreate.items := [Sample.pens 2] |} Sample.ann)
        Sample.shop = (s1, Returned r) ∧
    stock_of s1 "p1" = Some (VInt (5 - 2)) ∧
    run (Orders.cancel_order "t2" "o1" Sample.ann) s1 = (s2, Returned ()) ∧
    stock_of s2 "p1" = Some (VInt 5) ∧
    (∀ pid z', stock_of Sample.shop pid = Some (VInt z') → stock_of s2 pid = Some (VInt z')).
Proof.
  apply (create_then_cancel_restores_stock "o1" "t1" "t2" (Sample.pens 2)
           Sample.ann Sample.ann Sample.shop 5 (S754_finite false 4503599627370496 (-51))
           eq_refl eq_refl ltac:(discriminate) eq_refl (or_intror eq_refl)).
Defined.

(** ** Requests for the same product *)

Section contention.
Import JSONDatabase PyOps Orders.

(** Taking turns with nobody else in between is running to the end. *)
Lemma run_advance {A} (t : task A) s :
  run t s = run (advance t s).2 (advance t s).1.
Proof. revert s. induction t; intros s; simpl; auto. Qed.

Lemma run_turn {A} (t : task A) s :
  run t s = run (turn t s).2 (turn t s).1.
Proof. destruct t; simpl; auto using run_advance. Qed.

Lemma serial_cons {A} (t : task A) ts s :
  serial (t :: ts) s =
  ((serial ts (run t s).1).1, (run t s).2 :: (serial ts (run t s).1).2).
Proof.
  simpl. destruct (run t s) as [s1 o]. simpl. by destruct (serial ts s1).
Qed.

Lemma run_buy_one_ok pid b s z :
  stock_of s pid = Some (VInt z) → 1 ≤ z →
  ∃ s' r, run (buy_one pid b) s = (s', Returned r) ∧
    stocks_moved (λ pid', - qty_for pid' [ {| product_id := pid; product_name := named b;
                                             quantity := 1; price := priced b |} ]) s s'.
Proof.
  intros Hz Hle. unfold buy_one.
  edestruct (run_create_order_one (order_id b) (at_time b)
               {| product_id := pid; product_name := named b;
                  quantity := 1; price := priced b |} (buyer b) s z)
    as (s' & Hrun & _ & _ & Hm); [done | done | reflexivity |].
  eauto.
Qed.

Lemma run_buy_one_short pid b s p z :
  first_match "id" pid (products s) = Some p →
  p !! "stock" = Some (VInt z) → z < 1 → is_Some (p !! "name") →
  run (buy_one pid b) s = (s, Raised BadRequestException).
Proof.
  intros Hp Hv Hlt Hname. unfold buy_one.
  pose proof (run_create_order (order_id b) (at_time b)
    {| OrderCreate.items := [ {| product_id := pid; product_name := named b;
                                 quantity := 1; price := priced b |} ] |} (buyer b) s) as H.
  simpl OrderCreate.items in H.
  rewrite run_for_fold_cons in H.
  by rewrite (run_check_item_short zero
                {| product_id := pid; product_name := named b;
                   quantity := 1; price := priced b |} s p z Hp Hv Hlt Hname) in H.
Qed.

(** C1, one request at a time: with [K] units in stock, of [N] requests for
    one unit each served one after another, [min N K] return, the others end
    in [BadRequestException], and [max 0 (K - N)] units are left. *)
Theorem serial_creates_share_stock pid (reqs : list purchase) s p K :
  first_match "id" pid (products s) = Some p →
  p !! "stock" = Some (VInt K) →
  0 ≤ K →
  is_Some (p !! "name") →
  length (base.filter (λ o, succeeded o = true) (serial (buy_one pid <$> reqs) s).2) =
    Z.to_nat (Z.min (Z.of_nat (length reqs)) K) ∧
  Forall (λ o, succeeded o = false → o = Raised BadRequestException)
         (serial (buy_one pid <$> reqs) s).2 ∧
  stock_of (serial (buy_one pid <$> reqs) s).1 pid =
    Some (VInt (Z.max 0 (K - Z.of_nat (length reqs)))).
Proof.
  revert s p K. induction reqs as [|b reqs IH]; intros s p K Hp Hv HK Hname.
  - simpl. split_and!; [lia | constructor |].
    unfold stock_of. rewrite Hp. simpl. rewrite Hv. do 2 f_equal. lia.
  - rewrite fmap_cons, serial_cons.
    assert (Hst : stock_of s pid = Some (VInt K)).
    { unfold stock_of. by rewrite Hp. }
    destruct (decide (1 ≤ K)) as [Hge|Hlt].
    + destruct (run_buy_one_ok pid b s K Hst Hge) as (s1 & r & -> & Hm).
      destruct Hm as (_ & F & _ & _ & Z1).
      destruct (F _ _ Hp) as (p1 & Hp1 & Hsame).
      pose proof (Z1 _ _ Hst) as Hst1. rewrite qty_for_cons in Hst1.
      simpl in Hst1. rewrite decide_True in Hst1 by done.
      assert (Hv1 : p1 !! "stock" = Some (VInt (K - 1))).
      { unfold stock_of in Hst1. rewrite Hp1 in Hst1. simpl in Hst1.
        rewrite Hst1. do 2 f_equal; lia. }
      destruct (IH s1 p1 (K - 1) Hp1 Hv1) as (Hn & Hall & Hleft); [lia | |].
      { rewrite Hsame; done. }
      cbn [fst snd]. rewrite filter_cons_True by done.
      cbn [length]. split_and!.
      * rewrite Hn. lia.
      * constructor; [done | done].
      * rewrite Hleft. do 2 f_equal. lia.
    + rewrite (run_buy_one_short pid b s p K Hp Hv) by (done || lia).
      destruct (IH s p K Hp Hv HK Hname) as (Hn & Hall & Hleft).
      cbn [fst snd]. rewrite filter_cons_False by done.
      cbn [length]. split_and!.
      * rewrite Hn. lia.
      * constructor; [done | done].
      * rewrite Hleft. do 2 f_equal. lia.
Qed.

End contention.

Lemma serial_creates_share_stock_witness :
  length (base.filter (λ o, succeeded o = true)
            (serial (buy_one "p1" <$> Sample.ten_buyers) Sample.shop).2) =
    Z.to_nat (Z.min (Z.of_nat (length Sample.ten_buyers)) 5) ∧
  Forall (λ o, succeeded o = false → o = Raised BadRequestException)
         (serial (buy_one "p1" <$> Sample.ten_buyers) Sample.shop).2 ∧
  stock_of (serial (buy_one "p1" <$> Sample.ten_buyers) Sample.shop).1 "p1" =
    Some (VInt (Z.max 0 (5 - Z.of_nat (length Sample.ten_buyers)))).
Proof.
  apply (serial_creates_share_stock "p1" Sample.ten_buyers Sample.shop Sample.pen 5
           eq_refl eq_refl ltac:(discriminate) (ex_intro _ (VStr "pen") eq_refl)).
Defined.

(** C1, on the event loop: nothing keeps the read of the stock and the write
    of the new stock of one request together.  With five pens and ten
    requests for one pen taking turns in order, every request reads the five
    pens before any has written: all ten return, ten orders are stored, and
    four pens are left. *)
Lemma interleaved_creates_oversell :
  length (base.filter (λ t, finished_ok t = true)
            (run_schedule Sample.round_robin
               (Sample.shop, buy_one "p1" <$> Sample.ten_buyers)).2) = 10%nat ∧
  length (orders (run_schedule Sample.round_robin
                    (Sample.shop, buy_one "p1" <$> Sample.ten_buyers)).1) = 10%nat ∧
  stock_of (run_schedule Sample.round_robin
              (Sample.shop, buy_one "p1" <$> Sample.ten_buyers)).1 "p1" = Some (VInt 4).
Proof. vm_compute. done. Qed.

(** ** Accounts *)

Section accounts.
Import JSONDatabase.
Variable get_password_hash : string → string.

(** [register] by what the two searches find. *)
Lemma run_register uuid4 utcnow user s :
  run (register get_password_hash uuid4 utcnow user) s =
  match first_match "username" (UserCreate.username user) (users s),
        first_match "email" (UserCreate.email user) (users s) with
  | None, None =>
      (_write users_json (users s ++ [user_record get_password_hash uuid4 utcnow user]) s,
       Returned (user_record get_password_hash uuid4 utcnow user))
  | _, _ => (s, Raised ConflictException)
  end.
Proof.
  unfold register. rewrite run_bind, run_get_by_field. simpl _read.
  destruct (first_match "username" _ _); [done|].
  rewrite run_bind, run_get_by_field. simpl _read.
  destruct (first_match "email" _ _); [done|].
  by rewrite run_bind, run_create.
Qed.




(** C8: the record that a successful [register] stores, at the end of the
    users file, has the role ["user"] and is active; [UserCreate] has
    neither field, so the request has no say in them. *)
Theorem register_role_user_active uuid4 utcnow user s s' r :
  run (register get_password_hash uuid4 utcnow user) s = (s', Returned r) →
  users s' = (users s ++ [r])%list ∧
  r !! "role" = Some (VStr "user") ∧
  r !! "is_active" = Some (VBool true).
Proof.
  rewrite run_register.
  destruct (first_match "username" _ _); [done|].
  destruct (first_match "email" _ _); [done|].
  intros [= <- <-]. done.
Qed.

End accounts.



Lemma register_role_user_active_witness :
  users Sample.club_with_cyd = (users Sample.club ++ [Sample.cyd_record])%list ∧
  Sample.cyd_record !! "role" = Some (VStr "user") ∧
  Sample.cyd_record !! "is_active" = Some (VBool true).
Proof.
  apply (register_role_user_active Sample.toy_hash "u3" "t5" Sample.cyd Sample.club
           Sample.club_with_cyd Sample.cyd_record).
  reflexivity.
Defined.

(** ** Profiles *)

Section profiles.
Import JSONDatabase.
Variable get_password_hash : string → string.

(** The updates are built without a look at the store; they fail only on a
    password set to [null], and never name the id. *)
Lemma run_prepare_updates utcnow user_update s :
  (∃ d, run (prepare_updates get_password_hash utcnow user_update) s = (s, Returned d) ∧
        d !! "id" = None ∧
        ∀ e, UserUpdate.email user_update = Some (Some e) → d !! "email" = Some (VStr e)) ∨
  (UserUpdate.password user_update = Some None ∧
   run (prepare_updates get_password_hash utcnow user_update) s = (s, Raised AttributeError)).
Proof.
  destruct user_update as [em fn pw].
  destruct pw as [[pw|]|]; [left | right; by destruct em as [[?|]|], fn as [[?|]|] | left];
    destruct em as [[em|]|], fn as [[fn|]|];
    (eexists; split; [reflexivity|]; split; [reflexivity|];
     intros e He; simplify_eq/=; reflexivity).
Qed.

(** C10: [update_user] has no search for the email among the other users
    and never ends in [ConflictException]; when the caller may update the
    user (an admin, or the user in person) and the request sets the email to
    the one of another user, without setting the password to [null], the
    call returns and the users file holds two records, with different ids,
    that carry this email. *)
Theorem update_user_shares_email utcnow user_id user_update current_user s :
  (run (update_user get_password_hash utcnow user_id user_update current_user) s).2
    ≠ Raised ConflictException ∧
  (∀ target other e,
     first_match "id" user_id (users s) = Some target →
     UserInDB.role current_user = "admin" ∨ UserInDB.id current_user = user_id →
     UserUpdate.email user_update = Some (Some e) →
     UserUpdate.password user_update ≠ Some None →
     other ∈ users s →
     other !! "id" ≠ Some (VStr user_id) →
     other !! "email" = Some (VStr e) →
     ∃ s' r,
       run (update_user get_password_hash utcnow user_id user_update current_user) s =
         (s', Returned r) ∧
       r ∈ users s' ∧ other ∈ users s' ∧
       r !! "id" = Some (VStr user_id) ∧ other !! "id" ≠ Some (VStr user_id) ∧
       r !! "email" = Some (VStr e) ∧ other !! "email" = Some (VStr e)).
Proof.
  unfold update_user. rewrite run_bind, run_get_by_id. simpl _read. split.
  - destruct (first_match "id" user_id (users s)) as [target|]; [|done].
    case_decide; [done|]. rewrite run_bind.
    destruct (run_prepare_updates utcnow user_update s) as [(d & -> & _)|[_ ->]]; [|done].
    rewrite run_bind, run_update.
    by destruct (update_first user_id d (_read users_json s)) as [[??]|].
  - intros target other e Htarget Hmay Hemail Hpw Hother Hoid Homail.
    rewrite Htarget. rewrite decide_False by (intros [??]; by destruct Hmay).
    rewrite run_bind.
    destruct (run_prepare_updates utcnow user_update s) as [(d & -> & Hid & Hd)|[? _]];
      [|done].
    rewrite run_bind, run_update. simpl _read.
    destruct (update_first_Some user_id d _ _ Htarget) as (i & Hi & _ & ->).
    apply first_match_Some in Htarget as [_ Htid].
    apply list_elem_of_lookup in Hother as [j Hj].
    assert (i ≠ j) by (intros ->; congruence).
    eexists _, _. split; [reflexivity|]. simpl. split_and!; [| |  |done| |done].
    + apply list_elem_of_lookup. exists i.
      apply list_lookup_insert_eq. by eapply lookup_lt_Some.
    + apply list_elem_of_lookup. exists j. by rewrite list_lookup_insert_ne.
    + by rewrite lookup_union_r.
    + apply lookup_union_Some_l. by apply Hd.
Qed.

End profiles.

Lemma update_user_shares_email_witness :
  ∃ s' r,
    run (update_user Sample.toy_hash "t7" "u2" Sample.take_ann_email Sample.bob) Sample.club =
      (s', Returned r) ∧
    r ∈ users s' ∧ Sample.ann_record ∈ users s' ∧
    r !! "id" = Some (VStr "u2") ∧ Sample.ann_record !! "id" ≠ Some (VStr "u2") ∧
    r !! "email" = Some (VStr "ann@example.com") ∧
    Sample.ann_record !! "email" = Some (VStr "ann@example.com").
Proof.
  apply (proj2 (update_user_shares_email Sample.toy_hash "t7" "u2" Sample.take_ann_email
                  Sample.bob Sample.club) Sample.bob_record Sample.ann_record
           "ann@example.com" eq_refl (or_intror eq_refl) eq_refl ltac:(discriminate)
           ltac:(left) ltac:(discriminate) eq_refl).
Defined.

(** * More of the store and of the routes *)

(** ** The document store: delete, filter, create, update *)

Section store_more.
Import JSONDatabase.

Lemma read_write self data s : _read self (_write self data s) = data.
Proof. by destruct self. Qed.

Lemma first_match_without id id' data :
  first_match "id" id' (base.filter (λ item, ¬ field_is "id" id item) data) =
  if decide (id' = id) then None else first_match "id" id' data.
Proof.
  induction data as [|x data IH].
  - by case_decide.
  - rewrite filter_cons. destruct (decide (¬ field_is "id" id x)) as [Hx|Hx].
    + rewrite !first_match_cons, IH.
      repeat case_decide; unfold field_is in *; simplify_eq; congruence.
    + apply dec_stable in Hx. rewrite IH, first_match_cons.
      repeat case_decide; unfold field_is in *; simplify_eq; congruence.
Qed.

Lemma filter_without_absent id data :
  first_match "id" id data = None →
  base.filter (λ item, ¬ field_is "id" id item) data = data.
Proof.
  induction data as [|x data IH]; [done|].
  rewrite first_match_cons. case_decide as Hx; [done|].
  intros Hnone. rewrite filter_cons_True by done. by rewrite IH.
Qed.

Lemma run_delete self id s :
  run (delete self id) s =
  match first_match "id" id (_read self s) with
  | Some _ =>
      (_write self (base.filter (λ item, ¬ field_is "id" id item) (_read self s)) s,
       Returned true)
  | None => (s, Returned false)
  end.
Proof.
  unfold delete. rewrite run_bind, run_get_all. cbv zeta.
  destruct (first_match "id" id (_read self s)) as [x|] eqn:Hx.
  - apply first_match_Some in Hx as [Hin Hid].
    rewrite bool_decide_eq_true_2; [done|].
    apply length_filter_lt with x; [done|]. by intros []. 
  - rewrite filter_without_absent by done.
    rewrite bool_decide_eq_false_2 by lia. done.
Qed.

(** X1: [delete] takes away every record that carries the id, not only the
    first, and tells whether there was one; after it a search for the id
    finds nothing, and a search for another id finds what it found before. *)
Theorem delete_removes_every_match self id s :
  (first_match "id" id (_read self s) = None →
     run (delete self id) s = (s, Returned false)) ∧
  (is_Some (first_match "id" id (_read self s)) →
     run (delete self id) s =
       (_write self (base.filter (λ item, ¬ field_is "id" id item) (_read self s)) s,
        Returned true)) ∧
  (∀ item, item ∈ _read self (run (delete self id) s).1 →
           item !! "id" ≠ Some (VStr id)) ∧
  (∀ id', id' ≠ id →
     first_match "id" id' (_read self (run (delete self id) s).1) =
     first_match "id" id' (_read self s)).
Proof.
  rewrite run_delete.
  destruct (first_match "id" id (_read self s)) as [x|] eqn:Hx; split_and!.
  - done.
  - done.
  - simpl. rewrite read_write. by intros item [? _]%list_elem_of_filter.
  - intros id' Hne. simpl. rewrite read_write, first_match_without. by case_decide.
  - done.
  - by intros [??].
  - simpl. by apply first_match_None.
  - done.
Qed.

Lemma run_filter self conditions s :
  run (JSONDatabase.filter self conditions) s =
  (s, Returned (foldl (λ result kv, base.filter (field_is kv.1 kv.2) result)
                      (_read self s) conditions)).
Proof. reflexivity. Qed.

Lemma filter_conditions_spec conditions data :
  let result := foldl (λ result kv, base.filter (field_is kv.1 kv.2) result)
                      data conditions in
  result `sublist_of` data ∧
  ∀ item, item ∈ result ↔
          item ∈ data ∧ ∀ kv, kv ∈ conditions → item !! kv.1 = Some (VStr kv.2).
Proof.
  revert data. induction conditions as [|kv conditions IH]; intros data; simpl.
  - split; [done|]. intros item. split; [|by intros [? _]].
    intros ?. split; [done|]. by intros ? ?%elem_of_nil.
  - destruct (IH (base.filter (field_is kv.1 kv.2) data)) as [Hsub Hin]. split.
    + etrans; [done|]. apply sublist_filter.
    + intros item. rewrite Hin, list_elem_of_filter. split.
      * intros [[Hkv ?] Hrest]. split; [done|].
        intros kv' [->|?]%elem_of_cons; [done | by apply Hrest].
      * intros [? Hall]. split_and!; [|done|].
        -- apply Hall. by left.
        -- intros kv' ?. apply Hall. by right.
Qed.

(** X2: [filter] returns, in the order of the file, exactly the records
    that carry the given string under every one of the given keys (all the
    records when no condition is given), and leaves the store as it was. *)
Theorem filter_keeps_records_meeting_all_conditions self conditions s :
  ∃ result,
    run (JSONDatabase.filter self conditions) s = (s, Returned result) ∧
    result `sublist_of` _read self s ∧
    ∀ item, item ∈ result ↔
            item ∈ _read self s ∧
            ∀ kv, kv ∈ conditions → item !! kv.1 = Some (VStr kv.2).
Proof.
  eexists. split; [apply run_filter|]. apply filter_conditions_spec.
Qed.

(** X3: [create] has no look at the ids in the file: it always returns and
    appends the record.  A search for the id of the new record then finds the
    new record when the id was free, and the record that had the id before
    when it was not. *)
Theorem create_appends_unchecked self item id s :
  item !! "id" = Some (VStr id) →
  run (create self item ≫= λ _, get_by_id self id) s =
    (_write self (_read self s ++ [item]) s,
     Returned (Some (default item (first_match "id" id (_read self s))))).
Proof.
  intros Hid. rewrite run_bind, run_create, run_get_by_id, read_write.
  rewrite first_match_app, first_match_cons.
  destruct (first_match "id" id (_read self s)); [done|]. by case_decide.
Qed.

Lemma write_write self data1 data2 s :
  _write self data2 (_write self data1 s) = _write self data2 s.
Proof. by destruct self. Qed.

Lemma update_first_length id updates data data' item' :
  update_first id updates data = Some (data', item') →
  length data' = length data.
Proof.
  revert data'. induction data as [|x data IH]; intros data'; [done|].
  simpl. case_decide.
  - intros ?; simplify_eq. done.
  - destruct (update_first id updates data) as [[rest r]|]; [|done].
    intros ?; simplify_eq/=. f_equal. by apply IH.
Qed.

(** X4: after [update] with fields other than ["id"] on an id that is
    there, a search for the id finds the merged record, a search for another
    id finds what it found before, and the file has as many records as
    before. *)
Theorem update_then_get_by_id self id updates item s :
  updates !! "id" = None →
  first_match "id" id (_read self s) = Some item →
  ∃ s',
    run (update self id updates) s = (s', Returned (Some (updates ∪ item))) ∧
    run (get_by_id self id) s' = (s', Returned (Some (updates ∪ item))) ∧
    (∀ id', id' ≠ id →
       first_match "id" id' (_read self s') = first_match "id" id' (_read self s)) ∧
    length (_read self s') = length (_read self s).
Proof.
  intros Hu Hitem.
  destruct (update_first_Some id updates _ _ Hitem) as (i & Hi & _ & Hup).
  assert (Hview := λ id', first_match_update id _ _ _ _ id' Hu Hup).
  eexists. rewrite run_update, Hup. split; [done|].
  rewrite run_get_by_id, read_write. split_and!.
  - by rewrite Hview, decide_True.
  - intros id' Hne. by rewrite Hview, decide_False.
  - apply length_insert.
Qed.

Lemma update_first_twice id updates1 updates2 data :
  updates1 !! "id" = None →
  match update_first id updates1 data with
  | Some (data1, item1) =>
      update_first id updates2 data1 = update_first id (updates2 ∪ updates1) data
  | None => update_first id (updates2 ∪ updates1) data = None
  end.
Proof.
  intros Hu. induction data as [|x data IH]; [done|].
  simpl. destruct (decide (field_is "id" id x)) as [Hx|Hx].
  - simpl. rewrite decide_True.
    + by rewrite (assoc_L (∪)).
    + unfold field_is in *. by rewrite lookup_union_r.
  - destruct (update_first id updates1 data) as [[data1 item1]|]; simpl.
    + rewrite decide_False by done. by rewrite IH.
    + by rewrite IH.
Qed.

(** X5: two calls of [update] on the same id, the first with fields other
    than ["id"], leave the store and return what one call with the two sets
    of fields merged does, the fields of the second call coming first. *)
Theorem update_twice_is_update_merged self id updates1 updates2 s :
  updates1 !! "id" = None →
  run (update self id updates1 ≫= λ _, update self id updates2) s =
  run (update self id (updates2 ∪ updates1)) s.
Proof.
  intros Hu. rewrite run_bind, !run_update.
  pose proof (update_first_twice id updates1 updates2 (_read self s) Hu) as H.
  destruct (update_first id updates1 (_read self s)) as [[data1 item1]|] eqn:H1.
  - rewrite run_update, read_write, H.
    destruct (update_first id (updates2 ∪ updates1) (_read self s)) as [[??]|] eqn:H12.
    + by rewrite write_write.
    + apply update_first_None in H12.
      apply (update_first_None id updates1) in H12. congruence.
  - rewrite run_update, H.
    destruct (update_first id updates2 (_read self s)) as [[??]|] eqn:H2; [|done].
    apply update_first_None in H.
    assert (update_first id updates2 (_read self s) = None) as H'
      by by apply update_first_None.
    congruence.
Qed.

End store_more.

(** ** Routes behind their dependencies *)

Section guards.

Lemma run_as_admin {A} (route : UserInDB.t → task A) user s :
  run (as_admin route user) s =
  if UserInDB.is_active user
  then if decide (UserInDB.role user = "admin")
       then run (route user) s
       else (s, Raised ForbiddenException)
  else (s, Raised ForbiddenException).
Proof.
  unfold as_admin, Dependencies.get_current_active_user,
    Dependencies.get_current_admin_user.
  rewrite run_bind. destruct (UserInDB.is_active user); [|done].
  simpl. rewrite run_bind.
  destruct (decide (UserInDB.role user = "admin")).
  - by rewrite decide_False by (by intros []).
  - by rewrite decide_True.
Qed.

(** X6: a route behind [get_current_admin_user] runs for a user who is
    active and an admin, and for nobody else: an inactive user and a user
    with another role get [ForbiddenException] before the route has read or
    written anything. *)
Theorem as_admin_lets_active_admins_through {A} (route : UserInDB.t → task A) user s :
  (UserInDB.is_active user = true → UserInDB.role user = "admin" →
     run (as_admin route user) s = run (route user) s) ∧
  (UserInDB.is_active user = false ∨ UserInDB.role user ≠ "admin" →
     run (as_admin route user) s = (s, Raised ForbiddenException)).
Proof.
  rewrite run_as_admin. split.
  - intros -> Hrole. by rewrite decide_True.
  - intros [->|Hrole]; [done|].
    destruct (UserInDB.is_active user); [|done]. by rewrite decide_False.
Qed.

End guards.

(** ** Orders read and relabelled *)

Section views.
Import JSONDatabase PyOps Orders OrderViews.

Lemma run_get_orders skip limit status current_user s :
  run (get_orders skip limit status current_user) s =
  (s, Returned (slice skip limit
     (let visible :=
        if decide (UserInDB.role current_user = "admin") then orders s
        else base.filter (field_is "user_id" (UserInDB.id current_user)) (orders s) in
      match status with
      | Some st => if decide (st ≠ "") then base.filter (field_is "status" st) visible
                   else visible
      | None => visible
      end))).
Proof.
  unfold get_orders. rewrite run_bind. by case_decide.
Qed.

(** X7: [get_orders] returns at most [limit] orders, all from the orders
    file and in its order, and leaves the store as it was; a caller who is no
    admin gets only orders whose [user_id] is the caller's id, and with a
    status asked for, every order returned has that status. *)
Theorem get_orders_shows_own_orders skip limit status current_user s :
  ∃ result,
    run (get_orders skip limit status current_user) s = (s, Returned result) ∧
    result `sublist_of` orders s ∧
    (length result ≤ limit)%nat ∧
    (UserInDB.role current_user ≠ "admin" →
       ∀ o, o ∈ result → o !! "user_id" = Some (VStr (UserInDB.id current_user))) ∧
    (∀ st, status = Some st → st ≠ "" →
       ∀ o, o ∈ result → o !! "status" = Some (VStr st)).
Proof.
  eexists. split; [apply run_get_orders|]. cbv zeta.
  set (visible := if decide (UserInDB.role current_user = "admin") then _ else _).
  set (chosen := match status with Some _ => _ | None => _ end).
  assert (Hvis : visible `sublist_of` orders s).
  { unfold visible. case_decide; [done | apply sublist_filter]. }
  assert (Hcho : chosen `sublist_of` visible).
  { unfold chosen. destruct status as [st|]; [|done].
    case_decide; [apply sublist_filter | done]. }
  assert (Hsl : slice skip limit chosen `sublist_of` chosen).
  { unfold slice. etrans; [apply sublist_take | apply sublist_drop]. }
  split_and!.
  - by do 2 (etrans; [done|]).
  - unfold slice. rewrite length_take. lia.
  - intros Hrole o Ho.
    apply (sublist_subseteq _ _ Hsl), (sublist_subseteq _ _ Hcho) in Ho.
    unfold visible in Ho. rewrite decide_False in Ho by done.
    by apply list_elem_of_filter in Ho as [? _].
  - intros st -> Hst o Ho. apply (sublist_subseteq _ _ Hsl) in Ho.
    unfold chosen in Ho. rewrite decide_True in Ho by done.
    by apply list_elem_of_filter in Ho as [? _].
Qed.

(** X8: the pages of [get_orders] fit together: for the same caller and
    status, the page of [limit1] orders from [skip] followed by the page of
    [limit2] orders from [skip + limit1] is the page of [limit1 + limit2]
    orders from [skip]. *)
Theorem get_orders_pages_join skip limit1 limit2 status current_user s :
  ∃ page1 page2,
    run (get_orders skip limit1 status current_user) s = (s, Returned page1) ∧
    run (get_orders (skip + limit1) limit2 status current_user) s = (s, Returned page2) ∧
    run (get_orders skip (limit1 + limit2) status current_user) s =
      (s, Returned (page1 ++ page2)%list).
Proof.
  eexists _, _. rewrite !run_get_orders. split_and!; [done..|].
  do 2 f_equal. unfold slice.
  by rewrite <- drop_drop, take_take_drop.
Qed.

Lemma run_get_order order_id current_user s :
  run (get_order order_id current_user) s =
  (s, match order_of s order_id with
      | None => Raised NotFoundException
      | Some order =>
          if decide (UserInDB.role current_user = "admin") then Returned order
          else match order !! "user_id" with
               | None => Raised KeyError
               | Some owner =>
                   if decide (owner = VStr (UserInDB.id current_user))
                   then Returned order
                   else Raised ForbiddenException
               end
      end).
Proof.
  unfold get_order, order_of. rewrite run_bind, run_get_by_id. simpl _read.
  destruct (first_match "id" order_id (orders s)) as [order|]; [|done].
  destruct (decide (UserInDB.role current_user = "admin")) as [Hadmin|Hrole].
  - by rewrite decide_False by (by intros []).
  - rewrite decide_True by done. rewrite run_bind, run_subscript.
    destruct (order !! "user_id") as [owner|]; [|done].
    destruct (decide (owner = VStr (UserInDB.id current_user))).
    + by rewrite decide_False by (by intros []).
    + by rewrite decide_True.
Qed.

(** X9: [get_order] never writes; it returns an order exactly when the
    order is the one that a search for the id finds and the caller is an
    admin or its owner; an id that is not there is a [NotFoundException] for
    every caller, and the order of someone else a [ForbiddenException] for a
    caller who is no admin. *)
Theorem get_order_for_owner_or_admin order_id current_user s :
  (run (get_order order_id current_user) s).1 = s ∧
  (∀ r, (run (get_order order_id current_user) s).2 = Returned r ↔
        order_of s order_id = Some r ∧
        (UserInDB.role current_user = "admin" ∨
         r !! "user_id" = Some (VStr (UserInDB.id current_user)))) ∧
  (order_of s order_id = None →
     (run (get_order order_id current_user) s).2 = Raised NotFoundException) ∧
  (∀ r owner, order_of s order_id = Some r →
     UserInDB.role current_user ≠ "admin" →
     r !! "user_id" = Some owner → owner ≠ VStr (UserInDB.id current_user) →
     (run (get_order order_id current_user) s).2 = Raised ForbiddenException).
Proof.
  rewrite run_get_order. simpl. split_and!.
  - done.
  - intros r. destruct (order_of s order_id) as [order|]; [|by split; [|intros [? _]]].
    case_decide as Hrole.
    + split; [intros [= ->]; eauto | by intros [[= ->] _]].
    + destruct (order !! "user_id") as [owner|] eqn:Hown.
      * case_decide as Ho.
        -- subst owner. split; [intros [= ->]; eauto | by intros [[= ->] _]].
        -- split; [done|]. intros [[= ->] [?|?]]; congruence.
      * split; [done|]. intros [[= ->] [?|?]]; congruence.
  - by intros ->.
  - intros r owner -> Hrole -> Hne. by rewrite !decide_False.
Qed.

(** X10: an order that [get_order] returns to a caller is among the orders
    that [get_orders] lists for that caller, given room for all of them. *)
Theorem get_order_is_listed order_id current_user s s' r :
  run (get_order order_id current_user) s = (s', Returned r) →
  ∃ result,
    run (get_orders 0 (length (orders s)) None current_user) s = (s, Returned result) ∧
    r ∈ result.
Proof.
  rewrite run_get_order. intros Hrun.
  destruct (order_of s order_id) as [order|] eqn:Ho; [|by simplify_eq].
  assert (order = r ∧ (UserInDB.role current_user = "admin" ∨
            r !! "user_id" = Some (VStr (UserInDB.id current_user)))) as [-> Hwho].
  { destruct (decide (UserInDB.role current_user = "admin")); [by simplify_eq; auto|].
    destruct (order !! "user_id") as [owner|] eqn:Howner; [|by simplify_eq].
    destruct (decide (owner = VStr (UserInDB.id current_user))); simplify_eq; auto. }
  apply first_match_Some in Ho as [Hin _].
  eexists. split; [apply run_get_orders|]. cbv zeta. unfold slice.
  rewrite drop_0. case_decide as Hrole.
  - by rewrite firstn_all.
  - destruct Hwho as [?|Hown]; [done|].
    rewrite take_ge.
    + apply list_elem_of_filter. by split.
    + apply length_filter.
Qed.

Local Abbreviation relabel status now :=
  ({[ "status" := VStr status; "updated_at" := VStr now ]} : record).

Lemma run_update_order_status now oid status current_user s order :
  order_of s oid = Some order →
  ∃ s', run (update_order_status now oid status current_user) s =
          (s', Returned (relabel status now ∪ order)) ∧
    users s' = users s ∧ products s' = products s ∧
    order_of s' oid = Some (relabel status now ∪ order) ∧
    (∀ oid', oid' ≠ oid → order_of s' oid' = order_of s oid') ∧
    length (orders s') = length (orders s).
Proof.
  intros Ho. unfold order_of in Ho.
  unfold update_order_status. rewrite run_bind, run_get_by_id. simpl _read. rewrite Ho.
  rewrite run_bind, run_update. simpl _read.
  destruct (update_first_Some oid (relabel status now) _ _ Ho) as (i & Hi & _ & Hup).
  rewrite Hup.
  assert (Hc : relabel status now !! "id" = None) by done.
  assert (Hview := λ oid', first_match_update oid _ _ _ _ oid' Hc Hup).
  eexists. split; [done|]. simpl. split_and!; [done..| | |].
  - unfold order_of. simpl. by rewrite Hview, decide_True.
  - intros oid' Hne. unfold order_of. simpl. by rewrite Hview, decide_False.
  - apply length_insert.
Qed.

(** X11: [update_order_status] takes any status for an order in any status:
    the order that a search for the id finds gets the status and the time,
    and keeps its other fields; no other order, no product (so no stock) and
    no user changes.  On an id that is not there it is a
    [NotFoundException] and the store stays as it was. *)
Theorem update_order_status_any_transition now oid status current_user s :
  (order_of s oid = None →
     run (update_order_status now oid status current_user) s =
       (s, Raised NotFoundException)) ∧
  (∀ order, order_of s oid = Some order →
     ∃ s' r,
       run (update_order_status now oid status current_user) s = (s', Returned r) ∧
       r !! "status" = Some (VStr status) ∧
       (∀ key, key ≠ "status" → key ≠ "updated_at" → r !! key = order !! key) ∧
       order_of s' oid = Some r ∧
       (∀ oid', oid' ≠ oid → order_of s' oid' = order_of s oid') ∧
       users s' = users s ∧ products s' = products s).
Proof.
  split.
  - unfold order_of. intros Ho.
    unfold update_order_status. rewrite run_bind, run_get_by_id. simpl _read.
    by rewrite Ho.
  - intros order Ho.
    destruct (run_update_order_status now oid status current_user s order Ho)
      as (s' & Hrun & Hu & Hp & Ho' & Hothers & _).
    exists s', (relabel status now ∪ order). split_and!; [done| | |done..].
    + by apply lookup_union_Some_l.
    + intros key ??. rewrite lookup_union_r; [done|].
      rewrite lookup_insert_ne by done. by rewrite lookup_singleton_ne.
Qed.

(** X12: the status is no record of what happened to the stock.  Whatever
    the status of an order (cancelled and restocked already, or completed),
    once an admin has set it back to [pending], [cancel_order] by its owner
    returns and adds the quantities of its items to the stocks. *)
Theorem reopened_order_restocks_again now1 now2 oid admin owner s order items :
  order_of s oid = Some order →
  order !! "user_id" = Some (VStr (UserInDB.id owner)) →
  order !! "items" = Some (VItems items) →
  Forall (restorable s) items →
  ∃ s1 r s2,
    run (update_order_status now1 oid "pending" admin) s = (s1, Returned r) ∧
    products s1 = products s ∧
    run (cancel_order now2 oid owner) s1 = (s2, Returned ()) ∧
    (∀ pid z, stock_of s pid = Some (VInt z) →
              stock_of s2 pid = Some (VInt (z + qty_for pid items))).
Proof.
  intros Ho Hown Hitems Hrest.
  destruct (run_update_order_status now1 oid "pending" admin s order Ho)
    as (s1 & Hrun1 & _ & Hp & Ho1 & _).
  assert (Hkeep : ∀ key, key ≠ "status" → key ≠ "updated_at" →
            (relabel "pending" now1 ∪ order) !! key = order !! key).
  { intros key ??. rewrite lookup_union_r; [done|].
    rewrite lookup_insert_ne by done. by rewrite lookup_singleton_ne. }
  destruct (run_cancel_order now2 oid owner s1 (relabel "pending" now1 ∪ order) items)
    as (s2 & Hrun2 & _ & Hm & _); [done | | | |].
  { right. split; [by rewrite Hkeep | by apply lookup_union_Some_l]. }
  { by rewrite Hkeep. }
  { eapply Forall_impl; [done|]. intros item.
    unfold restorable, stock_of. by rewrite Hp. }
  exists s1, (relabel "pending" now1 ∪ order), s2. split_and!; [done..|].
  intros pid z Hz. destruct Hm as (_ & _ & _ & _ & Z1). apply Z1.
  unfold stock_of in *. by rewrite Hp.
Qed.

End views.

(** ** Orders of several items *)

Section orders_more.
Import JSONDatabase PyOps Orders.

Lemma run_check_loop_covered items acc s :
  Forall (covered s) items →
  ∃ total, run (for_fold check_item items acc) s = (s, Returned total).
Proof.
  revert acc. induction items as [|item items IH]; intros acc Hall.
  - by eexists.
  - apply Forall_cons in Hall as [(z & qf & Hz & Hle & Hq) Hall].
    apply stock_of_int in Hz as (p & Hp & Hv).
    rewrite run_for_fold_cons, (run_check_item_ok _ _ _ _ _ _ Hp Hv Hle Hq).
    apply IH, Hall.
Qed.

Lemma run_create_order_covered uuid4 utcnow order current_user s :
  Forall (covered s) (OrderCreate.items order) →
  ∃ s' total,
    run (create_order uuid4 utcnow order current_user) s =
      (s', Returned (order_record uuid4 utcnow current_user (OrderCreate.items order) total)) ∧
    users s' = users s ∧
    orders s' = (orders s ++
      [order_record uuid4 utcnow current_user (OrderCreate.items order) total])%list ∧
    stocks_moved (λ pid, - qty_for pid (OrderCreate.items order)) s s'.
Proof.
  intros Hall.
  pose proof (run_create_order uuid4 utcnow order current_user s) as H.
  destruct (run_check_loop_covered _ zero s Hall) as (total & Hcheck).
  rewrite Hcheck in H. destruct H as (_ & _ & s' & ? & ? & ? & ?).
  by exists s', total.
Qed.

(** X13: [create_order] checks each item by itself against the stock as it
    is before the order, and then takes every quantity: when each item of
    the list is covered by the int stock of its product, the call returns and
    each int stock is down by all the units of its product in the list, so
    that a product listed more than once can end below zero. *)
Theorem create_order_checks_each_item_alone uuid4 utcnow order current_user s :
  Forall (covered s) (OrderCreate.items order) →
  ∃ s' r,
    run (create_order uuid4 utcnow order current_user) s = (s', Returned r) ∧
    (∀ pid z, stock_of s pid = Some (VInt z) →
       stock_of s' pid = Some (VInt (z - qty_for pid (OrderCreate.items order)))).
Proof.
  intros Hall.
  destruct (run_create_order_covered uuid4 utcnow order current_user s Hall)
    as (s' & total & Hrun & _ & _ & Hm).
  eexists _, _. split; [done|]. intros pid z Hz.
  destruct Hm as (_ & _ & _ & _ & Z1). by rewrite (Z1 _ _ Hz).
Qed.

(** X14: an order of any number of items placed and cancelled: when each
    item is covered by the int stock of its product and the id drawn is new
    to the orders file, [create_order] and then [cancel_order], by the one
    who placed the order or by an admin, both return, every int stock is what
    it was before the order, and the order is left with the status
    [cancelled]. *)
Theorem create_then_cancel_restores_every_stock
    uuid4 utcnow utcnow' order creator canceller s :
  order_of s uuid4 = None →
  Forall (covered s) (OrderCreate.items order) →
  UserInDB.role canceller = "admin" ∨ UserInDB.id canceller = UserInDB.id creator →
  ∃ s1 r s2 r',
    run (create_order uuid4 utcnow order creator) s = (s1, Returned r) ∧
    run (cancel_order utcnow' uuid4 canceller) s1 = (s2, Returned ()) ∧
    (∀ pid z, stock_of s pid = Some (VInt z) → stock_of s2 pid = Some (VInt z)) ∧
    order_of s2 uuid4 = Some r' ∧ r' !! "status" = Some (VStr "cancelled").
Proof.
  intros Hfresh Hall Hwho.
  destruct (run_create_order_covered uuid4 utcnow order creator s Hall)
    as (s1 & total & Hrun1 & _ & Hor & Hm1).
  set (r := order_record uuid4 utcnow creator (OrderCreate.items order) total) in *.
  assert (Ho1 : order_of s1 uuid4 = Some r).
  { unfold order_of in *. rewrite Hor, first_match_app, Hfresh.
    rewrite first_match_cons. by case_decide. }
  destruct (run_cancel_order utcnow' uuid4 canceller s1 r (OrderCreate.items order))
    as (s2 & Hrun2 & _ & Hm2 & Ho2 & _); [done | | done | |].
  { destruct Hwho as [?|Hid]; [by left | right]. by rewrite Hid. }
  { eapply Forall_impl; [done|]. intros item (z & qf & Hz & _). right.
    destruct Hm1 as (_ & _ & _ & _ & Z1). by rewrite (Z1 _ _ Hz). }
  eexists s1, r, s2, _. split_and!; [done | done | | done |].
  - intros pid z Hz. destruct Hm1 as (_ & _ & _ & _ & Z1).
    destruct Hm2 as (_ & _ & _ & _ & Z2).
    rewrite (Z2 _ _ (Z1 _ _ Hz)). do 2 f_equal. lia.
  - by apply lookup_union_Some_l.
Qed.

End orders_more.

(** ** Login *)

Section signing.
Import JSONDatabase PyOps.
Variable get_password_hash : string → string.
Variable create_access_token : record → string.

Local Abbreviation token_for username :=
  ({[ "access_token" := VStr (create_access_token {[ "sub" := VStr username ]});
      "token_type" := VStr "bearer" ]} : record).

Lemma run_login username password s :
  run (login get_password_hash create_access_token username password) s =
  (s, match user_named s username with
      | None => Raised UnauthorizedException
      | Some u =>
          match u !! "hashed_password" with
          | None => Raised KeyError
          | Some h =>
              if decide (h = VStr (get_password_hash password))
              then if truthy (default (VBool true) (u !! "is_active"))
                   then Returned (token_for username)
                   else Raised UnauthorizedException
              else Raised UnauthorizedException
          end
      end).
Proof.
  unfold login, user_named. rewrite run_bind, run_get_by_field. simpl _read.
  destruct (first_match "username" username (users s)) as [u|] eqn:Hu; [|done].
  apply first_match_Some in Hu as [_ Hname].
  rewrite run_bind, run_subscript.
  destruct (u !! "hashed_password") as [h|]; [|done].
  unfold verify_password. destruct (decide (h = VStr (get_password_hash password))).
  - rewrite bool_decide_eq_true_2 by done.
    destruct (truthy (default (VBool true) (u !! "is_active"))); [|done].
    simpl. by rewrite run_bind, run_subscript, Hname.
  - by rewrite bool_decide_eq_false_2.
Qed.

(** X15: [login] never writes.  It returns, and then the token for the
    username, exactly when the first user with this username has for
    [hashed_password] the digest of the password and an [is_active] that is
    true or missing; an unknown username, another digest and an account
    that is not active are all [UnauthorizedException]. *)
Theorem login_checks_password_then_active username password s :
  (run (login get_password_hash create_access_token username password) s).1 = s ∧
  (∀ r, (run (login get_password_hash create_access_token username password) s).2
          = Returned r ↔
        r = token_for username ∧
        ∃ u, user_named s username = Some u ∧
             u !! "hashed_password" = Some (VStr (get_password_hash password)) ∧
             truthy (default (VBool true) (u !! "is_active")) = true) ∧
  (user_named s username = None →
     (run (login get_password_hash create_access_token username password) s).2
       = Raised UnauthorizedException) ∧
  (∀ u h, user_named s username = Some u → u !! "hashed_password" = Some h →
     h ≠ VStr (get_password_hash password) ∨
     truthy (default (VBool true) (u !! "is_active")) = false →
     (run (login get_password_hash create_access_token username password) s).2
       = Raised UnauthorizedException).
Proof.
  rewrite run_login. simpl. split_and!.
  - done.
  - intros r. destruct (user_named s username) as [u|]; [|by split; [|intros (_ & ? & ? & _)]].
    destruct (u !! "hashed_password") as [h|] eqn:Hh.
    + case_decide as Hd.
      * subst h. destruct (truthy _) eqn:Ht.
        -- split; [intros [= <-]; eauto 6|]. by intros [-> _].
        -- split; [done|]. intros (_ & u' & [= <-] & _ & ?). congruence.
      * split; [done|]. intros (_ & u' & [= <-] & ? & _). congruence.
    + split; [done|]. intros (_ & u' & [= <-] & ? & _). congruence.
  - by intros ->.
  - intros u h -> -> [Hne|Hina].
    + by rewrite decide_False.
    + case_decide; [|done]. by rewrite Hina.
Qed.

(** X16: who has registered can log in: after a [register] that returns,
    [login] with the username and the password of the registration returns
    the token for this username, and writes nothing. *)
Theorem register_then_login uuid4 utcnow user s s1 r :
  run (register get_password_hash uuid4 utcnow user) s = (s1, Returned r) →
  run (login get_password_hash create_access_token
         (UserCreate.username user) (UserCreate.password user)) s1 =
    (s1, Returned (token_for (UserCreate.username user))).
Proof.
  rewrite run_register.
  destruct (first_match "username" _ (users s)) eqn:Hname; [done|].
  destruct (first_match "email" _ (users s)); [done|].
  intros [= <- <-]. rewrite run_login. unfold user_named. simpl.
  rewrite first_match_app, Hname, first_match_cons.
  destruct (decide (field_is "username" (UserCreate.username user)
                      (user_record get_password_hash uuid4 utcnow user))) as [_|Hn];
    [|by destruct Hn].
  assert (user_record get_password_hash uuid4 utcnow user !! "hashed_password" =
            Some (VStr (get_password_hash (UserCreate.password user)))) as -> by done.
  assert (user_record get_password_hash uuid4 utcnow user !! "is_active" =
            Some (VBool true)) as -> by done.
  by rewrite decide_True.
Qed.

End signing.

(** ** Users read, deleted and updated *)

Section users_more.
Import JSONDatabase PyOps Users.

Lemma run_get_user user_id current_user s :
  run (get_user user_id current_user) s =
  (s, match user_of s user_id with
      | None => Raised NotFoundException
      | Some user =>
          if decide (UserInDB.role current_user = "admin" ∨
                     UserInDB.id current_user = user_id)
          then Returned user
          else Raised ForbiddenException
      end).
Proof.
  unfold get_user, user_of. rewrite run_bind, run_get_by_id. simpl _read.
  destruct (first_match "id" user_id (users s)) as [user|]; [|done].
  destruct (decide (UserInDB.role current_user = "admin")),
    (decide (UserInDB.id current_user = user_id)).
  - rewrite decide_False by (by intros [[] _]). by rewrite decide_True by (by left).
  - rewrite decide_False by (by intros [[] _]). by rewrite decide_True by (by left).
  - rewrite decide_False by (by intros [_ []]). by rewrite decide_True by (by right).
  - rewrite decide_True by done. by rewrite decide_False by (by intros [|]).
Qed.

(** X17: [get_user] never writes and returns a user record exactly when a
    search for the id finds it and the caller is an admin or asks for the own
    id.  The search comes before the check: an id that is not there is a
    [NotFoundException] for every caller, and one that is there a
    [ForbiddenException] for another user who is no admin. *)
Theorem get_user_for_self_or_admin user_id current_user s :
  (run (get_user user_id current_user) s).1 = s ∧
  (∀ r, (run (get_user user_id current_user) s).2 = Returned r ↔
        user_of s user_id = Some r ∧
        (UserInDB.role current_user = "admin" ∨ UserInDB.id current_user = user_id)) ∧
  (user_of s user_id = None →
     (run (get_user user_id current_user) s).2 = Raised NotFoundException) ∧
  (is_Some (user_of s user_id) →
     UserInDB.role current_user ≠ "admin" → UserInDB.id current_user ≠ user_id →
     (run (get_user user_id current_user) s).2 = Raised ForbiddenException).
Proof.
  rewrite run_get_user. simpl. split_and!.
  - done.
  - intros r. destruct (user_of s user_id) as [user|]; [|by split; [|intros [? _]]].
    case_decide.
    + split; [intros [= ->]; eauto | by intros [[= ->] _]].
    + split; [done | by intros [_ ?]].
  - by intros ->.
  - intros [user ->] ??. by rewrite decide_False by (by intros [|]).
Qed.

Lemma run_delete_user user_id current_user s :
  run (delete_user user_id current_user) s =
  match user_of s user_id with
  | None => (s, Raised NotFoundException)
  | Some _ =>
      if decide (UserInDB.id current_user = user_id)
      then (s, Raised ForbiddenException)
      else (_write users_json
              (base.filter (λ item, ¬ field_is "id" user_id item) (users s)) s,
            Returned ())
  end.
Proof.
  unfold delete_user, user_of. rewrite run_bind, run_get_by_id. simpl _read.
  destruct (first_match "id" user_id (users s)) as [user|] eqn:Hu; [|done].
  case_decide; [done|]. rewrite run_bind, run_delete. simpl _read. by rewrite Hu.
Qed.

(** X18: [delete_user] behind its dependency: a caller who is inactive or
    no admin gets [ForbiddenException], as does an admin who names the own
    id, and an id that is not there is a [NotFoundException], the store
    staying as it was each time; for an admin who names another user that is
    there, the call returns, no record with the id is left, the other users
    are found as before, and the orders, those of the deleted user with
    them, and the products are untouched. *)
Theorem delete_user_by_another_admin user_id user s :
  (UserInDB.is_active user = false ∨ UserInDB.role user ≠ "admin" →
     run (as_admin (delete_user user_id) user) s = (s, Raised ForbiddenException)) ∧
  (UserInDB.is_active user = true → UserInDB.role user = "admin" →
     (user_of s user_id = None →
        run (as_admin (delete_user user_id) user) s = (s, Raised NotFoundException)) ∧
     (is_Some (user_of s user_id) → UserInDB.id user = user_id →
        run (as_admin (delete_user user_id) user) s = (s, Raised ForbiddenException)) ∧
     (is_Some (user_of s user_id) → UserInDB.id user ≠ user_id →
        ∃ s', run (as_admin (delete_user user_id) user) s = (s', Returned ()) ∧
          (∀ item, item ∈ users s' → item !! "id" ≠ Some (VStr user_id)) ∧
          (∀ uid, uid ≠ user_id → user_of s' uid = user_of s uid) ∧
          orders s' = orders s ∧ products s' = products s)).
Proof.
  rewrite run_as_admin. split.
  { intros [->|Hrole]; [done|].
    destruct (UserInDB.is_active user); [|done]. by rewrite decide_False. }
  intros -> Hadm. rewrite decide_True by done. rewrite run_delete_user.
  split_and!.
  - by intros ->.
  - intros [u ->] ?. by rewrite decide_True.
  - intros [u ->] ?. rewrite decide_False by done.
    eexists. split; [done|]. simpl. split_and!; [| |done..].
    + by intros item [? _]%list_elem_of_filter.
    + intros uid Hne. unfold user_of. simpl.
      rewrite first_match_without. by rewrite decide_False.
Qed.

End users_more.

Section profiles_more.
Import JSONDatabase PyOps.
Variable get_password_hash : string → string.

Lemma user_set_field_other key f d key' :
  key' ≠ key → UserUpdate.set_field key f d !! key' = d !! key'.
Proof.
  intros Hne. destruct f as [[?|]|]; simpl; [| |done]; by rewrite lookup_insert_ne.
Qed.

(** The updates of [update_user] name no field but the email, the name,
    the digest and the time. *)
Lemma run_prepare_updates_fields utcnow user_update s :
  (∃ d, run (prepare_updates get_password_hash utcnow user_update) s = (s, Returned d) ∧
        ∀ key, key ≠ "email" → key ≠ "full_name" → key ≠ "hashed_password" →
               key ≠ "updated_at" → d !! key = None) ∨
  run (prepare_updates get_password_hash utcnow user_update) s = (s, Raised AttributeError).
Proof.
  unfold prepare_updates. cbv zeta. rewrite run_bind.
  set (d0 := UserUpdate.dict_exclude_unset user_update).
  assert (Hd0 : ∀ key, key ≠ "email" → key ≠ "full_name" → key ≠ "password" →
            d0 !! key = None).
  { intros key ???. unfold d0, UserUpdate.dict_exclude_unset.
    by rewrite !user_set_field_other by done. }
  destruct (d0 !! "password") as [pw|] eqn:Hpw.
  - rewrite run_bind. destruct pw; simpl; try by right.
    left. eexists. split; [done|]. intros key ????.
    rewrite lookup_insert_ne by done. rewrite lookup_insert_ne by done.
    rewrite lookup_delete. case_decide; [done|]. by apply Hd0.
  - left. eexists. split; [done|]. intros key ????.
    rewrite lookup_insert_ne by done.
    destruct (decide (key = "password")) as [->|]; [done|]. by apply Hd0.
Qed.

Lemma update_first_shape id updates data data' item' :
  update_first id updates data = Some (data', item') →
  ∃ i item, data !! i = Some item ∧ item !! "id" = Some (VStr id) ∧
            data' = <[i := updates ∪ item]> data ∧ item' = updates ∪ item.
Proof.
  intros Hup. destruct (first_match "id" id data) as [item|] eqn:Hitem.
  - destruct (update_first_Some id updates _ _ Hitem) as (i & Hi & _ & Hup').
    apply first_match_Some in Hitem as [_ ?].
    rewrite Hup in Hup'. simplify_eq. eauto 6.
  - apply (update_first_None id updates) in Hitem. congruence.
Qed.

(** X19: [update_user] cannot change who a user is: whatever the request
    and the caller, every record of the users file is where it was and has
    the same ["id"], ["username"], ["role"], ["is_active"] and every other
    field but the email, the name, the digest of the password and the time of
    the update; a record with another id is the same in every field; and the
    products and the orders are untouched. *)
Theorem update_user_keeps_identity utcnow user_id user_update current_user s :
  let s' := (run (update_user get_password_hash utcnow user_id user_update current_user) s).1 in
  length (users s') = length (users s) ∧
  products s' = products s ∧ orders s' = orders s ∧
  ∀ i r, users s !! i = Some r →
    ∃ r', users s' !! i = Some r' ∧
      (r !! "id" ≠ Some (VStr user_id) → r' = r) ∧
      ∀ key, key ≠ "email" → key ≠ "full_name" → key ≠ "hashed_password" →
             key ≠ "updated_at" → r' !! key = r !! key.
Proof.
  cbv zeta.
  assert (Hsame : ∀ o : outcome record,
    length (users (s, o).1) = length (users s) ∧
    products (s, o).1 = products s ∧ orders (s, o).1 = orders s ∧
    ∀ i r, users s !! i = Some r →
      ∃ r', users (s, o).1 !! i = Some r' ∧
        (r !! "id" ≠ Some (VStr user_id) → r' = r) ∧
        ∀ key, key ≠ "email" → key ≠ "full_name" → key ≠ "hashed_password" →
               key ≠ "updated_at" → r' !! key = r !! key).
  { intros o. simpl. split_and!; [done..|]. intros i r Hi. by exists r. }
  unfold update_user. rewrite run_bind, run_get_by_id. simpl _read.
  destruct (first_match "id" user_id (users s)) as [target|]; [|apply Hsame].
  case_decide; [apply Hsame|]. rewrite run_bind.
  destruct (run_prepare_updates_fields utcnow user_update s) as [(d & -> & Hd)| ->];
    [|apply Hsame].
  rewrite run_bind, run_update. simpl _read.
  destruct (update_first user_id d (users s)) as [[data' item']|] eqn:Hup;
    [|apply Hsame].
  apply update_first_shape in Hup as (j & item & Hj & Hid & -> & ->).
  simpl. split_and!; [apply length_insert | done | done |].
  intros i r Hi. destruct (decide (i = j)) as [->|Hne].
  - assert (r = item) as -> by congruence.
    exists (d ∪ item). split_and!.
    + apply list_lookup_insert_eq. by eapply lookup_lt_Some.
    + by intros [].
    + intros key ????. rewrite lookup_union_r; [done|]. by apply Hd.
  - exists r. split_and!; [|done..]. by rewrite list_lookup_insert_ne.
Qed.

End profiles_more.

(** ** Products created, restocked and deleted *)

Section products_more.
Import JSONDatabase PyOps Orders Products.

Local Abbreviation product_record uuid4 utcnow product :=
  (<["updated_at" := VNone]>
     (<["created_at" := VStr utcnow]>
        (ProductCreate.dict product ∪ {[ "id" := VStr uuid4 ]})) : record).

Lemma run_create_product uuid4 utcnow product current_user s :
  run (create_product uuid4 utcnow product current_user) s =
  (_write products_json (products s ++ [product_record uuid4 utcnow product]) s,
   Returned (product_record uuid4 utcnow product)).
Proof. unfold create_product. cbv zeta. by rewrite run_bind, run_create. Qed.

(** X20: a product just created can be ordered: when the id drawn is new
    to the products file, [create_product] and then [create_order] for a
    quantity of it that the stock given covers both return, [get_product]
    then returns a record with the stock that is left, and the users file is
    untouched. *)
Theorem new_product_can_be_ordered
    uuid4 utcnow product admin order_id utcnow' item buyer qf s :
  product_of s uuid4 = None →
  product_id item = uuid4 →
  quantity item ≤ ProductCreate.stock product →
  float_of_int (quantity item) = Some qf →
  ∃ s1 p s2 r p',
    run (create_product uuid4 utcnow product admin) s = (s1, Returned p) ∧
    run (create_order order_id utcnow' {| OrderCreate.items := [item] |} buyer) s1 =
      (s2, Returned r) ∧
    run (get_product uuid4) s2 = (s2, Returned p') ∧
    p' !! "stock" = Some (VInt (ProductCreate.stock product - quantity item)) ∧
    users s2 = users s.
Proof.
  intros Hfresh Hpid Hle Hq. unfold product_of in Hfresh.
  rewrite run_create_product.
  set (p := product_record uuid4 utcnow product).
  set (s1 := _write products_json (products s ++ [p]) s).
  assert (Hp1 : first_match "id" uuid4 (products s1) = Some p).
  { simpl. rewrite first_match_app, Hfresh, first_match_cons. by rewrite decide_True. }
  assert (Hst1 : stock_of s1 (product_id item) = Some (VInt (ProductCreate.stock product))).
  { unfold stock_of. by rewrite Hpid, Hp1. }
  destruct (run_create_order_one order_id utcnow' item buyer s1 _ qf Hst1 Hle Hq)
    as (s2 & Hrun2 & Hu2 & _ & Hm).
  destruct Hm as (_ & _ & _ & _ & Z1). specialize (Z1 _ _ Hst1).
  rewrite qty_for_cons, decide_True in Z1 by done.
  unfold stock_of in Z1. rewrite Hpid in Z1.
  destruct (first_match "id" uuid4 (products s2)) as [p'|] eqn:Hp2; [|done].
  eexists s1, p, s2, _, p'. split_and!; [done | done | | | done].
  - unfold get_product. rewrite run_bind, run_get_by_id. simpl _read. by rewrite Hp2.
  - simpl in Z1. rewrite Z1. do 2 f_equal. unfold qty_for. simpl. lia.
Qed.

Lemma product_set_field_other {A} key (inj : A → value) f d key' :
  key' ≠ key → ProductUpdate.set_field key inj f d !! key' = d !! key'.
Proof.
  intros Hne. destruct f as [[?|]|]; simpl; [| |done]; by rewrite lookup_insert_ne.
Qed.

(** X21: [update_product] with a stock in the request writes it: in the
    store that the call leaves, whatever the response model then makes of
    the record, the product that a search for the id finds has this number
    for stock, whatever it was, and the id it had, and every other product,
    the users and the orders are as they were; on an id that is not there it
    is a [NotFoundException] and the store stays as it was. *)
Theorem update_product_sets_stock utcnow product_id product_update current_user s :
  (product_of s product_id = None →
     run (update_product utcnow product_id product_update current_user) s =
       (s, Raised NotFoundException)) ∧
  (∀ n, is_Some (product_of s product_id) →
     ProductUpdate.stock product_update = Some (Some n) →
     let s' := (run (update_product utcnow product_id product_update current_user) s).1 in
     (∃ r, product_of s' product_id = Some r ∧ r !! "id" = Some (VStr product_id)) ∧
     stock_of s' product_id = Some (VInt n) ∧
     (∀ pid, pid ≠ product_id → product_of s' pid = product_of s pid) ∧
     users s' = users s ∧ orders s' = orders s).
Proof.
  unfold product_of, update_product. rewrite run_bind, run_get_by_id. simpl _read.
  split.
  - by intros ->.
  - intros n [p Hp] Hn. rewrite Hp. cbv zeta.
    set (d := <["updated_at" := VStr utcnow]> (ProductUpdate.dict_exclude_unset product_update)).
    assert (Hdid : d !! "id" = None).
    { unfold d, ProductUpdate.dict_exclude_unset. rewrite lookup_insert_ne by done.
      by rewrite !product_set_field_other by done. }
    assert (Hdst : d !! "stock" = Some (VInt n)).
    { unfold d, ProductUpdate.dict_exclude_unset. rewrite lookup_insert_ne by done.
      rewrite product_set_field_other by done. rewrite Hn. simpl.
      by rewrite lookup_insert_eq. }
    rewrite run_bind, run_update. simpl _read.
    destruct (update_first_Some product_id d _ _ Hp) as (i & Hi & _ & Hup).
    rewrite Hup.
    assert (Hview := λ pid, first_match_update product_id _ _ _ _ pid Hdid Hup).
    apply first_match_Some in Hp as [_ Hpid].
    simpl. split_and!; [| | |done..].
    + eexists. split; [by rewrite Hview, decide_True|]. by rewrite lookup_union_r.
    + unfold stock_of. simpl. rewrite Hview, decide_True by done. simpl.
      by apply lookup_union_Some_l.
    + intros pid Hne. by rewrite Hview, decide_False.
Qed.

Lemma run_delete_product product_id current_user s :
  run (delete_product product_id current_user) s =
  match product_of s product_id with
  | None => (s, Raised NotFoundException)
  | Some _ =>
      (_write products_json
         (base.filter (λ item, ¬ field_is "id" product_id item) (products s)) s,
       Returned ())
  end.
Proof.
  unfold delete_product, product_of. rewrite run_bind, run_get_by_id. simpl _read.
  destruct (first_match "id" product_id (products s)) as [p|] eqn:Hp; [|done].
  rewrite run_bind, run_delete. simpl _read. by rewrite Hp.
Qed.

Lemma run_give_back_gone now items s :
  Forall (λ item, first_match "id" (product_id item) (products s) = None) items →
  run (for_each items (give_back now)) s = (s, Returned ()).
Proof.
  induction items as [|item items IH]; intros Hall; [done|].
  apply Forall_cons in Hall as [Hitem Hall].
  rewrite run_for_each_cons. unfold give_back at 1.
  rewrite run_bind, run_get_by_id. simpl _read. rewrite Hitem. by apply IH.
Qed.

(** X22: after [delete_product] of a product that is there, the orders
    file is as it was, [create_order] for a list that names the product ends
    in an exception and changes nothing, and [cancel_order] of an order whose
    items all name the product still returns, for a caller it lets through,
    without a change to any product: nothing is restored. *)
Theorem deleted_product_is_not_restocked product_id admin s :
  is_Some (product_of s product_id) →
  ∃ s1,
    run (delete_product product_id admin) s = (s1, Returned ()) ∧
    product_of s1 product_id = None ∧
    orders s1 = orders s ∧ users s1 = users s ∧
    (∀ uuid4 utcnow order buyer item,
       item ∈ OrderCreate.items order → Py.product_id item = product_id →
       ∃ e, run (create_order uuid4 utcnow order buyer) s1 = (s1, Raised e)) ∧
    (∀ utcnow oid canceller order items,
       order_of s1 oid = Some order →
       UserInDB.role canceller = "admin" ∨
       (order !! "user_id" = Some (VStr (UserInDB.id canceller)) ∧
        order !! "status" = Some (VStr "pending")) →
       order !! "items" = Some (VItems items) →
       Forall (λ item, Py.product_id item = product_id) items →
       ∃ s2, run (cancel_order utcnow oid canceller) s1 = (s2, Returned ()) ∧
             products s2 = products s1).
Proof.
  intros [p Hp]. rewrite run_delete_product, Hp. eexists. split; [done|].
  assert (Hgone : product_of (_write products_json
            (base.filter (λ item, ¬ field_is "id" product_id item) (products s)) s)
            product_id = None).
  { unfold product_of. simpl. by rewrite first_match_without, decide_True. }
  assert (Hor : orders (_write products_json
            (base.filter (λ item, ¬ field_is "id" product_id item) (products s)) s)
            = orders s) by done.
  assert (Hus : users (_write products_json
            (base.filter (λ item, ¬ field_is "id" product_id item) (products s)) s)
            = users s) by done.
  generalize dependent (_write products_json
    (base.filter (λ item, ¬ field_is "id" product_id item) (products s)) s).
  intros s1 Hgone Hor Hus.
  split_and!; [done..| |].
  - intros uuid4 utcnow order buyer item Hin Hpid.
    pose proof (run_create_order uuid4 utcnow order buyer s1) as H.
    destruct (run (for_fold check_item (OrderCreate.items order) zero) s1)
      as [s0 [total|e]]; [|by exists e].
    destruct H as (Hready & _). rewrite Forall_forall in Hready.
    destruct (Hready item Hin) as ([p' Hp'] & _).
    unfold product_of in Hgone. rewrite Hpid in Hp'. congruence.
  - intros utcnow oid canceller order items Ho Hmay Hitems Hall.
    unfold order_of in Ho.
    unfold cancel_order. rewrite run_bind, run_get_by_id. simpl _read. rewrite Ho.
    destruct (run_check_cancel order canceller s1) as (g & Hg & Hok & _).
    apply Hok in Hmay as ->.
    assert (run (v ← subscript order "items"; iter_items v) s1 = (s1, Returned items))
      as Hiter by (by rewrite run_bind, run_subscript, Hitems).
    rewrite run_bind, Hg, run_bind, Hiter.
    rewrite run_bind, run_give_back_gone.
    + rewrite run_bind, run_update. simpl _read.
      destruct (update_first oid _ (orders s1)) as [[??]|]; by eexists.
    + eapply Forall_impl; [done|]. intros item ->. apply Hgone.
Qed.

End products_more.

(** ** Accounts switched off and on *)

Section switches.
Import JSONDatabase PyOps UsersV2.
Variable get_password_hash : string → string.
Variable create_access_token : record → string.

Lemma first_match_insert field v data i x x' :
  data !! i = Some x →
  (∀ j y, (j < i)%nat → data !! j = Some y → ¬ field_is field v y) →
  field_is field v x' →
  first_match field v (<[i := x']> data) = Some x'.
Proof.
  intros Hi Hmin Hx'. apply first_match_lookup. exists i. split_and!.
  - apply list_lookup_insert_eq. by eapply lookup_lt_Some.
  - done.
  - intros j y Hlt Hj. rewrite list_lookup_insert_ne in Hj by lia. by eapply Hmin.
Qed.

(** A switch of [is_active] on a user found both by id and by username. *)
Lemma run_switch flag now uid name u s :
  user_of s uid = Some u →
  user_named s name = Some u →
  let u' := ({[ "is_active" := VBool flag; "updated_at" := VStr now ]} : record) ∪ u in
  ∃ s', run (JSONDatabase.update users_json uid
               {[ "is_active" := VBool flag; "updated_at" := VStr now ]}) s =
          (s', Returned (Some u')) ∧
    user_of s' uid = Some u' ∧ user_named s' name = Some u'.
Proof.
  intros Hid Hname u'. subst u'. unfold user_of, user_named in *.
  destruct (update_first_Some uid {[ "is_active" := VBool flag; "updated_at" := VStr now ]}
              _ _ Hid) as (i & Hi & Hmin & Hup).
  apply first_match_lookup in Hname as (j & Hj & Hfj & Hminj).
  apply first_match_Some in Hid as [_ Huid].
  assert (i = j) as <-.
  { destruct (lt_eq_lt_dec i j) as [[Hlt| ->]|Hlt]; [|done|].
    - by destruct (Hminj i u Hlt Hi).
    - by destruct (Hmin j u Hlt Hj). }
  rewrite run_update. simpl _read. rewrite Hup.
  eexists. split; [done|]. simpl. split.
  - eapply first_match_insert; [done| |].
    + intros k y Hlt Hk. by apply Hmin with k.
    + unfold field_is. by rewrite lookup_union_r.
  - eapply first_match_insert; [done | done |].
    unfold field_is in *. rewrite lookup_union_r; [done|].
    rewrite lookup_insert_ne by done. by rewrite lookup_singleton_ne.
Qed.

(** X23: an admin cannot switch the own account off ([BadRequestException],
    nothing written), and [activate_user] has no such check.  For another
    user, found by the id and by the username, with a digest on record:
    after [deactivate_user], [login] as this user is an
    [UnauthorizedException] whatever the password; after [activate_user],
    [login] with the password of the digest returns the token again. *)
Theorem deactivated_user_cannot_login now now' uid name u h admin admin' s :
  user_of s uid = Some u →
  user_named s name = Some u →
  u !! "hashed_password" = Some h →
  (UserInDB.id admin = uid →
     run (deactivate_user now uid admin) s = (s, Raised BadRequestException)) ∧
  (UserInDB.id admin ≠ uid →
     ∃ s1 s2,
       run (deactivate_user now uid admin) s = (s1, Returned (VStr name)) ∧
       (∀ password,
          run (login get_password_hash create_access_token name password) s1 =
            (s1, Raised UnauthorizedException)) ∧
       run (activate_user now' uid admin') s1 = (s2, Returned (VStr name)) ∧
       (∀ password, h = VStr (get_password_hash password) →
          run (login get_password_hash create_access_token name password) s2 =
            (s2, Returned
               {[ "access_token" := VStr (create_access_token {[ "sub" := VStr name ]});
                  "token_type" := VStr "bearer" ]}))).
Proof.
  intros Hid Hname Hh.
  assert (Hun : u !! "username" = Some (VStr name)).
  { unfold user_named in Hname. by apply first_match_Some in Hname as [_ ?]. }
  split.
  - intros Hself. unfold deactivate_user. rewrite run_bind, run_get_by_id. simpl _read.
    unfold user_of in Hid. rewrite Hid. by rewrite decide_True.
  - intros Hother.
    destruct (run_switch false now uid name u s Hid Hname) as (s1 & Hrun1 & Hid1 & Hname1).
    destruct (run_switch true now' uid name _ s1 Hid1 Hname1)
      as (s2 & Hrun2 & Hid2 & Hname2).
    exists s1, s2. split_and!.
    + unfold deactivate_user. rewrite run_bind, run_get_by_id. simpl _read.
      unfold user_of in Hid. rewrite Hid. rewrite decide_False by done.
      by rewrite run_bind, Hrun1, run_subscript, Hun.
    + intros password. rewrite run_login, Hname1.
      rewrite lookup_union_r by done. rewrite Hh.
      rewrite (lookup_union_Some_l _ _ "is_active" (VBool false)) by done.
      simpl. by case_decide.
    + unfold activate_user. rewrite run_bind, run_get_by_id. simpl _read.
      unfold user_of in Hid1. rewrite Hid1.
      rewrite run_bind, Hrun2, run_subscript.
      rewrite lookup_union_r by done. by rewrite Hun.
    + intros password ->. rewrite run_login, Hname2.
      rewrite !lookup_union_r by done. rewrite Hh.
      rewrite (lookup_union_Some_l _ _ "is_active" (VBool true)) by done.
      simpl. by rewrite decide_True.
Qed.

End switches.

(** ** A new password *)

Section passwords.
Import JSONDatabase PyOps.

Variable get_password_hash : string → string.
Variable create_access_token : record → string.

Lemma run_prepare_updates_password utcnow user_update pw s :
  UserUpdate.password user_update = Some (Some pw) →
  ∃ d, run (prepare_updates get_password_hash utcnow user_update) s = (s, Returned d) ∧
    d !! "hashed_password" = Some (VStr (get_password_hash pw)) ∧
    d !! "id" = None ∧ d !! "username" = None ∧ d !! "is_active" = None.
Proof.
  destruct user_update as [em fn p]. simpl. intros ->.
  destruct em as [[em|]|], fn as [[fn|]|];
    (eexists; split; [reflexivity|]; split_and!; reflexivity).
Qed.

(** A record found both by id and by username is found by both again after
    an update that names neither field. *)
Lemma update_first_found_both uid name d u data :
  first_match "id" uid data = Some u →
  first_match "username" name data = Some u →
  d !! "id" = None → d !! "username" = None →
  ∃ data', update_first uid d data = Some (data', d ∪ u) ∧
    first_match "username" name data' = Some (d ∪ u).
Proof.
  intros Hid Hname Hdid Hdname.
  destruct (update_first_Some uid d _ _ Hid) as (i & Hi & Hmin & Hup).
  apply first_match_lookup in Hname as (j & Hj & Hfj & Hminj).
  apply first_match_Some in Hid as [_ Huid].
  assert (i = j) as <-.
  { destruct (lt_eq_lt_dec i j) as [[Hlt| ->]|Hlt]; [|done|].
    - by destruct (Hminj i u Hlt Hi).
    - by destruct (Hmin j u Hlt Hj). }
  eexists. split; [done|].
  eapply first_match_insert; [done | done |].
  unfold field_is in *. by rewrite lookup_union_r.
Qed.

(** X24: a password changed by [update_user] is the password of [login]:
    when the caller may update the user, who is found by the id and by the
    username, and the request sets a password, then in the store that the
    call leaves, whatever the response model then makes of the record,
    [login] with the username and the new password returns the token if the
    account is active, and [login] with a password of another digest, the old
    one with them, is an [UnauthorizedException]. *)
Theorem password_change_then_login utcnow uid name user_update current_user pw u s :
  user_of s uid = Some u →
  user_named s name = Some u →
  UserInDB.role current_user = "admin" ∨ UserInDB.id current_user = uid →
  UserUpdate.password user_update = Some (Some pw) →
  let s' := (run (update_user get_password_hash utcnow uid user_update current_user) s).1 in
  (truthy (default (VBool true) (u !! "is_active")) = true →
     run (login get_password_hash create_access_token name pw) s' =
       (s', Returned
          {[ "access_token" := VStr (create_access_token {[ "sub" := VStr name ]});
             "token_type" := VStr "bearer" ]})) ∧
  (∀ pw', get_password_hash pw' ≠ get_password_hash pw →
     run (login get_password_hash create_access_token name pw') s' =
       (s', Raised UnauthorizedException)).
Proof.
  intros Hid Hname Hmay Hpw s'. subst s'. unfold user_of, user_named in *.
  unfold update_user. rewrite run_bind, run_get_by_id. simpl _read. rewrite Hid.
  rewrite decide_False by (intros [??]; by destruct Hmay).
  destruct (run_prepare_updates_password utcnow user_update pw s Hpw)
    as (d & Hd & Hhash & Hdid & Hdname & Hdact).
  rewrite run_bind, Hd, run_bind, run_update. simpl _read.
  destruct (update_first_found_both uid name d u _ Hid Hname Hdid Hdname)
    as (data' & -> & Hname').
  cbn [run fst].
  assert (Hh : (d ∪ u) !! "hashed_password" = Some (VStr (get_password_hash pw)))
    by (by apply lookup_union_Some_l).
  assert (Hact : (d ∪ u) !! "is_active" = u !! "is_active")
    by (by rewrite lookup_union_r).
  split.
  - intros Hlive. rewrite run_login. unfold user_named. simpl users.
    rewrite Hname', Hh, decide_True by done. by rewrite Hact, Hlive.
  - intros pw' Hne. rewrite run_login. unfold user_named. simpl users.
    rewrite Hname', Hh. rewrite decide_False; [done|]. by intros [= ?].
Qed.

End passwords.

(** ** A stock that is no number *)

Section stock_values.
Import JSONDatabase PyOps Orders Products.

(** X25: [update_product] with [null] for the stock in the request writes
    it: the product is left with [None] for stock, and from then on
    [create_order] for a list that names the product ends in an exception
    and changes nothing, a [TypeError] when the product is all that is
    asked for. *)
Theorem null_stock_blocks_orders utcnow product_id product_update admin s :
  is_Some (product_of s product_id) →
  ProductUpdate.stock product_update = Some None →
  let s1 := (run (update_product utcnow product_id product_update admin) s).1 in
  stock_of s1 product_id = Some VNone ∧
  users s1 = users s ∧ orders s1 = orders s ∧
  (∀ uuid4 now order buyer item,
     item ∈ OrderCreate.items order → Py.product_id item = product_id →
     ∃ e, run (create_order uuid4 now order buyer) s1 = (s1, Raised e)) ∧
  (∀ uuid4 now item buyer,
     Py.product_id item = product_id →
     run (create_order uuid4 now {| OrderCreate.items := [item] |} buyer) s1 =
       (s1, Raised TypeError)).
Proof.
  intros [p Hp] Hn s1. subst s1. unfold product_of in Hp.
  unfold update_product. rewrite run_bind, run_get_by_id. simpl _read.
  rewrite Hp. cbv zeta.
  set (d := <["updated_at" := VStr utcnow]> (ProductUpdate.dict_exclude_unset product_update)).
  assert (Hdid : d !! "id" = None).
  { unfold d, ProductUpdate.dict_exclude_unset. rewrite lookup_insert_ne by done.
    by rewrite !product_set_field_other by done. }
  assert (Hdst : d !! "stock" = Some VNone).
  { unfold d, ProductUpdate.dict_exclude_unset. rewrite lookup_insert_ne by done.
    rewrite product_set_field_other by done. rewrite Hn. simpl.
    by rewrite lookup_insert_eq. }
  rewrite run_bind, run_update. simpl _read.
  destruct (update_first_Some product_id d _ _ Hp) as (i & Hi & _ & Hup).
  rewrite Hup.
  assert (Hview := first_match_update product_id _ _ _ _ product_id Hdid Hup).
  rewrite decide_True in Hview by done.
  cbn [run fst].
  assert (Hus : users (_write products_json (<[i:=d ∪ p]> (products s)) s) = users s) by done.
  assert (Hor : orders (_write products_json (<[i:=d ∪ p]> (products s)) s) = orders s) by done.
  assert (Hpr : products (_write products_json (<[i:=d ∪ p]> (products s)) s)
                = <[i:=d ∪ p]> (products s)) by done.
  generalize dependent (_write products_json (<[i:=d ∪ p]> (products s)) s).
  intros s1 Hus Hor Hpr. rewrite <- Hpr in Hview.
  assert (Hst : stock_of s1 product_id = Some VNone).
  { unfold stock_of. rewrite Hview. simpl. by apply lookup_union_Some_l. }
  split_and!; [done..| |].
  - intros uuid4 now order buyer item Hin Hpid.
    pose proof (run_create_order uuid4 now order buyer s1) as H.
    destruct (run (for_fold check_item (OrderCreate.items order) zero) s1)
      as [s0 [total|e]]; [|by exists e].
    destruct H as (Hready & _). rewrite Forall_forall in Hready.
    destruct (Hready item Hin) as (_ & Hnum & _).
    rewrite Hpid, Hst in Hnum. done.
  - intros uuid4 now item buyer Hpid.
    pose proof (run_create_order uuid4 now {| OrderCreate.items := [item] |} buyer s1) as H.
    cbn [OrderCreate.items] in H. rewrite run_for_fold_cons in H.
    assert (run (check_item zero item) s1 = (s1, Raised TypeError)) as Hc.
    { unfold check_item. rewrite run_bind, run_get_by_id. simpl _read.
      rewrite Hpid, Hview. rewrite run_bind, run_subscript.
      by rewrite (lookup_union_Some_l _ _ _ _ Hdst). }
    by rewrite Hc in H.
Qed.

End stock_values.

(** ** Requests that take turns *)

Section races.
Import JSONDatabase PyOps.

Local Ltac step :=
  cbn [run_schedule foldl schedule_one turn advance bind mbind task_bind mret task_ret
       lookup list_lookup insert list_insert fst snd
       get_by_id get_by_field get_all create update for_each for_fold Orders.give_back iter_items add_int
       _read _write users products orders].

Variable get_password_hash : string → string.

(** Two calls of [register] that take turns from the start, each for a
    username and an email that the users file does not have. *)
Lemma run_interleaved_registers uuid4 utcnow user uuid4' utcnow' user' s :
  first_match "username" (UserCreate.username user) (users s) = None →
  first_match "email" (UserCreate.email user) (users s) = None →
  first_match "username" (UserCreate.username user') (users s) = None →
  first_match "email" (UserCreate.email user') (users s) = None →
  run_schedule [0; 1; 0; 1; 0; 1]%nat
    (s, [register get_password_hash uuid4 utcnow user;
         register get_password_hash uuid4' utcnow' user']) =
    ({| users := users s ++ [user_record get_password_hash uuid4 utcnow user;
                             user_record get_password_hash uuid4' utcnow' user'];
        products := products s; orders := orders s |},
     [Ret (user_record get_password_hash uuid4 utcnow user);
      Ret (user_record get_password_hash uuid4' utcnow' user')]).
Proof.
  intros Hname Hmail Hname' Hmail'. unfold register.
  step. rewrite Hname. step. rewrite Hname'. step.
  rewrite Hmail. step. rewrite Hmail'. step.
  by rewrite <- app_assoc.
Qed.

(** A collection that ends with two records of the same [field]. *)
Lemma twice_not_unique field v data r r' :
  r !! field = Some (VStr v) → r' !! field = Some (VStr v) →
  ¬ unique_field field (data ++ [r; r']).
Proof.
  intros Hr Hr' Huniq.
  assert (length data = S (length data)) as Hlen; [|lia].
  apply (Huniq _ _ r r' v); [| |done..].
  - rewrite lookup_app_r by lia. by rewrite Nat.sub_diag.
  - rewrite lookup_app_r by lia.
    by replace (S (length data) - length data)%nat with 1%nat by lia.
Qed.

(** X26: two calls of [register] on the event loop, each for a username and
    an email that the users file does not have, taking turns from the start:
    both pass both checks before either writes, both return, and the file
    ends with the two records, so that two requests for the same username, or
    for the same email, leave it with a username, or an email, twice. *)
Theorem interleaved_registers_share_username uuid4 utcnow user uuid4' utcnow' user' s :
  user_named s (UserCreate.username user) = None →
  first_match "email" (UserCreate.email user) (users s) = None →
  user_named s (UserCreate.username user') = None →
  first_match "email" (UserCreate.email user') (users s) = None →
  let r := user_record get_password_hash uuid4 utcnow user in
  let r' := user_record get_password_hash uuid4' utcnow' user' in
  ∃ s',
    run_schedule [0; 1; 0; 1; 0; 1]%nat
      (s, [register get_password_hash uuid4 utcnow user;
           register get_password_hash uuid4' utcnow' user']) =
      (s', [Ret r; Ret r']) ∧
    users s' = (users s ++ [r; r'])%list ∧
    products s' = products s ∧ orders s' = orders s ∧
    (UserCreate.username user = UserCreate.username user' →
       ¬ unique_field "username" (users s')) ∧
    (UserCreate.email user = UserCreate.email user' →
       ¬ unique_field "email" (users s')).
Proof.
  intros Hname Hmail Hname' Hmail' r r'. unfold user_named in *.
  eexists. split; [by apply run_interleaved_registers|].
  cbn [users products orders]. split_and!; [done..| |].
  - intros Heq. apply twice_not_unique with (UserCreate.username user); [done|].
    by rewrite Heq.
  - intros Heq. apply twice_not_unique with (UserCreate.email user); [done|].
    by rewrite Heq.
Qed.

Lemma subscript_Some d key v : d !! key = Some v → subscript d key = Ret v.
Proof. unfold subscript. by intros ->. Qed.

Lemma check_cancel_pending_owner order current_user :
  order !! "user_id" = Some (VStr (UserInDB.id current_user)) →
  order !! "status" = Some (VStr "pending") →
  Orders.check_cancel order current_user = Ret ().
Proof.
  intros Hown Hst. unfold Orders.check_cancel.
  destruct (decide (UserInDB.role current_user ≠ "admin")); [|done].
  rewrite (subscript_Some _ _ _ Hown). simpl.
  destruct (decide (VStr (UserInDB.id current_user) ≠ VStr (UserInDB.id current_user)));
    [done|].
  rewrite (subscript_Some _ _ _ Hst). simpl.
  by destruct (decide (VStr "pending" ≠ VStr "pending")).
Qed.

(** X27: two calls of [cancel_order] by the owner of a pending order of one
    item.  One after the other, the second is refused with
    [BadRequestException] and the stock is up by the quantity once.  On the
    event loop, when the second call reads the order before the first has
    written the new status, both return and the stock is up by the quantity
    twice, the order being left cancelled. *)
Theorem interleaved_cancels_restock_twice now now' oid owner s order item z :
  order_of s oid = Some order →
  order !! "user_id" = Some (VStr (UserInDB.id owner)) →
  order !! "status" = Some (VStr "pending") →
  order !! "items" = Some (VItems [item]) →
  stock_of s (product_id item) = Some (VInt z) →
  (UserInDB.role owner ≠ "admin" →
     ∃ s1,
       run (Orders.cancel_order now oid owner) s = (s1, Returned ()) ∧
       run (Orders.cancel_order now' oid owner) s1 = (s1, Raised BadRequestException) ∧
       stock_of s1 (product_id item) = Some (VInt (z + quantity item))) ∧
  ∃ s',
    run_schedule [0; 0; 0; 1; 0; 1; 1; 1]%nat
      (s, [Orders.cancel_order now oid owner; Orders.cancel_order now' oid owner]) =
      (s', [Ret (); Ret ()]) ∧
    stock_of s' (product_id item) = Some (VInt (z + 2 * quantity item)) ∧
    ∃ r, order_of s' oid = Some r ∧ r !! "status" = Some (VStr "cancelled").
Proof.
  intros Ho Hown Hst Hitems Hz. split.
  { intros Hrole.
    destruct (run_cancel_order now oid owner s order [item])
      as (s1 & Hrun & _ & Hm & Ho1 & _); [done | by right | done | |].
    { constructor; [|done]. right. by rewrite Hz. }
    exists s1. split; [done|].
    destruct Hm as (_ & _ & _ & _ & Hm). specialize (Hm _ _ Hz).
    cbn [qty_for foldr] in Hm. rewrite decide_True in Hm by done.
    rewrite Z.add_0_r in Hm. split; [|done].
    destruct (run_check_cancel ({[ "status" := VStr "cancelled";
                                   "updated_at" := VStr now ]} ∪ order) owner s1)
      as (g & Hg & _ & _ & Hbad).
    rewrite (Hbad Hrole) with (v := VStr "cancelled") in Hg.
    - by eapply run_cancel_order_denied.
    - rewrite lookup_union_r; [done|]. by simplify_map_eq.
    - apply lookup_union_Some_l. by simplify_map_eq.
    - done. }
  destruct (stock_of_int _ _ _ Hz) as (p & Hp & Hv). unfold order_of in Ho.
  set (back := λ (z : Z) (now : string),
         ({[ "stock" := VInt (z + quantity item); "updated_at" := VStr now ]} : record)).
  set (label := λ now : string,
         ({[ "status" := VStr "cancelled"; "updated_at" := VStr now ]} : record)).
  assert (Hback : ∀ z now, back z now !! "id" = None) by done.
  assert (Hlabel : ∀ now, label now !! "id" = None) by done.
  destruct (update_first_Some (product_id item) (back z now) _ _ Hp)
    as (i & Hi & _ & Hup).
  pose proof (first_match_update _ _ _ _ _ (product_id item) (Hback z now) Hup) as Hp1.
  rewrite decide_True in Hp1 by done.
  destruct (update_first_Some (product_id item) (back (z + quantity item) now') _ _ Hp1)
    as (i' & _ & _ & Hup').
  pose proof (first_match_update _ _ _ _ _ (product_id item)
                (Hback (z + quantity item) now') Hup') as Hp2.
  rewrite decide_True in Hp2 by done.
  destruct (update_first_Some oid (label now) _ _ Ho) as (j & _ & _ & Hlab).
  pose proof (first_match_update _ _ _ _ _ oid (Hlabel now) Hlab) as Ho1.
  rewrite decide_True in Ho1 by done.
  destruct (update_first_Some oid (label now') _ _ Ho1) as (j' & _ & _ & Hlab').
  assert (Hv1 : (back z now ∪ p) !! "stock" = Some (VInt (z + quantity item))).
  { apply lookup_union_Some_l. unfold back. by simplify_map_eq. }
  eexists. split.
  { unfold Orders.cancel_order.
    step. rewrite Ho. rewrite (check_cancel_pending_owner _ _ Hown Hst).
    rewrite (subscript_Some _ _ _ Hitems). step.
    rewrite Hp. rewrite (subscript_Some _ _ _ Hv). step.
    fold (back z now). rewrite Hup. step.
    rewrite Ho. rewrite (check_cancel_pending_owner _ _ Hown Hst).
    rewrite (subscript_Some _ _ _ Hitems). step.
    fold (label now). rewrite Hlab. step.
    rewrite Hp1. rewrite (subscript_Some _ _ _ Hv1). step.
    fold (back (z + quantity item) now'). rewrite Hup'. step.
    fold (label now'). rewrite Hlab'. step.
    reflexivity. }
  split.
  - unfold stock_of. cbn [products]. rewrite Hp2. cbn [mbind option_bind].
    erewrite lookup_union_Some_l; [|unfold back; by simplify_map_eq].
    do 2 f_equal. lia.
  - eexists. split.
    + unfold order_of. cbn [orders].
      rewrite (first_match_update _ _ _ _ _ oid (Hlabel now') Hlab').
      by rewrite decide_True.
    + apply lookup_union_Some_l. unfold label. by simplify_map_eq.
Qed.

End races.


(** ** The properties above on the sample data *)

Section samples.
Import JSONDatabase.

Lemma delete_removes_every_match_witness :
  run (JSONDatabase.delete products_json "p9") Sample.shop = (Sample.shop, Returned false) ∧
  run (JSONDatabase.delete products_json "p1") Sample.shop =
    (_write products_json
       (base.filter (λ item, ¬ JSONDatabase.field_is "id" "p1" item)
          (_read products_json Sample.shop)) Sample.shop,
     Returned true).
Proof.
  pose proof (delete_removes_every_match products_json "p9" Sample.shop) as (Hnone & _).
  pose proof (delete_removes_every_match products_json "p1" Sample.shop) as (_ & Hsome & _).
  split; [apply Hnone; reflexivity | apply Hsome; by eexists].
Defined.

Lemma create_appends_unchecked_witness :
  run (JSONDatabase.create products_json Sample.pen ≫=
         λ _, JSONDatabase.get_by_id products_json "p1") Sample.shop =
    (_write products_json (_read products_json Sample.shop ++ [Sample.pen]) Sample.shop,
     Returned (Some (default Sample.pen
                       (JSONDatabase.first_match "id" "p1"
                          (_read products_json Sample.shop))))).
Proof.
  apply (create_appends_unchecked products_json Sample.pen "p1" Sample.shop).
  reflexivity.
Defined.

Lemma update_then_get_by_id_witness :
  ∃ s',
    run (JSONDatabase.update products_json "p1" {[ "stock" := VInt 7 ]}) Sample.shop =
      (s', Returned (Some ({[ "stock" := VInt 7 ]} ∪ Sample.pen))) ∧
    run (JSONDatabase.get_by_id products_json "p1") s' =
      (s', Returned (Some ({[ "stock" := VInt 7 ]} ∪ Sample.pen))) ∧
    (∀ id', id' ≠ "p1" →
       JSONDatabase.first_match "id" id' (_read products_json s') =
       JSONDatabase.first_match "id" id' (_read products_json Sample.shop)) ∧
    length (_read products_json s') = length (_read products_json Sample.shop).
Proof.
  apply (update_then_get_by_id products_json "p1" {[ "stock" := VInt 7 ]} Sample.pen
           Sample.shop); reflexivity.
Defined.

Lemma update_twice_is_update_merged_witness :
  run (JSONDatabase.update products_json "p1" {[ "stock" := VInt 7 ]} ≫=
         λ _, JSONDatabase.update products_json "p1" {[ "name" := VStr "quill" ]})
      Sample.shop =
  run (JSONDatabase.update products_json "p1"
         ({[ "name" := VStr "quill" ]} ∪ {[ "stock" := VInt 7 ]})) Sample.shop.
Proof.
  apply (update_twice_is_update_merged products_json "p1" {[ "stock" := VInt 7 ]}
           {[ "name" := VStr "quill" ]} Sample.shop).
  reflexivity.
Defined.

Lemma as_admin_lets_active_admins_through_witness :
  run (as_admin (Users.delete_user "u2") Sample.root) Sample.club =
    run (Users.delete_user "u2" Sample.root) Sample.club ∧
  run (as_admin (Users.delete_user "u2") Sample.ann) Sample.club =
    (Sample.club, Raised ForbiddenException).
Proof.
  split.
  - apply (proj1 (as_admin_lets_active_admins_through (Users.delete_user "u2")
                    Sample.root Sample.club)); reflexivity.
  - apply (proj2 (as_admin_lets_active_admins_through (Users.delete_user "u2")
                    Sample.ann Sample.club)).
    right. discriminate.
Defined.

Lemma get_orders_shows_own_orders_witness :
  ∃ result,
    run (OrderViews.get_orders 0 10 None Sample.bob) Sample.shop_after_two =
      (Sample.shop_after_two, Returned result) ∧
    ∀ o, o ∈ result → o !! "user_id" = Some (VStr "u2").
Proof.
  destruct (get_orders_shows_own_orders 0 10 None Sample.bob Sample.shop_after_two)
    as (result & Hrun & _ & _ & Hown & _).
  exists result. split; [exact Hrun|]. apply Hown. discriminate.
Defined.

Lemma get_order_for_owner_or_admin_witness :
  (run (OrderViews.get_order "o1" Sample.ann) Sample.shop_after_two).2 =
    Returned Sample.two_pens_order ∧
  (run (OrderViews.get_order "o1" Sample.bob) Sample.shop_after_two).2 =
    Raised ForbiddenException ∧
  (run (OrderViews.get_order "o9" Sample.bob) Sample.shop_after_two).2 =
    Raised NotFoundException.
Proof.
  split_and!.
  - apply (proj1 (proj2 (get_order_for_owner_or_admin "o1" Sample.ann
                           Sample.shop_after_two))).
    split; [reflexivity | right; reflexivity].
  - apply (proj2 (proj2 (proj2 (get_order_for_owner_or_admin "o1" Sample.bob
                                  Sample.shop_after_two)))
             Sample.two_pens_order (VStr "u1"));
      [reflexivity | discriminate | reflexivity | discriminate].
  - apply (proj1 (proj2 (proj2 (get_order_for_owner_or_admin "o9" Sample.bob
                                  Sample.shop_after_two)))).
    reflexivity.
Defined.

Lemma get_order_is_listed_witness :
  ∃ result,
    run (OrderViews.get_orders 0 (length (orders Sample.shop_after_two)) None Sample.ann)
        Sample.shop_after_two = (Sample.shop_after_two, Returned result) ∧
    Sample.two_pens_order ∈ result.
Proof.
  apply (get_order_is_listed "o1" Sample.ann Sample.shop_after_two Sample.shop_after_two
           Sample.two_pens_order).
  reflexivity.
Defined.

Lemma update_order_status_any_transition_witness :
  run (Orders.update_order_status "t3" "o9" "completed" Sample.root) Sample.shop_cancelled =
    (Sample.shop_cancelled, Raised NotFoundException) ∧
  ∃ s' r,
    run (Orders.update_order_status "t3" "o1" "completed" Sample.root) Sample.shop_cancelled =
      (s', Returned r) ∧
    r !! "status" = Some (VStr "completed") ∧
    (∀ key, key ≠ "status" → key ≠ "updated_at" → r !! key = Sample.cancelled_order !! key) ∧
    order_of s' "o1" = Some r ∧
    (∀ oid', oid' ≠ "o1" → order_of s' oid' = order_of Sample.shop_cancelled oid') ∧
    users s' = users Sample.shop_cancelled ∧ products s' = products Sample.shop_cancelled.
Proof.
  split.
  - apply (proj1 (update_order_status_any_transition "t3" "o9" "completed" Sample.root
                    Sample.shop_cancelled)).
    reflexivity.
  - apply (proj2 (update_order_status_any_transition "t3" "o1" "completed" Sample.root
                    Sample.shop_cancelled) Sample.cancelled_order).
    reflexivity.
Defined.

Lemma reopened_order_restocks_again_witness :
  ∃ s1 r s2,
    run (Orders.update_order_status "t3" "o1" "pending" Sample.root) Sample.shop_cancelled =
      (s1, Returned r) ∧
    products s1 = products Sample.shop_cancelled ∧
    run (Orders.cancel_order "t4" "o1" Sample.ann) s1 = (s2, Returned ()) ∧
    (∀ pid z, stock_of Sample.shop_cancelled pid = Some (VInt z) →
              stock_of s2 pid = Some (VInt (z + qty_for pid [Sample.pens 2]))).
Proof.
  apply (reopened_order_restocks_again "t3" "t4" "o1" Sample.root Sample.ann
           Sample.shop_cancelled Sample.cancelled_order [Sample.pens 2]);
    [reflexivity .. |].
  constructor; [right; exact I | constructor].
Defined.

Lemma pens_covered n :
  n ≤ 5 → is_Some (float_of_int n) → covered Sample.shop (Sample.pens n).
Proof. intros Hle [qf Hq]. by exists 5, qf. Qed.

Lemma create_order_checks_each_item_alone_witness :
  ∃ s' r,
    run (Orders.create_order "o1" "t1"
           {| OrderCreate.items := [Sample.pens 3; Sample.pens 3] |} Sample.ann)
        Sample.shop = (s', Returned r) ∧
    (∀ pid z, stock_of Sample.shop pid = Some (VInt z) →
       stock_of s' pid = Some (VInt (z - qty_for pid [Sample.pens 3; Sample.pens 3]))).
Proof.
  apply (create_order_checks_each_item_alone "o1" "t1"
           {| OrderCreate.items := [Sample.pens 3; Sample.pens 3] |} Sample.ann Sample.shop).
  repeat constructor; apply pens_covered; (discriminate || by eexists).
Defined.

Lemma create_then_cancel_restores_every_stock_witness :
  ∃ s1 r s2 r',
    run (Orders.create_order "o1" "t1"
           {| OrderCreate.items := [Sample.pens 3; Sample.pens 2] |} Sample.ann)
        Sample.shop = (s1, Returned r) ∧
    run (Orders.cancel_order "t2" "o1" Sample.root) s1 = (s2, Returned ()) ∧
    (∀ pid z, stock_of Sample.shop pid = Some (VInt z) → stock_of s2 pid = Some (VInt z)) ∧
    order_of s2 "o1" = Some r' ∧ r' !! "status" = Some (VStr "cancelled").
Proof.
  apply (create_then_cancel_restores_every_stock "o1" "t1" "t2"
           {| OrderCreate.items := [Sample.pens 3; Sample.pens 2] |}
           Sample.ann Sample.root Sample.shop).
  - reflexivity.
  - repeat constructor; apply pens_covered; (discriminate || by eexists).
  - by left.
Defined.

Lemma login_checks_password_then_active_witness :
  (run (login Sample.toy_hash Sample.toy_token "ann" "secret1") Sample.club).2 =
    Returned {[ "access_token" := VStr (Sample.toy_token {[ "sub" := VStr "ann" ]});
                "token_type" := VStr "bearer" ]} ∧
  (run (login Sample.toy_hash Sample.toy_token "zed" "secret1") Sample.club).2 =
    Raised UnauthorizedException ∧
  (run (login Sample.toy_hash Sample.toy_token "ann" "guess") Sample.club).2 =
    Raised UnauthorizedException.
Proof.
  split_and!.
  - apply (proj1 (proj2 (login_checks_password_then_active Sample.toy_hash
                           Sample.toy_token "ann" "secret1" Sample.club))).
    split; [reflexivity|]. exists Sample.ann_record. by split_and!.
  - apply (proj1 (proj2 (proj2 (login_checks_password_then_active Sample.toy_hash
                                  Sample.toy_token "zed" "secret1" Sample.club)))).
    reflexivity.
  - apply (proj2 (proj2 (proj2 (login_checks_password_then_active Sample.toy_hash
                                  Sample.toy_token "ann" "guess" Sample.club)))
             Sample.ann_record (VStr "sha256:secret1")); [reflexivity .. |].
    left. discriminate.
Defined.

Lemma register_then_login_witness :
  run (login Sample.toy_hash Sample.toy_token "cyd" "secret3") Sample.club_with_cyd =
    (Sample.club_with_cyd,
     Returned {[ "access_token" := VStr (Sample.toy_token {[ "sub" := VStr "cyd" ]});
                 "token_type" := VStr "bearer" ]}).
Proof.
  apply (register_then_login Sample.toy_hash Sample.toy_token "u3" "t5" Sample.cyd
           Sample.club Sample.club_with_cyd Sample.cyd_record).
  reflexivity.
Defined.

Lemma get_user_for_self_or_admin_witness :
  (run (Users.get_user "u1" Sample.ann) Sample.club).2 = Returned Sample.ann_record ∧
  (run (Users.get_user "u1" Sample.bob) Sample.club).2 = Raised ForbiddenException ∧
  (run (Users.get_user "u9" Sample.bob) Sample.club).2 = Raised NotFoundException.
Proof.
  split_and!.
  - apply (proj1 (proj2 (get_user_for_self_or_admin "u1" Sample.ann Sample.club))).
    split; [reflexivity | right; reflexivity].
  - apply (proj2 (proj2 (proj2 (get_user_for_self_or_admin "u1" Sample.bob Sample.club))));
      [by eexists | discriminate | discriminate].
  - apply (proj1 (proj2 (proj2 (get_user_for_self_or_admin "u9" Sample.bob Sample.club)))).
    reflexivity.
Defined.

Lemma delete_user_by_another_admin_witness :
  run (as_admin (Users.delete_user "u2") Sample.bob) Sample.club =
    (Sample.club, Raised ForbiddenException) ∧
  ∃ s', run (as_admin (Users.delete_user "u2") Sample.root) Sample.club = (s', Returned ()) ∧
    (∀ item, item ∈ users s' → item !! "id" ≠ Some (VStr "u2")) ∧
    (∀ uid, uid ≠ "u2" → user_of s' uid = user_of Sample.club uid) ∧
    orders s' = orders Sample.club ∧ products s' = products Sample.club.
Proof.
  split.
  - apply (proj1 (delete_user_by_another_admin "u2" Sample.bob Sample.club)).
    right. discriminate.
  - apply (proj2 (delete_user_by_another_admin "u2" Sample.root Sample.club));
      [reflexivity | reflexivity | by eexists | discriminate].
Defined.

Lemma update_user_keeps_identity_witness :
  ∃ r', users (run (update_user Sample.toy_hash "t7" "u2" Sample.take_ann_email
                      Sample.bob) Sample.club).1 !! 0%nat = Some r' ∧
    (Sample.ann_record !! "id" ≠ Some (VStr "u2") → r' = Sample.ann_record) ∧
    ∀ key, key ≠ "email" → key ≠ "full_name" → key ≠ "hashed_password" →
           key ≠ "updated_at" → r' !! key = Sample.ann_record !! key.
Proof.
  destruct (update_user_keeps_identity Sample.toy_hash "t7" "u2" Sample.take_ann_email
              Sample.bob Sample.club) as (_ & _ & _ & Hrecords).
  apply (Hrecords 0%nat Sample.ann_record).
  reflexivity.
Defined.

Lemma new_product_can_be_ordered_witness :
  ∃ s1 p s2 r p',
    run (Products.create_product "p2" "t1" Sample.ink Sample.root) Sample.shop =
      (s1, Returned p) ∧
    run (Orders.create_order "o1" "t2" {| OrderCreate.items := [Sample.inks 3] |} Sample.ann)
        s1 = (s2, Returned r) ∧
    run (Products.get_product "p2") s2 = (s2, Returned p') ∧
    p' !! "stock" = Some (VInt (ProductCreate.stock Sample.ink - quantity (Sample.inks 3))) ∧
    users s2 = users Sample.shop.
Proof.
  apply (new_product_can_be_ordered "p2" "t1" Sample.ink Sample.root "o1" "t2"
           (Sample.inks 3) Sample.ann (S754_finite false 6755399441055744 (-51))
           Sample.shop); [reflexivity | reflexivity | discriminate | reflexivity].
Defined.

Lemma update_product_sets_stock_witness :
  (∃ r, product_of (run (Products.update_product "t3" "p1" Sample.restock_nine
                           Sample.root) Sample.shop).1 "p1" = Some r ∧
        r !! "id" = Some (VStr "p1")) ∧
  stock_of (run (Products.update_product "t3" "p1" Sample.restock_nine Sample.root)
              Sample.shop).1 "p1" = Some (VInt 9) ∧
  (∀ pid, pid ≠ "p1" →
     product_of (run (Products.update_product "t3" "p1" Sample.restock_nine Sample.root)
                   Sample.shop).1 pid = product_of Sample.shop pid) ∧
  users (run (Products.update_product "t3" "p1" Sample.restock_nine Sample.root)
           Sample.shop).1 = users Sample.shop ∧
  orders (run (Products.update_product "t3" "p1" Sample.restock_nine Sample.root)
            Sample.shop).1 = orders Sample.shop.
Proof.
  apply (proj2 (update_product_sets_stock "t3" "p1" Sample.restock_nine Sample.root
                  Sample.shop) 9); [by eexists | reflexivity].
Defined.

Lemma deleted_product_is_not_restocked_witness :
  ∃ s1,
    run (Products.delete_product "p1" Sample.root) Sample.shop_after_two = (s1, Returned ()) ∧
    product_of s1 "p1" = None ∧
    orders s1 = orders Sample.shop_after_two ∧ users s1 = users Sample.shop_after_two ∧
    (∀ uuid4 utcnow order buyer item,
       item ∈ OrderCreate.items order → product_id item = "p1" →
       ∃ e, run (Orders.create_order uuid4 utcnow order buyer) s1 = (s1, Raised e)) ∧
    (∀ utcnow oid canceller order items,
       order_of s1 oid = Some order →
       UserInDB.role canceller = "admin" ∨
       (order !! "user_id" = Some (VStr (UserInDB.id canceller)) ∧
        order !! "status" = Some (VStr "pending")) →
       order !! "items" = Some (VItems items) →
       Forall (λ item, product_id item = "p1") items →
       ∃ s2, run (Orders.cancel_order utcnow oid canceller) s1 = (s2, Returned ()) ∧
             products s2 = products s1).
Proof.
  apply (deleted_product_is_not_restocked "p1" Sample.root Sample.shop_after_two).
  by eexists.
Defined.

Lemma deactivated_user_cannot_login_witness :
  ∃ s1 s2,
    run (UsersV2.deactivate_user "t8" "u2" Sample.root) Sample.club =
      (s1, Returned (VStr "bob")) ∧
    (∀ password,
       run (login Sample.toy_hash Sample.toy_token "bob" password) s1 =
         (s1, Raised UnauthorizedException)) ∧
    run (UsersV2.activate_user "t9" "u2" Sample.root) s1 = (s2, Returned (VStr "bob")) ∧
    (∀ password, VStr "sha256:secret2" = VStr (Sample.toy_hash password) →
       run (login Sample.toy_hash Sample.toy_token "bob" password) s2 =
         (s2, Returned
            {[ "access_token" := VStr (Sample.toy_token {[ "sub" := VStr "bob" ]});
               "token_type" := VStr "bearer" ]})).
Proof.
  refine (proj2 (deactivated_user_cannot_login Sample.toy_hash Sample.toy_token
                   "t8" "t9" "u2" "bob" Sample.bob_record (VStr "sha256:secret2")
                   Sample.root Sample.root Sample.club _ _ _) _);
    [reflexivity .. | discriminate].
Defined.

Lemma interleaved_registers_share_username_witness :
  ∃ s',
    run_schedule [0; 1; 0; 1; 0; 1]%nat
      (Sample.club, [register Sample.toy_hash "u3" "t5" Sample.cyd;
                     register Sample.toy_hash "u4" "t6" Sample.cyd]) =
      (s', [Ret (user_record Sample.toy_hash "u3" "t5" Sample.cyd);
            Ret (user_record Sample.toy_hash "u4" "t6" Sample.cyd)]) ∧
    users s' = (users Sample.club ++
                  [user_record Sample.toy_hash "u3" "t5" Sample.cyd;
                   user_record Sample.toy_hash "u4" "t6" Sample.cyd])%list ∧
    products s' = products Sample.club ∧ orders s' = orders Sample.club ∧
    (UserCreate.username Sample.cyd = UserCreate.username Sample.cyd →
       ¬ unique_field "username" (users s')) ∧
    (UserCreate.email Sample.cyd = UserCreate.email Sample.cyd →
       ¬ unique_field "email" (users s')).
Proof.
  apply (interleaved_registers_share_username Sample.toy_hash "u3" "t5" Sample.cyd
           "u4" "t6" Sample.cyd Sample.club); reflexivity.
Defined.

Lemma interleaved_cancels_restock_twice_witness :
  (UserInDB.role Sample.ann ≠ "admin" →
     ∃ s1,
       run (Orders.cancel_order "t2" "o1" Sample.ann) Sample.shop_after_two =
         (s1, Returned ()) ∧
       run (Orders.cancel_order "t3" "o1" Sample.ann) s1 =
         (s1, Raised BadRequestException) ∧
       stock_of s1 (product_id (Sample.pens 2)) =
         Some (VInt (3 + quantity (Sample.pens 2)))) ∧
  ∃ s',
    run_schedule [0; 0; 0; 1; 0; 1; 1; 1]%nat
      (Sample.shop_after_two,
       [Orders.cancel_order "t2" "o1" Sample.ann;
        Orders.cancel_order "t3" "o1" Sample.ann]) = (s', [Ret (); Ret ()]) ∧
    stock_of s' (product_id (Sample.pens 2)) =
      Some (VInt (3 + 2 * quantity (Sample.pens 2))) ∧
    ∃ r, order_of s' "o1" = Some r ∧ r !! "status" = Some (VStr "cancelled").
Proof.
  apply (interleaved_cancels_restock_twice "t2" "t3" "o1" Sample.ann
           Sample.shop_after_two Sample.two_pens_order (Sample.pens 2) 3);
    reflexivity.
Defined.

Lemma null_stock_blocks_orders_witness :
  stock_of (run (Products.update_product "t3" "p1" Sample.no_stock Sample.root)
              Sample.shop).1 "p1" = Some VNone ∧
  run (Orders.create_order "o1" "t4" {| OrderCreate.items := [Sample.pens 1] |} Sample.ann)
      (run (Products.update_product "t3" "p1" Sample.no_stock Sample.root) Sample.shop).1 =
    ((run (Products.update_product "t3" "p1" Sample.no_stock Sample.root) Sample.shop).1,
     Raised TypeError).
Proof.
  destruct (null_stock_blocks_orders "t3" "p1" Sample.no_stock Sample.root Sample.shop)
    as (Hstock & _ & _ & _ & Hone); [by eexists | reflexivity |].
  split; [exact Hstock|].
  apply (Hone "o1" "t4" (Sample.pens 1) Sample.ann). reflexivity.
Defined.

Lemma password_change_then_login_witness :
  (truthy (default (VBool true) (Sample.bob_record !! "is_active")) = true →
     run (login Sample.toy_hash Sample.toy_token "bob" "secret9")
         (run (update_user Sample.toy_hash "t7" "u2" Sample.new_password Sample.bob)
              Sample.club).1 =
       ((run (update_user Sample.toy_hash "t7" "u2" Sample.new_password Sample.bob)
             Sample.club).1,
        Returned
          {[ "access_token" := VStr (Sample.toy_token {[ "sub" := VStr "bob" ]});
             "token_type" := VStr "bearer" ]})) ∧
  (∀ pw', Sample.toy_hash pw' ≠ Sample.toy_hash "secret9" →
     run (login Sample.toy_hash Sample.toy_token "bob" pw')
         (run (update_user Sample.toy_hash "t7" "u2" Sample.new_password Sample.bob)
              Sample.club).1 =
       ((run (update_user Sample.toy_hash "t7" "u2" Sample.new_password Sample.bob)
             Sample.club).1,
        Raised UnauthorizedException)).
Proof.
  apply (password_change_then_login Sample.toy_hash Sample.toy_token "t7" "u2" "bob"
           Sample.new_password Sample.bob "secret9" Sample.bob_record Sample.club);
    [reflexivity | reflexivity | by right | reflexivity].
Defined.

End samples.
